(** * Alchemy Studio MCP server: tool dispatch, payload normalisation, video polling

    A shallow embedding of the three deployment shells of the server
    ([src/index.ts], the proxying variant; [src/standalone.ts], the
    direct-provider variant; the hosted-platform variant) and the
    properties of its dispatch core.

    Layout: the JavaScript values the handlers manipulate ([Js]), the
    runtime's base64 codec ([Base64]), the effects a handler performs
    ([Rt]: a tree of external calls with an interpreter against an
    environment), then one module per source file.  All definitions come
    first; the lemmas and theorems follow. *)

From Stdlib Require Import String Ascii List ZArith NArith Lia Bool.
From Stdlib Require Import DecimalString.
From Stdlib Require Strings.Byte.
Import ListNotations.

#[local] Set Warnings "-register-all".

Local Open Scope list_scope.
Local Open Scope string_scope.

(* ===================================================================== *)
(** * JavaScript values *)
(* ===================================================================== *)

Module Js.

(** JSON-shaped values, plus [undefined].  Numbers are the integers (no
    property below depends on fractions).  A string is the sequence of its
    bytes.  An object is the association list of its own properties, in
    insertion order; inherited properties are not modelled. *)
Inductive value : Type :=
| VUndef
| VNull
| VBool (b : bool)
| VNum (n : Z)
| VStr (s : string)
| VArr (items : list value)
| VObj (fields : list (string * value)).

(** The constructor a thrown error object was made with. *)
Inductive ErrorClass : Type := ErrorK | TypeErrorK | SyntaxErrorK.

(** What a [throw] (or a rejected promise) carries: an [Error] instance
    with its [message], or any other value. *)
Inductive Thrown : Type :=
| ThrownError (k : ErrorClass) (message : string)
| ThrownValue (v : value).

Definition newline : string := String (ascii_of_nat 10) EmptyString.

Definition string_of_Z (n : Z) : string := NilZero.string_of_int (Z.to_int n).

(** ToBoolean. *)
Definition truthy (v : value) : bool :=
  match v with
  | VUndef | VNull => false
  | VBool b => b
  | VNum n => negb (n =? 0)%Z
  | VStr s => negb (s =? "")
  | VArr _ | VObj _ => true
  end.

(** ToString, as applied by [String(v)] and by template literals. *)
Fixpoint toString (v : value) : string :=
  match v with
  | VUndef => "undefined"
  | VNull => "null"
  | VBool true => "true"
  | VBool false => "false"
  | VNum n => string_of_Z n
  | VStr s => s
  | VArr items =>
      (fix join (l : list value) : string :=
         match l with
         | [] => ""
         | x :: rest =>
             let sx := match x with VUndef | VNull => "" | _ => toString x end in
             match rest with
             | [] => sx
             | _ :: _ => sx ++ "," ++ join rest
             end
         end) items
  | VObj _ => "[object Object]"
  end.

Fixpoint lookup (k : string) (fields : list (string * value)) : value :=
  match fields with
  | [] => VUndef
  | (k', v) :: rest => if k' =? k then v else lookup k rest
  end.

Definition nullish (v : value) : bool :=
  match v with VUndef | VNull => true | _ => false end.

(** [v?.k]: own property [k], [undefined] on a nullish receiver and on
    receivers without that own property. *)
Definition getOpt (v : value) (k : string) : value :=
  match v with
  | VObj fields => lookup k fields
  | _ => VUndef
  end.

(** [v.k]: as [getOpt], but reading a property of [undefined] or [null]
    throws a TypeError. *)
Definition get (v : value) (k : string) : Thrown + value :=
  if nullish v
  then inl (ThrownError TypeErrorK
              ("Cannot read properties of " ++ toString v ++ " (reading '" ++ k ++ "')"))
  else inr (getOpt v k).

(** [v?.[0]]. *)
Definition index0 (v : value) : value :=
  match v with
  | VArr items => nth 0 items VUndef
  | VObj fields => lookup "0" fields
  | VStr (String c _) => VStr (String c EmptyString)
  | _ => VUndef
  end.

(** [a || b]. *)
Definition or_else (a b : value) : value := if truthy a then a else b.

(** A destructuring default, [{ k = d }]: applies on [undefined] only. *)
Definition with_default (d : value) (v : value) : value :=
  match v with VUndef => d | _ => v end.

(** [a === b] against a string literal. *)
Definition is_string (lit : string) (v : value) : bool :=
  match v with VStr s => s =? lit | _ => false end.

(** [String.prototype.startsWith]. *)
Definition startsWith (p s : string) : bool := String.prefix p s.

(** [s.split(',')]: every comma separates; the result is never empty. *)
Fixpoint split_comma (s : string) : list string :=
  match s with
  | EmptyString => [EmptyString]
  | String c rest =>
      if (c =? ",")%char then EmptyString :: split_comma rest
      else match split_comma rest with
           | [] => [String c EmptyString]
           | h :: t => String c h :: t
           end
  end.

(** The longest run of characters other than [;] at the head of [s]. *)
Fixpoint until_semicolon (s : string) : string :=
  match s with
  | EmptyString => EmptyString
  | String c rest =>
      if (c =? ";")%char then EmptyString else String c (until_semicolon rest)
  end.

(** [s.match(/data:([^;]+)/)?.[1]]: the regular expression is not
    anchored, so the leftmost position where [data:] is followed by at
    least one character other than [;] wins; the group is greedy. *)
Fixpoint match_data_mime (s : string) : option string :=
  let here :=
    if String.prefix "data:" s
    then match until_semicolon (substring 5 (String.length s - 5) s) with
         | EmptyString => None
         | m => Some m
         end
    else None in
  match here with
  | Some m => Some m
  | None => match s with
            | EmptyString => None
            | String _ rest => match_data_mime rest
            end
  end.

End Js.

(* ===================================================================== *)
(** * The runtime's base64 codec *)
(* ===================================================================== *)

Module Base64.

(** A model of the two directions of Node's [Buffer] the handlers use:
    [buffer.toString('base64')] and [Buffer.from(text, 'base64')]. *)

Definition bytes : Type := list Byte.byte.

(** The character of a sextet in the standard alphabet
    [A-Z a-z 0-9 + /]. *)
Definition sextet_char (n : N) : ascii :=
  if (n <? 26)%N then ascii_of_N (n + 65)
  else if (n <? 52)%N then ascii_of_N (n + 71)
  else if (n <? 62)%N then ascii_of_N (n - 4)
  else if (n =? 62)%N then "+"%char
  else "/"%char.

(** The sextet of a character; the decoder also accepts the URL-safe
    [-] and [_]. *)
Definition char_sextet (c : ascii) : option N :=
  let n := N_of_ascii c in
  if ((65 <=? n) && (n <=? 90))%N then Some (n - 65)%N
  else if ((97 <=? n) && (n <=? 122))%N then Some (n - 71)%N
  else if ((48 <=? n) && (n <=? 57))%N then Some (n + 4)%N
  else if ((n =? 43) || (n =? 45))%N then Some 62%N
  else if ((n =? 47) || (n =? 95))%N then Some 63%N
  else None.

Definition byte_of_N (n : N) : Byte.byte :=
  match Byte.of_N (n mod 256) with
  | Some b => b
  | None => Byte.x00
  end.

(** [buffer.toString('base64')]: three bytes become four characters; a
    tail of one or two bytes is padded with [=]. *)
Fixpoint encode (bs : bytes) : string :=
  match bs with
  | [] => EmptyString
  | [a] =>
      let x := Byte.to_N a in
      String (sextet_char (x / 4))
        (String (sextet_char ((x mod 4) * 16)) "==")
  | [a; b] =>
      let x := Byte.to_N a in
      let y := Byte.to_N b in
      String (sextet_char (x / 4))
        (String (sextet_char ((x mod 4) * 16 + y / 16))
           (String (sextet_char ((y mod 16) * 4)) "="))
  | a :: b :: c :: rest =>
      let x := Byte.to_N a in
      let y := Byte.to_N b in
      let z := Byte.to_N c in
      String (sextet_char (x / 4))
        (String (sextet_char ((x mod 4) * 16 + y / 16))
           (String (sextet_char ((y mod 16) * 4 + z / 64))
              (String (sextet_char (z mod 64)) (encode rest))))
  end%N.

(** The sextets the lenient decoder reads: it stops at the first [=] and
    skips every character outside the alphabet (white space included). *)
Fixpoint sextets (s : string) : list N :=
  match s with
  | EmptyString => []
  | String c rest =>
      if (c =? "=")%char then []
      else match char_sextet c with
           | Some n => n :: sextets rest
           | None => sextets rest
           end
  end.

Fixpoint bytes_of_sextets (l : list N) : bytes :=
  match l with
  | a :: b :: c :: d :: rest =>
      byte_of_N (a * 4 + b / 16)
        :: byte_of_N ((b mod 16) * 16 + c / 4)
        :: byte_of_N ((c mod 4) * 64 + d)
        :: bytes_of_sextets rest
  | [a; b; c] =>
      [byte_of_N (a * 4 + b / 16); byte_of_N ((b mod 16) * 16 + c / 4)]
  | [a; b] => [byte_of_N (a * 4 + b / 16)]
  | _ => []
  end%N.

(** [Buffer.from(s, 'base64')] on a string. *)
Definition decode (s : string) : bytes := bytes_of_sextets (sextets s).

End Base64.

(* ===================================================================== *)
(** * Effects: external calls and their interpretation *)
(* ===================================================================== *)

Module Rt.
Import Js.

(** One entry of a [FormData].  A file entry records the arguments of
    [new File([buffer], name, { type })]. *)
Inductive FormValue : Type :=
| FormText (s : string)
| FormFile (content : Base64.bytes) (filename : string) (type : string).

(** A request body.  [JSON.stringify(obj)] is represented by the value the
    text denotes (see [json_object]). *)
Inductive Body : Type :=
| NoBody
| JsonBody (v : value)
| FormBody (entries : list (string * FormValue)).

Record Request : Type := mkRequest {
  url : string;
  method : string;
  headers : list (string * string);
  body : Body
}.

(** A resolved [fetch]: status line, content type, and what
    [response.json()] and [response.arrayBuffer()] settle to. *)
Record Response : Type := mkResponse {
  status : Z;
  statusText : string;
  contentType : string;
  json : Thrown + value;
  arrayBuffer : Base64.bytes
}.

(** [response.ok]: the status is in the range 200-299. *)
Definition ok (r : Response) : bool :=
  ((200 <=? status r) && (status r <=? 299))%Z.

Inductive FetchResult : Type :=
| Rejected (e : Thrown)
| Resolved (r : Response).

(** The chat-completion request; the fixed sampling settings
    (temperature, token limit) are left out. *)
Record ChatRequest : Type := mkChat {
  chat_model : string;
  chat_system : string;
  chat_user : string
}.

(** A handler run: a finite tree whose inner nodes are the external calls
    (and timer waits) in program order, branching on the reply.  [Stuck]
    marks a loop that ran out of the fuel given to its model. *)
Inductive Prog (A : Type) : Type :=
| Ret (a : A)
| Throw (e : Thrown)
| Fetch (req : Request) (k : FetchResult -> Prog A)
| Sleep (ms : Z) (k : Prog A)
| GenerateContent (modelId : string) (contents : value) (k : Thrown + value -> Prog A)
| ChatCreate (req : ChatRequest) (k : Thrown + value -> Prog A)
| Stuck.

Arguments Ret {A} a.
Arguments Throw {A} e.
Arguments Fetch {A} req k.
Arguments Sleep {A} ms k.
Arguments GenerateContent {A} modelId contents k.
Arguments ChatCreate {A} req k.
Arguments Stuck {A}.

Fixpoint bind {A B : Type} (p : Prog A) (f : A -> Prog B) : Prog B :=
  match p with
  | Ret a => f a
  | Throw e => Throw e
  | Fetch req k => Fetch req (fun r => bind (k r) f)
  | Sleep ms k => Sleep ms (bind k f)
  | GenerateContent m c k => GenerateContent m c (fun r => bind (k r) f)
  | ChatCreate q k => ChatCreate q (fun r => bind (k r) f)
  | Stuck => Stuck
  end.

(** [try { p } catch (error) { h error }]. *)
Fixpoint try_catch {A : Type} (p : Prog A) (h : Thrown -> Prog A) : Prog A :=
  match p with
  | Ret a => Ret a
  | Throw e => h e
  | Fetch req k => Fetch req (fun r => try_catch (k r) h)
  | Sleep ms k => Sleep ms (try_catch k h)
  | GenerateContent m c k => GenerateContent m c (fun r => try_catch (k r) h)
  | ChatCreate q k => ChatCreate q (fun r => try_catch (k r) h)
  | Stuck => Stuck
  end.

Declare Scope prog_scope.
Delimit Scope prog_scope with prog.
Notation "x <- p ;; q" := (bind p (fun x => q))
  (at level 61, p at next level, right associativity) : prog_scope.
Notation "p ;;; q" := (bind p (fun _ => q))
  (at level 61, right associativity) : prog_scope.

(** A value or a throw, lifted into a run. *)
Definition lift {A : Type} (r : Thrown + A) : Prog A :=
  match r with
  | inl e => Throw e
  | inr a => Ret a
  end.

(** [await fetch(...)]: a rejected promise is thrown. *)
Definition fetch (req : Request) : Prog Response :=
  Fetch req (fun r => match r with
                      | Rejected e => Throw e
                      | Resolved resp => Ret resp
                      end).

(** [await new Promise(resolve => setTimeout(resolve, ms))]. *)
Definition sleep (ms : Z) : Prog unit := Sleep ms (Ret tt).

Definition generateContent (modelId : string) (contents : value) : Prog value :=
  GenerateContent modelId contents lift.

Definition chatCreate (req : ChatRequest) : Prog value :=
  ChatCreate req lift.

(** [new Error(msg)]: the message is [ToString(msg)]. *)
Definition new_Error (msg : value) : Thrown := ThrownError ErrorK (toString msg).

Definition throw_Error {A : Type} (msg : string) : Prog A :=
  Throw (ThrownError ErrorK msg).

(** [JSON.stringify({ k1: v1, ... })]: properties whose value is
    [undefined] are dropped. *)
Definition json_object (fields : list (string * value)) : value :=
  VObj (filter (fun kv => match snd kv with VUndef => false | _ => true end) fields).

(** What a run did, in order. *)
Inductive Event : Type :=
| EvFetch (req : Request)
| EvSleep (ms : Z)
| EvGenerate (modelId : string) (contents : value)
| EvChat (req : ChatRequest).

(** An external call leaves the process; a timer wait does not. *)
Definition is_external (e : Event) : bool :=
  match e with EvSleep _ => false | _ => true end.

Definition external_calls (t : list Event) : nat :=
  List.length (filter is_external t).

(** The environment answers the [n]-th external call of a run. *)
Record Env : Type := mkEnv {
  on_fetch : nat -> Request -> FetchResult;
  on_generate : nat -> string -> value -> Thrown + value;
  on_chat : nat -> ChatRequest -> Thrown + value
}.

Inductive Outcome (A : Type) : Type :=
| Returned (a : A)
| Raised (e : Thrown)
| OutOfFuel.

Arguments Returned {A} a.
Arguments Raised {A} e.
Arguments OutOfFuel {A}.

(** Run [p] against [env], [n] external calls having been made already. *)
Fixpoint run {A : Type} (env : Env) (n : nat) (p : Prog A) : Outcome A * list Event :=
  match p with
  | Ret a => (Returned a, [])
  | Throw e => (Raised e, [])
  | Fetch req k =>
      let (o, t) := run env (S n) (k (on_fetch env n req)) in (o, EvFetch req :: t)
  | Sleep ms k =>
      let (o, t) := run env n k in (o, EvSleep ms :: t)
  | GenerateContent m c k =>
      let (o, t) := run env (S n) (k (on_generate env n m c)) in (o, EvGenerate m c :: t)
  | ChatCreate q k =>
      let (o, t) := run env (S n) (k (on_chat env n q)) in (o, EvChat q :: t)
  | Stuck => (OutOfFuel, [])
  end.

(** [settles P p]: on every path [p] ends, either by returning a value
    that satisfies [P] or by throwing; it never runs out of fuel. *)
Inductive settles {A : Type} (P : A -> Prop) : Prog A -> Prop :=
| settles_Ret a : P a -> settles P (Ret a)
| settles_Throw e : settles P (Throw e)
| settles_Fetch req k : (forall r, settles P (k r)) -> settles P (Fetch req k)
| settles_Sleep ms k : settles P k -> settles P (Sleep ms k)
| settles_Generate m c k :
    (forall r, settles P (k r)) -> settles P (GenerateContent m c k)
| settles_Chat q k : (forall r, settles P (k r)) -> settles P (ChatCreate q k).

(** [delivers P p]: on every path [p] returns a value that satisfies
    [P]; nothing is thrown. *)
Inductive delivers {A : Type} (P : A -> Prop) : Prog A -> Prop :=
| delivers_Ret a : P a -> delivers P (Ret a)
| delivers_Fetch req k : (forall r, delivers P (k r)) -> delivers P (Fetch req k)
| delivers_Sleep ms k : delivers P k -> delivers P (Sleep ms k)
| delivers_Generate m c k :
    (forall r, delivers P (k r)) -> delivers P (GenerateContent m c k)
| delivers_Chat q k : (forall r, delivers P (k r)) -> delivers P (ChatCreate q k).

(** The uniform result envelope. *)
Record ContentBlock : Type := mkBlock { type : string; text : string }.
Record ToolResult : Type := mkResult { content : list ContentBlock }.

Definition text_result (s : string) : ToolResult :=
  mkResult [mkBlock "text" s].

(** A registry entry as far as dispatch is concerned: the tool's name and
    the [required] list of its input schema. *)
Record ToolDescriptor : Type := mkTool {
  name : string;
  required : list string
}.

Definition registered (tools : list ToolDescriptor) (n : string) : bool :=
  existsb (fun t => name t =? n) tools.

(** A result made of exactly one text block. *)
Definition one_text_block (r : ToolResult) : Prop :=
  exists s, r = text_result s.

End Rt.

(* ===================================================================== *)
(** * src/index.ts: the proxying variant *)
(* ===================================================================== *)

Module Index.
Import Js Rt.
Local Open Scope prog_scope.

(** What the process takes from its surroundings: the backend's base URL
    and three runtime library functions used only for rendering
    ([JSON.stringify(v, null, 2)] inside a template literal,
    [new Date(v).toLocaleDateString()], and the text of a
    [URLSearchParams]). *)
Record Host : Type := mkHost {
  BASE_URL : string;
  stringify_pretty : value -> string;
  toLocaleDateString : value -> string;
  search_params : list (string * string) -> string
}.

(** The list-tools reply: names and required parameters. *)
Definition tools : list ToolDescriptor :=
  [ mkTool "generate_image" ["prompt"];
    mkTool "edit_image" ["prompt"; "image_url"];
    mkTool "generate_video" ["prompt"];
    mkTool "get_cultural_insights" ["city"; "country"];
    mkTool "list_media" [] ].

Definition nl2 : string := newline ++ newline.

(** [const { k, ... } = args]: destructuring [undefined] or [null]
    throws; otherwise each name is read as a property. *)
Definition destructure (first : string) (args : value) : Prog unit :=
  if nullish args
  then Throw (ThrownError TypeErrorK
                ("Cannot destructure property '" ++ first ++ "' of 'args' as it is "
                 ++ toString args ++ "."))
  else Ret tt.

Definition json_headers : list (string * string) :=
  [("Content-Type", "application/json")].

(** [data.image?.url || `data:${data.image?.mimeType};base64,${data.image?.imageBytes}`] *)
Definition data_url (mimeType imageBytes : string) : string :=
  "data:" ++ mimeType ++ ";base64," ++ imageBytes.

Definition image_url_of (data : value) : value :=
  let image := getOpt data "image" in
  or_else (getOpt image "url")
    (VStr (data_url (toString (getOpt image "mimeType"))
                    (toString (getOpt image "imageBytes")))).

Section Handlers.
Variable host : Host.

Definition generateImage (args : value) : Prog ToolResult :=
  destructure "prompt" args ;;;
  let prompt := getOpt args "prompt" in
  let model := with_default (VStr "gemini") (getOpt args "model") in
  let endpoint :=
    if is_string "imagen" model then "/api/imagen/generate" else "/api/gemini/generate" in
  response <- fetch (mkRequest (BASE_URL host ++ endpoint) "POST" json_headers
                       (JsonBody (json_object [("prompt", prompt)]))) ;;
  if negb (ok response)
  then throw_Error ("API error: " ++ string_of_Z (status response) ++ " "
                    ++ statusText response)
  else
    data <- lift (json response) ;;
    err <- lift (get data "error") ;;
    if truthy err then Throw (new_Error err)
    else
      let imageUrl := image_url_of data in
      Ret (text_result
             ("✅ Image generated successfully using " ++ toString model ++ nl2
              ++ "Prompt: " ++ toString prompt ++ nl2
              ++ "Image URL: " ++ toString imageUrl)).

(** The data-URL branch of [editImage]: header and payload are the first
    two pieces of [split(',')]; [Buffer.from] rejects a payload that is
    [undefined] with the runtime's TypeError. *)
Definition buffer_from_undefined : Thrown :=
  ThrownError TypeErrorK
    ("The first argument must be of type string or an instance of Buffer, "
     ++ "ArrayBuffer, or Array or an Array-like Object. Received undefined").

Definition decode_data_url (image_url : string) : Thrown + (Base64.bytes * string) :=
  let parts := split_comma image_url in
  let header := nth 0 parts EmptyString in
  let mimeType :=
    match match_data_mime header with
    | Some m => m
    | None => "image/png"
    end in
  match nth_error parts 1 with
  | None => inl buffer_from_undefined
  | Some base64 => inr (Base64.decode base64, mimeType)
  end.

(** The image file [editImage] uploads. *)
Definition image_file (image_url : value) : Prog FormValue :=
  let s := toString image_url in
  if startsWith "data:" s then
    bm <- lift (decode_data_url s) ;;
    Ret (FormFile (fst bm) "image.png" (snd bm))
  else
    imageResponse <- fetch (mkRequest s "GET" [] NoBody) ;;
    if negb (ok imageResponse)
    then throw_Error ("Failed to fetch image: " ++ statusText imageResponse)
    else Ret (FormFile (arrayBuffer imageResponse) "image.png" "image/png").

Definition editImage (args : value) : Prog ToolResult :=
  destructure "prompt" args ;;;
  let prompt := getOpt args "prompt" in
  let image_url := getOpt args "image_url" in
  imageFile <- image_file image_url ;;
  response <- fetch (mkRequest (BASE_URL host ++ "/api/gemini/edit") "POST" []
                       (FormBody [("prompt", FormText (toString prompt));
                                  ("imageFile", imageFile)])) ;;
  if negb (ok response)
  then throw_Error ("API error: " ++ string_of_Z (status response) ++ " "
                    ++ statusText response)
  else
    data <- lift (json response) ;;
    err <- lift (get data "error") ;;
    if truthy err then Throw (new_Error err)
    else
      let resultUrl := image_url_of data in
      Ret (text_result
             ("✅ Image edited successfully" ++ nl2
              ++ "Edit instructions: " ++ toString prompt ++ nl2
              ++ "Result URL: " ++ toString resultUrl)).

(** ** generateVideo *)

Definition maxAttempts : Z := 30.
Definition pollDelay : Z := 10000.

(** The optional start image of a video request. *)
Definition start_image_entries (image_url : value) : list (string * FormValue) :=
  if truthy image_url then
    let s := toString image_url in
    if startsWith "data:" s then
      let parts := split_comma s in
      let header := nth 0 parts EmptyString in
      let base64 := match nth_error parts 1 with
                    | Some b => VStr b
                    | None => VUndef
                    end in
      let mimeType := match match_data_mime header with
                      | Some m => m
                      | None => "image/png"
                      end in
      [("imageBase64", FormText (toString base64)); ("imageMimeType", FormText mimeType)]
    else [("imageUrl", FormText s)]
  else [].

Definition poll_request (operationName : value) : Request :=
  mkRequest (BASE_URL host ++ "/api/veo/operation") "POST" json_headers
    (JsonBody (json_object [("name", operationName)])).

Definition download_request (fileUri : value) : Request :=
  mkRequest (BASE_URL host ++ "/api/veo/download") "POST" json_headers
    (JsonBody (json_object [("uri", fileUri); ("save", VBool true)])).

(** [pollData.response?.candidates?.[0]?.content?.parts?.[0]?.file_data?.file_uri
     || pollData.uris?.[0]] *)
Definition file_uri_of (pollData : value) : value :=
  or_else
    (getOpt (getOpt (index0 (getOpt (getOpt (index0
       (getOpt (getOpt pollData "response") "candidates")) "content") "parts"))
       "file_data") "file_uri")
    (index0 (getOpt pollData "uris")).

Definition video_success (prompt aspect_ratio url : value) : ToolResult :=
  text_result
    ("✅ Video generated successfully" ++ nl2
     ++ "Prompt: " ++ toString prompt ++ nl2
     ++ "Video URL: " ++ toString url ++ nl2
     ++ "Aspect Ratio: " ++ toString aspect_ratio).

Definition video_timeout (operationName : value) : ToolResult :=
  text_result
    ("⏳ Video generation started but timed out waiting for completion." ++ nl2
     ++ "Operation: " ++ toString operationName ++ nl2
     ++ "Check the gallery in a few minutes.").

(** One pass through the body of the [while] loop: [Some r] when the body
    returns [r] from the function, [None] when control reaches
    [attempts++]. *)
Definition poll_attempt (prompt aspect_ratio operationName : value)
  : Prog (option ToolResult) :=
  sleep pollDelay ;;;
  pollResponse <- fetch (poll_request operationName) ;;
  if ok pollResponse then
    pollData <- lift (json pollResponse) ;;
    done <- lift (get pollData "done") ;;
    if truthy done then
      let fileUri := file_uri_of pollData in
      if truthy fileUri then
        downloadResponse <- fetch (download_request fileUri) ;;
        if ok downloadResponse then
          downloadData <- lift (json downloadResponse) ;;
          url <- lift (get downloadData "url") ;;
          Ret (Some (video_success prompt aspect_ratio url))
        else Ret None
      else Ret None
    else Ret None
  else Ret None.

(** [while (attempts < maxAttempts) { ...; attempts++ }], then the
    timed-out reply.  [fuel] bounds the unrolling of the model. *)
Fixpoint poll_loop (prompt aspect_ratio operationName : value)
    (fuel : nat) (attempts : Z) : Prog ToolResult :=
  if (attempts <? maxAttempts)%Z then
    match fuel with
    | O => Stuck
    | S fuel' =>
        r <- poll_attempt prompt aspect_ratio operationName ;;
        match r with
        | Some result => Ret result
        | None => poll_loop prompt aspect_ratio operationName fuel' (attempts + 1)
        end
    end
  else Ret (video_timeout operationName).

Definition generateVideo (args : value) : Prog ToolResult :=
  destructure "prompt" args ;;;
  let prompt := getOpt args "prompt" in
  let image_url := getOpt args "image_url" in
  let aspect_ratio := with_default (VStr "16:9") (getOpt args "aspect_ratio") in
  let formData :=
    ([("prompt", FormText (toString prompt));
      ("model", FormText "veo-3.0-generate-001");
      ("aspectRatio", FormText (toString aspect_ratio))]
     ++ start_image_entries image_url)%list in
  generateResponse <- fetch (mkRequest (BASE_URL host ++ "/api/veo/generate") "POST" []
                               (FormBody formData)) ;;
  if negb (ok generateResponse)
  then throw_Error ("Generate API error: " ++ string_of_Z (status generateResponse))
  else
    generateData <- lift (json generateResponse) ;;
    operationName <- lift (get generateData "name") ;;
    if negb (truthy operationName)
    then throw_Error "No operation name returned from video generation"
    else poll_loop prompt aspect_ratio operationName (Z.to_nat maxAttempts) 0.

(** ** getCulturalInsights *)

(** [x?.slice(0, 5) || []]: an array keeps its first five items, a
    string its first five characters (an empty one gives way to [[]]);
    any other value that is not nullish has no [slice] to call. *)
Definition first_five (x : value) : Thrown + value :=
  match x with
  | VUndef | VNull => inr (VArr [])
  | VArr items => inr (VArr (firstn 5 items))
  | VStr s => inr (or_else (VStr (substring 0 5 s)) (VArr []))
  | _ => inl (ThrownError TypeErrorK "(intermediate value).slice is not a function")
  end.

(** [items.map(x => x.name)]. *)
Fixpoint names_of (items : list value) : Thrown + list value :=
  match items with
  | [] => inr []
  | x :: rest =>
      match get x "name" with
      | inl e => inl e
      | inr n => match names_of rest with
                 | inl e => inl e
                 | inr ns => inr (n :: ns)
                 end
      end
  end.

(** [xs.map(x => x.name)]: only an array has [map]. *)
Definition map_names (what : string) (xs : value) : Thrown + list value :=
  match xs with
  | VArr items => names_of items
  | _ => inl (ThrownError TypeErrorK (what ++ ".map is not a function"))
  end.

(** [strings.join(sep)]. *)
Fixpoint join (sep : string) (l : list string) : string :=
  match l with
  | [] => ""
  | [x] => x
  | x :: rest => x ++ sep ++ join sep rest
  end.

(** The text of an array element under [Array.prototype.join]. *)
Definition join_text (v : value) : string :=
  if nullish v then "" else toString v.

Definition getCulturalInsights (args : value) : Prog ToolResult :=
  destructure "city" args ;;;
  let city := getOpt args "city" in
  let country := getOpt args "country" in
  let business_type := getOpt args "business_type" in
  let target_audience := getOpt args "target_audience" in
  response <- fetch (mkRequest (BASE_URL host ++ "/api/cultural/intelligence") "POST"
                       json_headers
                       (JsonBody (json_object
                          [("city", city); ("country", country);
                           ("businessType", business_type);
                           ("targetAudience", target_audience);
                           ("analysisDepth", VStr "basic")]))) ;;
  if negb (ok response)
  then throw_Error ("Cultural API error: " ++ string_of_Z (status response))
  else
    data <- lift (json response) ;;
    analysis <- lift (get data "analysis") ;;
    if negb (truthy analysis)
    then Throw (new_Error (or_else (getOpt data "error") (VStr "Cultural analysis failed")))
    else
      let qloo := getOpt (getOpt data "raw") "qloo" in
      brands <- lift (first_five (getOpt qloo "brands")) ;;
      places <- lift (first_five (getOpt qloo "places")) ;;
      brandNames <- lift (map_names "brands" brands) ;;
      placeNames <- lift (map_names "places" places) ;;
      Ret (text_result
             ("🌍 Cultural Insights for " ++ toString city ++ ", " ++ toString country ++ nl2
              ++ "Profile: " ++ stringify_pretty host (getOpt analysis "profile") ++ nl2
              ++ "Communication: "
              ++ stringify_pretty host (getOpt analysis "communication") ++ nl2
              ++ "Aesthetics: " ++ stringify_pretty host (getOpt analysis "aesthetics") ++ nl2
              ++ "Popular Brands: " ++ join ", " (map join_text brandNames) ++ nl2
              ++ "Notable Places: " ++ join ", " (map join_text placeNames))).

(** ** listMedia *)

(** [media.length]. *)
Definition length_of (v : value) : value :=
  match v with
  | VArr items => VNum (Z.of_nat (List.length items))
  | VStr s => VNum (Z.of_nat (String.length s))
  | VObj fields => lookup "length" fields
  | _ => VUndef
  end.

Definition is_zero (v : value) : bool :=
  match v with VNum n => (n =? 0)%Z | _ => false end.

Fixpoint media_lines (index : Z) (items : list value) : Thrown + list string :=
  match items with
  | [] => inr []
  | item :: rest =>
      match get item "createdAt" with
      | inl e => inl e
      | inr createdAt =>
          let date := if truthy createdAt then toLocaleDateString host createdAt
                      else "Unknown date" in
          let line :=
            string_of_Z (index + 1) ++ ". "
            ++ toString (or_else (getOpt item "title") (VStr "Untitled"))
            ++ " (" ++ toString (getOpt item "type") ++ ")" ++ newline
            ++ "   📅 " ++ date ++ newline
            ++ "   🔗 " ++ toString (getOpt item "url") ++ newline
            ++ "   📝 "
            ++ toString (or_else (getOpt item "description") (VStr "No description")) in
          match media_lines (index + 1) rest with
          | inl e => inl e
          | inr ls => inr (line :: ls)
          end
      end
  end.

Definition listMedia (args : value) : Prog ToolResult :=
  destructure "type" args ;;;
  let type := with_default (VStr "all") (getOpt args "type") in
  let limit := with_default (VNum 10) (getOpt args "limit") in
  let params :=
    ((if is_string "all" type then [] else [("type", toString type)])
     ++ [("limit", toString limit)])%list in
  response <- fetch (mkRequest (BASE_URL host ++ "/api/media?" ++ search_params host params)
                       "GET" [] NoBody) ;;
  if negb (ok response)
  then throw_Error ("Media API error: " ++ string_of_Z (status response))
  else
    data <- lift (json response) ;;
    m <- lift (get data "media") ;;
    let media := or_else m (VArr []) in
    if is_zero (length_of media)
    then Ret (text_result "📂 No media found in gallery")
    else
      match media with
      | VArr items =>
          mediaList <- lift (media_lines 0 items) ;;
          Ret (text_result
                 ("📂 Gallery (" ++ toString (length_of media) ++ " items)" ++ nl2
                  ++ join nl2 mediaList))
      | _ => Throw (ThrownError TypeErrorK "media.map is not a function")
      end.

(** ** The call-tool request handler *)

(** The [switch] on [request.params.name]. *)
Definition handle (name : string) (args : value) : Prog ToolResult :=
  if name =? "generate_image" then generateImage args
  else if name =? "edit_image" then editImage args
  else if name =? "generate_video" then generateVideo args
  else if name =? "get_cultural_insights" then getCulturalInsights args
  else if name =? "list_media" then listMedia args
  else throw_Error ("Unknown tool: " ++ name).

(** [error instanceof Error ? error.message : 'Unknown error'] *)
Definition error_message (error : Thrown) : string :=
  match error with
  | ThrownError _ message => message
  | ThrownValue _ => "Unknown error"
  end.

Definition error_result (error : Thrown) : ToolResult :=
  text_result ("Error: " ++ error_message error).

Definition dispatch (name : string) (args : value) : Prog ToolResult :=
  try_catch (handle name args) (fun error => Ret (error_result error)).

End Handlers.
End Index.

(* ===================================================================== *)
(** * src/standalone.ts: the direct-provider variant *)
(* ===================================================================== *)

Module Standalone.
Import Js Rt.
Local Open Scope prog_scope.

(** Whether the chat-completion credential is set, and the optional
    model override. *)
Record Host : Type := mkHost {
  openai_configured : bool;
  OPENAI_MODEL : option string
}.

Definition tools : list ToolDescriptor :=
  [ mkTool "generate_image" ["prompt"];
    mkTool "edit_image" ["prompt"; "image_url"];
    mkTool "get_cultural_insights" ["city"; "country"] ].

Definition nl2 : string := newline ++ newline.
Definition modelId : string := "gemini-2.5-flash-image-preview".

Definition user_contents (parts : list value) : value :=
  VObj [("contents", VArr [VObj [("role", VStr "user"); ("parts", VArr parts)]])].

(** The [for ... of] scan for the first part with inline data.  A string
    is iterable but its characters carry none; other values that are not
    arrays cannot be iterated. *)
Fixpoint first_inline (items : list value) : value :=
  match items with
  | [] => VNull
  | p :: rest =>
      if truthy (getOpt (getOpt p "inlineData") "data")
      then getOpt p "inlineData"
      else first_inline rest
  end.

Definition find_inline (parts : value) : Thrown + value :=
  match parts with
  | VArr items => inr (first_inline items)
  | VStr _ => inr VNull
  | _ => inl (ThrownError TypeErrorK "parts is not iterable")
  end.

(** From the provider's reply to the data-URL handed back, or the
    [missing] error when no part carries image data. *)
Definition inline_data_url (missing : string) (result : value) : Prog string :=
  let parts :=
    or_else (getOpt (getOpt (index0 (getOpt (getOpt result "response") "candidates"))
                       "content") "parts")
            (VArr []) in
  inlineData <- lift (find_inline parts) ;;
  if negb (truthy (getOpt inlineData "data")) then throw_Error missing
  else Ret ("data:" ++ toString (or_else (getOpt inlineData "mimeType") (VStr "image/png"))
            ++ ";base64," ++ toString (getOpt inlineData "data")).

(** Both branches of [generateImage] make the same provider call; they
    differ in the headline of the reply. *)
Definition generate_with (headline : string) (prompt : value) : Prog ToolResult :=
  result <- generateContent modelId (user_contents [VObj [("text", prompt)]]) ;;
  dataUrl <- inline_data_url "No image generated" result ;;
  Ret (text_result (headline ++ nl2 ++ "Prompt: " ++ toString prompt ++ nl2 ++ dataUrl)).

Definition generate_body (prompt model : value) : Prog ToolResult :=
  if negb (truthy prompt) then throw_Error "Missing prompt"
  else if is_string "imagen" model
       then generate_with "✅ Image (Gemini fallback for Imagen)" prompt
       else generate_with "✅ Gemini image" prompt.

Definition generateImage (args : value) : Prog ToolResult :=
  let a := or_else args (VObj []) in
  generate_body (getOpt a "prompt") (with_default (VStr "gemini") (getOpt a "model")).

(** The source image as base64 text and mime type. *)
Definition normalize_image (image_url : value) : Prog (value * string) :=
  let s := toString image_url in
  if startsWith "data:" s then
    let parts := split_comma s in
    let header := nth 0 parts EmptyString in
    let base64Data := match nth_error parts 1 with
                      | Some b => VStr b
                      | None => VUndef
                      end in
    let mimeType := match match_data_mime header with
                    | Some m => m
                    | None => "image/png"
                    end in
    Ret (base64Data, mimeType)
  else
    res <- fetch (mkRequest s "GET" [] NoBody) ;;
    if negb (ok res)
    then throw_Error ("Failed to fetch image: " ++ string_of_Z (status res))
    else Ret (VStr (Base64.encode (arrayBuffer res)), "image/png").

Definition edit_body (prompt image_url : value) : Prog ToolResult :=
  if negb (truthy prompt) || negb (truthy image_url)
  then throw_Error "Missing prompt or image_url"
  else
    bm <- normalize_image image_url ;;
    result <- generateContent modelId
                (user_contents
                   [VObj [("text", prompt)];
                    VObj [("inlineData",
                           VObj [("mimeType", VStr (snd bm)); ("data", fst bm)])]]) ;;
    dataUrl <- inline_data_url "No edited image returned" result ;;
    Ret (text_result ("✅ Edited image" ++ nl2 ++ "Instructions: " ++ toString prompt
                      ++ nl2 ++ dataUrl)).

Definition editImage (args : value) : Prog ToolResult :=
  let a := or_else args (VObj []) in
  edit_body (getOpt a "prompt") (getOpt a "image_url").

Definition system_prompt : string :=
  "You are a cultural intelligence assistant. Return concise, practical insights for marketing/creative."
  ++ newline ++ "Fields: profile, aesthetics, communication, themes."
  ++ newline ++ "Keep each field under ~6 bullet points. No markdown code fences.".

Definition user_prompt (city country business_type target_audience : value) : string :=
  "City: " ++ toString city ++ newline
  ++ "Country: " ++ toString country ++ newline
  ++ "Business: " ++ toString (or_else business_type (VStr "n/a")) ++ newline
  ++ "Audience: " ++ toString (or_else target_audience (VStr "general")) ++ newline
  ++ "Provide cultural insights with fields: profile, aesthetics, communication, themes.".

Section Handlers.
Variable host : Host.

(** The completion's content is a string or null in the provider's
    types; [toString] leaves a string as it is. *)
Definition getCulturalInsights (args : value) : Prog ToolResult :=
  let a := or_else args (VObj []) in
  let city := getOpt a "city" in
  let country := getOpt a "country" in
  if negb (truthy city) || negb (truthy country)
  then throw_Error "Missing city or country"
  else if negb (openai_configured host)
  then throw_Error "OPENAI_API_KEY not set on server"
  else
    resp <- chatCreate
              (mkChat (match OPENAI_MODEL host with
                       | Some m => if m =? "" then "gpt-4o-mini" else m
                       | None => "gpt-4o-mini"
                       end)
                 system_prompt
                 (user_prompt city country (getOpt a "business_type")
                    (getOpt a "target_audience"))) ;;
    choices <- lift (get resp "choices") ;;
    let text := or_else (getOpt (getOpt (index0 choices) "message") "content")
                        (VStr "No insights generated") in
    Ret (text_result (toString text)).

Definition handle (name : string) (args : value) : Prog ToolResult :=
  if name =? "generate_image" then generateImage args
  else if name =? "edit_image" then editImage args
  else if name =? "get_cultural_insights" then getCulturalInsights args
  else throw_Error ("Unknown tool: " ++ name).

Definition class_name (k : ErrorClass) : string :=
  match k with
  | ErrorK => "Error"
  | TypeErrorK => "TypeError"
  | SyntaxErrorK => "SyntaxError"
  end.

(** [error?.message || String(error)]: an Error with an empty message
    prints as its class name. *)
Definition error_text (error : Thrown) : string :=
  match error with
  | ThrownError k message => if message =? "" then class_name k else message
  | ThrownValue v => toString (or_else (getOpt v "message") (VStr (toString v)))
  end.

Definition error_result (error : Thrown) : ToolResult :=
  text_result ("Error: " ++ error_text error).

Definition dispatch (name : string) (args : value) : Prog ToolResult :=
  try_catch (handle name args) (fun error => Ret (error_result error)).

End Handlers.
End Standalone.

(* ===================================================================== *)
(** * The hosted-platform variant: its tool callbacks *)
(* ===================================================================== *)

Module Smithery.
Import Js Rt.
Local Open Scope prog_scope.

(** The registered callback: the parameter list destructures the
    arguments, the body is wrapped in the tool's own [try]/[catch].  The
    schema check the platform SDK runs beforehand is not part of this
    repository. *)
Definition generate_image (args : value) : Prog ToolResult :=
  (if nullish args
   then Throw (ThrownError TypeErrorK
                 ("Cannot destructure property 'prompt' of '" ++ toString args
                  ++ "' as it is " ++ toString args ++ "."))
   else Ret tt) ;;;
  try_catch
    (Standalone.generate_body (getOpt args "prompt")
       (with_default (VStr "gemini") (getOpt args "model")))
    (fun error => Ret (Standalone.error_result error)).

(** The configuration object of the hosted variant ([configSchema]). *)
Record Config : Type := mkConfig {
  debug : bool;
  geminiApiKey : string;
  openaiApiKey : option string;
  baseUrl : string
}.

(** [config.openaiApiKey ? new OpenAI(...) : null], as far as the test
    [!openai] goes: a key that is absent or empty gives no client. *)
Definition openai (config : Config) : bool :=
  match openaiApiKey config with
  | Some key => negb (key =? "")
  | None => false
  end.

(** [const { k, ... } = args] in the parameter list of a callback. *)
Definition destructure_parameter (first : string) (args : value) : Prog unit :=
  if nullish args
  then Throw (ThrownError TypeErrorK
                ("Cannot destructure property '" ++ first ++ "' of '" ++ toString args
                 ++ "' as it is " ++ toString args ++ "."))
  else Ret tt.

(** The [edit_image] callback: the body of [standalone.ts]'s [editImage]
    inside the tool's own [try]/[catch]. *)
Definition edit_image (args : value) : Prog ToolResult :=
  destructure_parameter "prompt" args ;;;
  try_catch
    (Standalone.edit_body (getOpt args "prompt") (getOpt args "image_url"))
    (fun error => Ret (Standalone.error_result error)).

Section Callbacks.
Variable config : Config.

(** The [get_cultural_insights] callback; the model is fixed. *)
Definition get_cultural_insights (args : value) : Prog ToolResult :=
  destructure_parameter "city" args ;;;
  try_catch
    (let city := getOpt args "city" in
     let country := getOpt args "country" in
     if negb (truthy city) || negb (truthy country)
     then throw_Error "Missing city or country"
     else if negb (openai config)
     then throw_Error "OpenAI API key not configured"
     else
       resp <- chatCreate
                 (mkChat "gpt-4o-mini" Standalone.system_prompt
                    (Standalone.user_prompt city country (getOpt args "business_type")
                       (getOpt args "target_audience"))) ;;
       choices <- lift (get resp "choices") ;;
       let text := or_else (getOpt (getOpt (index0 choices) "message") "content")
                           (VStr "No insights generated") in
       Ret (text_result (toString text)))
    (fun error => Ret (Standalone.error_result error)).

End Callbacks.

(** The types used in the input schemas: [z.string()] and
    [z.enum([...]).default(d)]. *)
Inductive ZodType : Type :=
| ZString
| ZEnumDefault (values : list string) (default : string).

(** Parsing one property: a string must be a string; an enum takes its
    default for [undefined] and otherwise must be one of its values. *)
Definition parse_property (t : ZodType) (v : value) : option value :=
  match t with
  | ZString => match v with
               | VStr _ => Some v
               | _ => None
               end
  | ZEnumDefault values default =>
      match v with
      | VUndef => Some (VStr default)
      | VStr s => if existsb (String.eqb s) values then Some v else None
      | _ => None
      end
  end.

(** Parsing the properties of a shape, in the order of the shape;
    properties the shape does not name are dropped. *)
Fixpoint parse_shape (shape : list (string * ZodType)) (args : value)
  : option (list (string * value)) :=
  match shape with
  | [] => Some []
  | (k, t) :: rest =>
      match parse_property t (getOpt args k), parse_shape rest args with
      | Some v, Some parsed => Some ((k, v) :: parsed)
      | _, _ => None
      end
  end.

(** Parsing an arguments object against a shape; [None] when the
    arguments are not admitted. *)
Definition parse (shape : list (string * ZodType)) (args : value) : option value :=
  match args with
  | VObj _ => option_map VObj (parse_shape shape args)
  | _ => None
  end.

(** The [inputSchema] registered for [generate_image]. *)
Definition generate_image_schema : list (string * ZodType) :=
  [("prompt", ZString);
   ("model", ZEnumDefault ["imagen"; "gemini"] "gemini");
   ("aspect_ratio", ZEnumDefault ["16:9"; "9:16"; "1:1"] "16:9")].

(** The tool as registered: the callback runs on the arguments parsed
    with the registered schema; arguments the schema does not admit never
    reach it ([None]). *)
Definition generate_image_tool (args : value) : option (Prog ToolResult) :=
  option_map generate_image (parse generate_image_schema args).

End Smithery.

(* ===================================================================== *)
(** * Vocabulary of the properties *)
(* ===================================================================== *)

Module Normalizer.
Import Js Rt.

(** A binary payload with its mime type. *)
Definition NormalizedBinary : Type := (Base64.bytes * string)%type.

(** The data-URL of a payload: the template of [index.ts] applied to the
    mime type and to the base64 text of the bytes. *)
Definition encodeAsDataUrl (bin : NormalizedBinary) : string :=
  Index.data_url (snd bin) (Base64.encode (fst bin)).

(** The errors the handlers raise themselves are all made by
    [throw new Error(...)]; TypeErrors and SyntaxErrors come from the
    runtime. *)
Definition raised_by_handler (e : Thrown) : Prop :=
  exists message, e = ThrownError ErrorK message.

Fixpoint has_char (c : ascii) (s : string) : bool :=
  match s with
  | EmptyString => false
  | String c' rest => (c' =? c)%char || has_char c rest
  end.

End Normalizer.

Module Poller.
Import Js Rt.

(** What the loop body makes of the reply to a poll request. *)
Inductive PollVerdict : Type :=
| Pending
| Ready (fileUri : value)
| Aborts (e : Thrown).

Definition poll_verdict (r : FetchResult) : PollVerdict :=
  match r with
  | Rejected e => Aborts e
  | Resolved pollResponse =>
      if ok pollResponse then
        match json pollResponse with
        | inl e => Aborts e
        | inr pollData =>
            match get pollData "done" with
            | inl e => Aborts e
            | inr done =>
                if truthy done then
                  if truthy (Index.file_uri_of pollData)
                  then Ready (Index.file_uri_of pollData)
                  else Pending
                else Pending
            end
        end
      else Pending
  end.

(** What the loop body makes of the reply to a download request: the
    hosted URL, a miss, or a throw. *)
Definition download_verdict (r : FetchResult) : Thrown + option value :=
  match r with
  | Rejected e => inl e
  | Resolved downloadResponse =>
      if ok downloadResponse then
        match json downloadResponse with
        | inl e => inl e
        | inr downloadData =>
            match get downloadData "url" with
            | inl e => inl e
            | inr url => inr (Some url)
            end
        end
      else inr None
  end.

Section Traces.
Variable host : Index.Host.
Variable operationName : value.

(** The trace of [k] attempts that each wait and poll and do nothing
    else. *)
Fixpoint miss_trace (k : nat) : list Event :=
  match k with
  | O => []
  | S k' =>
      EvSleep Index.pollDelay :: EvFetch (Index.poll_request host operationName)
        :: miss_trace k'
  end.

(** The trace of [k] attempts that each wait, poll and request the
    download of [fileUri]. *)
Fixpoint download_trace (fileUri : value) (k : nat) : list Event :=
  match k with
  | O => []
  | S k' =>
      EvSleep Index.pollDelay :: EvFetch (Index.poll_request host operationName)
        :: EvFetch (Index.download_request host fileUri)
        :: download_trace fileUri k'
  end.

(** [attempt_trace k t]: [t] is made of [k] attempts, each one the fixed
    wait followed by one poll request and at most one download request. *)
Inductive attempt_trace : nat -> list Event -> Prop :=
| attempts_none : attempt_trace 0 []
| attempts_poll k t :
    attempt_trace k t ->
    attempt_trace (S k)
      (EvSleep Index.pollDelay :: EvFetch (Index.poll_request host operationName) :: t)
| attempts_download k u t :
    attempt_trace k t ->
    attempt_trace (S k)
      (EvSleep Index.pollDelay :: EvFetch (Index.poll_request host operationName)
         :: EvFetch (Index.download_request host u) :: t).

End Traces.
End Poller.

(* ===================================================================== *)
(** * Sample hosts and environments *)
(* ===================================================================== *)

Module Measure.
Import Js Rt.

(** The time a run spent waiting on timers, in milliseconds. *)
Fixpoint total_wait (t : list Event) : Z :=
  match t with
  | [] => 0
  | EvSleep ms :: rest => ms + total_wait rest
  | _ :: rest => total_wait rest
  end.

(** The timer waits of a run. *)
Fixpoint waits (t : list Event) : list Z :=
  match t with
  | [] => []
  | EvSleep ms :: rest => ms :: waits rest
  | _ :: rest => waits rest
  end.


(** Every value of a list is something other than [undefined] and
    [null]. *)
Definition all_present (items : list value) : bool :=
  forallb (fun item => negb (nullish item)) items.

(** No part of a list carries inline data. *)
Definition no_inline_data (parts : list value) : bool :=
  forallb (fun p => negb (truthy (getOpt (getOpt p "inlineData") "data"))) parts.

(** The property path [result.response.candidates[0].content.parts]. *)
Definition parts_of (result : value) : value :=
  getOpt (getOpt (index0 (getOpt (getOpt result "response") "candidates")) "content")
         "parts".

(** The path [resp.choices[0].message.content]. *)
Definition content_of (resp : value) : value :=
  getOpt (getOpt (index0 (getOpt resp "choices")) "message") "content".

End Measure.

Module Samples.
Import Js Rt.

Definition index_host : Index.Host :=
  Index.mkHost "http://localhost:3000"
    (fun v => toString v) (fun v => toString v)
    (fun params => Index.join "&" (map (fun kv => fst kv ++ "=" ++ snd kv) params)).

Definition standalone_host : Standalone.Host := Standalone.mkHost false None.

(** A reply with a JSON body. *)
Definition json_reply (status : Z) (v : value) : FetchResult :=
  Resolved (mkResponse status "" "application/json" (inr v) []).

(** A reply with a binary body. *)
Definition binary_reply (contentType : string) (content : Base64.bytes) : FetchResult :=
  Resolved (mkResponse 200 "OK" contentType
              (inl (ThrownError SyntaxErrorK "Unexpected token in JSON")) content).

Definition no_sdk_reply : Thrown + value := inl (ThrownError ErrorK "provider unavailable").

(** Every fetch gets the same reply. *)
Definition always (r : FetchResult) : Env :=
  mkEnv (fun _ _ => r) (fun _ _ _ => no_sdk_reply) (fun _ _ => no_sdk_reply).

(** The provider call gets the reply [r]; no fetch succeeds. *)
Definition provider (r : Thrown + value) : Env :=
  mkEnv (fun _ _ => Rejected (ThrownError TypeErrorK "fetch failed"))
        (fun _ _ _ => r) (fun _ _ => r).

(** The job is still running at the first [k] polls, is done with a file
    reference at the next one, and the download that follows succeeds. *)
Definition done_after (k : nat) : Env :=
  mkEnv (fun n _ =>
           if (n <? k)%nat then json_reply 200 (VObj [("done", VBool false)])
           else if (n =? k)%nat
                then json_reply 200 (VObj [("done", VBool true);
                                           ("uris", VArr [VStr "files/clip-1"])])
                else json_reply 200 (VObj [("url", VStr "https://x/clip-1.mp4")]))
        (fun _ _ _ => no_sdk_reply) (fun _ _ => no_sdk_reply).

(** Every poll finds the job done with a file reference; every other
    request (the downloads) is answered with status 500. *)
Definition download_fails : Env :=
  mkEnv (fun _ req =>
           if url req =? Index.BASE_URL index_host ++ "/api/veo/operation"
           then json_reply 200 (VObj [("done", VBool true);
                                      ("uris", VArr [VStr "files/clip-1"])])
           else json_reply 500 VNull)
        (fun _ _ _ => no_sdk_reply) (fun _ _ => no_sdk_reply).

Definition fetch_failed : Thrown := ThrownError TypeErrorK "fetch failed".

(** The bytes of the text [hi]. *)
Definition hi : Base64.bytes := [Byte.x68; Byte.x69].

Definition hosted_config : Smithery.Config :=
  Smithery.mkConfig false "gemini-key" None "http://localhost:3000".

Definition standalone_host_with_openai : Standalone.Host :=
  Standalone.mkHost true None.

(** A provider reply whose only candidate has the given parts. *)
Definition candidate (parts : list value) : value :=
  VObj [("response",
         VObj [("candidates",
                VArr [VObj [("content", VObj [("parts", VArr parts)])]])])].

(** A part with inline image data. *)
Definition inline_part (mimeType data : string) : value :=
  VObj [("inlineData", VObj [("mimeType", VStr mimeType); ("data", VStr data)])].

(** A chat completion with one choice. *)
Definition completion (content : value) : value :=
  VObj [("choices", VArr [VObj [("message", VObj [("content", content)])]])].

(** A gallery item. *)
Definition media_item (title type url : string) : value :=
  VObj [("title", VStr title); ("type", VStr type); ("url", VStr url)].

(** A named entity of the cultural-intelligence reply. *)
Definition named (name : string) : value := VObj [("name", VStr name)].

(** A cultural-intelligence reply with an analysis, brands and places. *)
Definition insights_reply (brands places : list value) : value :=
  VObj [("analysis", VObj [("profile", VStr "urban")]);
        ("raw", VObj [("qloo", VObj [("brands", VArr brands);
                                     ("places", VArr places)])])].

Definition six_brands : list value :=
  [named "A"; named "B"; named "C"; named "D"; named "E"; named "F"].

Definition hosted_config_with_key : Smithery.Config :=
  Smithery.mkConfig false "gemini-key" (Some "sk-1") "http://localhost:3000".

(** A provider reply with a text part and two image parts. *)
Definition two_images : value :=
  candidate [VObj [("text", VStr "here you are")];
             inline_part "image/webp" "aGk=";
             inline_part "image/png" "eA=="].

End Samples.

(* ===================================================================== *)
(** * Properties of the interpreter *)
(* ===================================================================== *)

Module RtFacts.
Import Js Rt.

Lemma external_calls_app (t1 t2 : list Event) :
  external_calls (t1 ++ t2) = external_calls t1 + external_calls t2.
Proof.
  unfold external_calls. now rewrite filter_app, length_app.
Qed.

(** Running a sequence: run the first part, then the rest from where the
    call count stands. *)
Lemma run_bind {A B : Type} (env : Env) (p : Prog A) (f : A -> Prog B) :
  forall n,
    run env n (bind p f) =
    match run env n p with
    | (Returned a, t) =>
        let (o, t') := run env (n + external_calls t) (f a) in (o, (t ++ t')%list)
    | (Raised e, t) => (Raised e, t)
    | (OutOfFuel, t) => (OutOfFuel, t)
    end.
Proof.
  induction p as [a | e | req k IH | ms k IH | m c k IH | q k IH | ]; intro n; simpl.
  - rewrite Nat.add_0_r. now destruct (run env n (f a)).
  - reflexivity.
  - rewrite IH. destruct (run env (S n) (k (on_fetch env n req))) as [[a | e | ] t]; simpl;
      try reflexivity.
    unfold external_calls; simpl; fold (external_calls t).
    rewrite Nat.add_succ_r.
    now destruct (run env (S (n + external_calls t)) (f a)).
  - rewrite IH. destruct (run env n k) as [[a | e | ] t]; simpl; try reflexivity.
    unfold external_calls; simpl; fold (external_calls t).
    now destruct (run env (n + external_calls t) (f a)).
  - rewrite IH.
    destruct (run env (S n) (k (on_generate env n m c))) as [[a | e | ] t]; simpl;
      try reflexivity.
    unfold external_calls; simpl; fold (external_calls t).
    rewrite Nat.add_succ_r.
    now destruct (run env (S (n + external_calls t)) (f a)).
  - rewrite IH. destruct (run env (S n) (k (on_chat env n q))) as [[a | e | ] t]; simpl;
      try reflexivity.
    unfold external_calls; simpl; fold (external_calls t).
    rewrite Nat.add_succ_r.
    now destruct (run env (S (n + external_calls t)) (f a)).
  - reflexivity.
Qed.

(** A handler that only builds a reply turns every throw into a return
    and leaves the trace as it was. *)
Lemma run_try_catch {A : Type} (env : Env) (p : Prog A) (h : Thrown -> A) :
  forall n,
    run env n (try_catch p (fun e => Ret (h e))) =
    match run env n p with
    | (Raised e, t) => (Returned (h e), t)
    | other => other
    end.
Proof.
  induction p as [a | e | req k IH | ms k IH | m c k IH | q k IH | ]; intro n; simpl;
    try reflexivity.
  - rewrite IH. now destruct (run env (S n) (k (on_fetch env n req))) as [[a | e | ] t].
  - rewrite IH. now destruct (run env n k) as [[a | e | ] t].
  - rewrite IH.
    now destruct (run env (S n) (k (on_generate env n m c))) as [[a | e | ] t].
  - rewrite IH. now destruct (run env (S n) (k (on_chat env n q))) as [[a | e | ] t].
Qed.

Lemma settles_weaken {A : Type} (P Q : A -> Prop) (p : Prog A) :
  (forall a, P a -> Q a) -> settles P p -> settles Q p.
Proof.
  intros HPQ H. induction H; constructor; auto.
Qed.

Lemma settles_bind {A B : Type} (P : A -> Prop) (Q : B -> Prop)
      (p : Prog A) (f : A -> Prog B) :
  settles P p -> (forall a, P a -> settles Q (f a)) -> settles Q (bind p f).
Proof.
  intros Hp Hf. induction Hp; simpl; try (constructor; auto).
  now apply Hf.
Qed.

Lemma settles_try_catch {A : Type} (P : A -> Prop) (p : Prog A) (h : Thrown -> A) :
  settles P p -> (forall e, P (h e)) -> delivers P (try_catch p (fun e => Ret (h e))).
Proof.
  intros Hp Hh. induction Hp; simpl; constructor; auto.
Qed.

(** A run of a program that delivers returns, whatever the environment
    answers. *)
Lemma delivers_run {A : Type} (P : A -> Prop) (p : Prog A) :
  delivers P p ->
  forall env n, exists a t, run env n p = (Returned a, t) /\ P a.
Proof.
  induction 1 as [a Ha | req k _ IH | ms k _ IH | m c k _ IH | q k _ IH]; intros env n; simpl.
  - now exists a, [].
  - destruct (IH (on_fetch env n req) env (S n)) as (a & t & E & Ha).
    rewrite E. now exists a, (EvFetch req :: t).
  - destruct (IH env n) as (a & t & E & Ha).
    rewrite E. now exists a, (EvSleep ms :: t).
  - destruct (IH (on_generate env n m c) env (S n)) as (a & t & E & Ha).
    rewrite E. now exists a, (EvGenerate m c :: t).
  - destruct (IH (on_chat env n q) env (S n)) as (a & t & E & Ha).
    rewrite E. now exists a, (EvChat q :: t).
Qed.

Lemma settles_fetch (req : Request) : settles (fun _ => True) (fetch req).
Proof.
  unfold fetch. constructor. intros [e | r]; now constructor.
Qed.

Lemma settles_sleep (ms : Z) : settles (fun _ => True) (sleep ms).
Proof. unfold sleep. now repeat constructor. Qed.

Lemma settles_lift_any {A : Type} (r : Thrown + A) : settles (fun _ => True) (lift r).
Proof. destruct r; now constructor. Qed.

Lemma settles_generateContent (m : string) (c : value) :
  settles (fun _ => True) (generateContent m c).
Proof. unfold generateContent. constructor. apply settles_lift_any. Qed.

Lemma settles_chatCreate (q : ChatRequest) : settles (fun _ => True) (chatCreate q).
Proof. unfold chatCreate. constructor. apply settles_lift_any. Qed.

Lemma one_text_block_text (s : string) : one_text_block (text_result s).
Proof. now exists s. Qed.

Create HintDb settle.

#[export] Hint Resolve settles_fetch settles_sleep settles_lift_any
  settles_generateContent settles_chatCreate one_text_block_text : settle.

(** One step of a proof that a handler settles: split a sequence, decide
    a test, or close a leaf. *)
Ltac settle_step :=
  match goal with
  | |- settles _ (Ret _) => apply settles_Ret
  | |- settles _ (Throw _) => apply settles_Throw
  | |- settles _ (throw_Error _) => apply settles_Throw
  | |- settles _ (bind _ _) => eapply settles_bind; [ | intros ? ? ]
  | |- settles _ (if ?c then _ else _) => destruct c
  | |- settles _ (match ?x with _ => _ end) => destruct x
  | |- settles _ _ => solve [ eauto with settle ]
  | |- one_text_block _ => apply one_text_block_text
  | |- True => exact I
  end.

Ltac settle := repeat settle_step.

End RtFacts.

(* ===================================================================== *)
(** * Every handler settles *)
(* ===================================================================== *)

Module HandlerFacts.
Import Js Rt RtFacts.

Lemma settles_destructure (first : string) (args : value) :
  settles (fun _ => True) (Index.destructure first args).
Proof. unfold Index.destructure. settle. Qed.

#[export] Hint Resolve settles_destructure : settle.

Section IndexHandlers.
Variable host : Index.Host.

Lemma settles_generateImage (args : value) :
  settles one_text_block (Index.generateImage host args).
Proof. unfold Index.generateImage. settle. Qed.

Lemma settles_image_file (image_url : value) :
  settles (fun _ => True) (Index.image_file image_url).
Proof. unfold Index.image_file. settle. Qed.

Lemma settles_editImage (args : value) :
  settles one_text_block (Index.editImage host args).
Proof.
  pose proof settles_image_file.
  unfold Index.editImage. settle.
Qed.

Lemma settles_poll_attempt (prompt aspect_ratio operationName : value) :
  settles (fun r => forall result, r = Some result -> one_text_block result)
    (Index.poll_attempt host prompt aspect_ratio operationName).
Proof.
  unfold Index.poll_attempt. settle; intros result E; try discriminate.
  injection E as <-. apply one_text_block_text.
Qed.

(** The loop, unrolled once. *)
Lemma poll_loop_unroll (prompt aspect_ratio operationName : value)
      (fuel : nat) (attempts : Z) :
  Index.poll_loop host prompt aspect_ratio operationName (S fuel) attempts =
  if (attempts <? Index.maxAttempts)%Z
  then bind (Index.poll_attempt host prompt aspect_ratio operationName)
            (fun r => match r with
                      | Some result => Ret result
                      | None => Index.poll_loop host prompt aspect_ratio operationName
                                  fuel (attempts + 1)
                      end)
  else Ret (Index.video_timeout operationName).
Proof. reflexivity. Qed.

Lemma poll_loop_done (prompt aspect_ratio operationName : value)
      (fuel : nat) (attempts : Z) :
  (Index.maxAttempts <= attempts)%Z ->
  Index.poll_loop host prompt aspect_ratio operationName fuel attempts =
  Ret (Index.video_timeout operationName).
Proof.
  intros H. apply Z.ltb_ge in H. destruct fuel; simpl; now rewrite H.
Qed.

(** With fuel for the attempts that remain, the loop never runs dry. *)
Lemma settles_poll_loop (prompt aspect_ratio operationName : value) :
  forall (fuel : nat) (attempts : Z),
    (Index.maxAttempts - attempts <= Z.of_nat fuel)%Z ->
    settles one_text_block
      (Index.poll_loop host prompt aspect_ratio operationName fuel attempts).
Proof.
  induction fuel as [ | fuel IH]; intros attempts Hfuel.
  - rewrite poll_loop_done by lia. settle.
  - rewrite poll_loop_unroll.
    destruct (attempts <? Index.maxAttempts)%Z eqn:E; [ | settle ].
    eapply settles_bind; [ apply settles_poll_attempt | ].
    intros [result | ] Hr; simpl.
    + constructor. now apply Hr.
    + apply IH. lia.
Qed.

Lemma settles_generateVideo (args : value) :
  settles one_text_block (Index.generateVideo host args).
Proof.
  unfold Index.generateVideo.
  repeat (first [ apply settles_poll_loop; unfold Index.maxAttempts; simpl; lia
                | settle_step ]).
Qed.

Lemma settles_getCulturalInsights (args : value) :
  settles one_text_block (Index.getCulturalInsights host args).
Proof. unfold Index.getCulturalInsights. settle. Qed.

Lemma settles_listMedia (args : value) :
  settles one_text_block (Index.listMedia host args).
Proof. unfold Index.listMedia. settle. Qed.

Lemma settles_index_handle (name : string) (args : value) :
  settles one_text_block (Index.handle host name args).
Proof.
  unfold Index.handle.
  repeat match goal with
         | |- settles _ (if ?c then _ else _) => destruct c
         end;
    auto using settles_generateImage, settles_editImage, settles_generateVideo,
      settles_getCulturalInsights, settles_listMedia.
  apply settles_Throw.
Qed.

End IndexHandlers.

Lemma settles_inline_data_url (missing : string) (result : value) :
  settles (fun _ => True) (Standalone.inline_data_url missing result).
Proof. unfold Standalone.inline_data_url. settle. Qed.

Lemma settles_normalize_image (image_url : value) :
  settles (fun _ => True) (Standalone.normalize_image image_url).
Proof. unfold Standalone.normalize_image. settle. Qed.

#[export] Hint Resolve settles_inline_data_url settles_normalize_image : settle.

Lemma settles_generate_body (prompt model : value) :
  settles one_text_block (Standalone.generate_body prompt model).
Proof. unfold Standalone.generate_body, Standalone.generate_with. settle. Qed.

Lemma settles_edit_body (prompt image_url : value) :
  settles one_text_block (Standalone.edit_body prompt image_url).
Proof. unfold Standalone.edit_body. settle. Qed.

Lemma settles_standalone_insights (host : Standalone.Host) (args : value) :
  settles one_text_block (Standalone.getCulturalInsights host args).
Proof. unfold Standalone.getCulturalInsights. settle. Qed.

Lemma settles_standalone_handle (host : Standalone.Host) (name : string) (args : value) :
  settles one_text_block (Standalone.handle host name args).
Proof.
  unfold Standalone.handle, Standalone.generateImage, Standalone.editImage.
  repeat match goal with
         | |- settles _ (if ?c then _ else _) => destruct c
         end;
    auto using settles_generate_body, settles_edit_body, settles_standalone_insights.
  apply settles_Throw.
Qed.

End HandlerFacts.

(* ===================================================================== *)
(** * The dispatcher *)
(* ===================================================================== *)

Module DispatchFacts.
Import Js Rt RtFacts HandlerFacts.

Lemma index_unregistered (name : string) :
  registered Index.tools name = false ->
  forall host args,
    Index.handle host name args = throw_Error ("Unknown tool: " ++ name).
Proof.
  unfold Index.handle.
  cbv beta iota delta [registered Index.tools existsb Rt.name].
  intros H host args.
  repeat match goal with
         | H0 : (_ || _)%bool = false |- _ =>
             let E := fresh "E" in
             let R := fresh "R" in
             apply orb_false_elim in H0; destruct H0 as [E R];
             rewrite String.eqb_sym in E; rewrite E; clear E
         end.
  reflexivity.
Qed.

Lemma standalone_unregistered (name : string) :
  registered Standalone.tools name = false ->
  forall host args,
    Standalone.handle host name args = throw_Error ("Unknown tool: " ++ name).
Proof.
  unfold Standalone.handle.
  cbv beta iota delta [registered Standalone.tools existsb Rt.name].
  intros H host args.
  repeat match goal with
         | H0 : (_ || _)%bool = false |- _ =>
             let E := fresh "E" in
             let R := fresh "R" in
             apply orb_false_elim in H0; destruct H0 as [E R];
             rewrite String.eqb_sym in E; rewrite E; clear E
         end.
  reflexivity.
Qed.

Lemma index_dispatch_delivers (host : Index.Host) (name : string) (args : value) :
  delivers one_text_block (Index.dispatch host name args).
Proof.
  unfold Index.dispatch. apply settles_try_catch.
  - apply settles_index_handle.
  - intro e. apply one_text_block_text.
Qed.

Lemma standalone_dispatch_delivers (host : Standalone.Host) (name : string) (args : value) :
  delivers one_text_block (Standalone.dispatch host name args).
Proof.
  unfold Standalone.dispatch. apply settles_try_catch.
  - apply settles_standalone_handle.
  - intro e. apply one_text_block_text.
Qed.

Lemma or_else_empty_object (args : value) (k : string) :
  getOpt args k = VUndef -> getOpt (or_else args (VObj [])) k = VUndef.
Proof.
  intro H. unfold or_else. now destruct (truthy args).
Qed.

End DispatchFacts.

Section DispatcherClaims.
Import Js Rt RtFacts DispatchFacts.
Variable ihost : Index.Host.
Variable shost : Standalone.Host.

(** C2. An invocation whose tool name is not registered is answered with
    the single text block [Error: Unknown tool: <name>], and the run makes
    no call at all: the program is a bare return and its trace is empty.
    This holds for the dispatcher of [index.ts] and for the one of
    [standalone.ts], each against its own registry. *)
Theorem unknown_tool_is_rejected_without_calls :
  forall (env : Env) (name : string) (args : value),
    String.prefix "Error:" ("Error: Unknown tool: " ++ name) = true /\
    (registered Index.tools name = false ->
     Index.dispatch ihost name args
       = Ret (text_result ("Error: Unknown tool: " ++ name)) /\
     run env 0 (Index.dispatch ihost name args)
       = (Returned (text_result ("Error: Unknown tool: " ++ name)), [])) /\
    (registered Standalone.tools name = false ->
     Standalone.dispatch shost name args
       = Ret (text_result ("Error: Unknown tool: " ++ name)) /\
     run env 0 (Standalone.dispatch shost name args)
       = (Returned (text_result ("Error: Unknown tool: " ++ name)), [])).
Proof.
  intros env name args. split; [ reflexivity | split ]; intro H.
  - unfold Index.dispatch. rewrite (index_unregistered name H). now split.
  - unfold Standalone.dispatch. rewrite (standalone_unregistered name H).
    simpl. unfold Standalone.error_result; simpl. now split.
Qed.

(** C3. Whatever the environment answers, a run of dispatch returns a
    result of exactly one text block: nothing is thrown past the
    dispatcher (and the model never runs out of fuel).  When the handler
    run raises [e], dispatch returns the block [Error: <message>] after
    the same trace; the message is the error's own [message] for an Error
    instance (in [standalone.ts]: when that message is not empty). *)
Theorem dispatch_catches_every_error :
  forall (env : Env) (name : string) (args : value),
    ((exists s t,
        run env 0 (Index.dispatch ihost name args) = (Returned (text_result s), t)) /\
     (forall e t,
        run env 0 (Index.handle ihost name args) = (Raised e, t) ->
        run env 0 (Index.dispatch ihost name args)
          = (Returned (text_result ("Error: " ++ Index.error_message e)), t)) /\
     (forall k message, Index.error_message (ThrownError k message) = message)) /\
    ((exists s t,
        run env 0 (Standalone.dispatch shost name args) = (Returned (text_result s), t)) /\
     (forall e t,
        run env 0 (Standalone.handle shost name args) = (Raised e, t) ->
        run env 0 (Standalone.dispatch shost name args)
          = (Returned (text_result ("Error: " ++ Standalone.error_text e)), t)) /\
     (forall k message,
        message <> "" -> Standalone.error_text (ThrownError k message) = message)).
Proof.
  intros env name args. split; (split; [ | split ]).
  - destruct (delivers_run _ _ (index_dispatch_delivers ihost name args) env 0)
      as (r & t & E & s & ->).
    now exists s, t.
  - intros e t H. unfold Index.dispatch. rewrite run_try_catch, H. reflexivity.
  - reflexivity.
  - destruct (delivers_run _ _ (standalone_dispatch_delivers shost name args) env 0)
      as (r & t & E & s & ->).
    now exists s, t.
  - intros e t H. unfold Standalone.dispatch. rewrite run_try_catch, H. reflexivity.
  - intros k message H. simpl. apply String.eqb_neq in H. now rewrite H.
Qed.

(** X1. The dispatcher of [standalone.ts] checks the required parameters: an
    invocation of one of its tools in which a parameter of the tool's
    [required] list is missing is answered with an [Error: ...] text, and
    the run makes no call. *)
Theorem standalone_rejects_missing_required :
  forall (tool : ToolDescriptor) (parameter : string) (args : value),
    In tool Standalone.tools ->
    In parameter (required tool) ->
    getOpt args parameter = VUndef ->
    exists message,
      Standalone.dispatch shost (name tool) args
        = Ret (text_result ("Error: " ++ message)).
Proof.
  intros tool parameter args Htool Hparam Hmissing.
  apply or_else_empty_object in Hmissing.
  unfold Standalone.dispatch, Standalone.handle.
  destruct Htool as [<- | [<- | [<- | []]]]; cbn [name required] in *;
    cbn [String.eqb Ascii.eqb Bool.eqb].
  - destruct Hparam as [<- | []].
    unfold Standalone.generateImage, Standalone.generate_body.
    rewrite Hmissing. now exists "Missing prompt".
  - unfold Standalone.editImage, Standalone.edit_body.
    destruct Hparam as [<- | [<- | []]]; rewrite Hmissing; cbn [truthy negb orb].
    + now exists "Missing prompt or image_url".
    + rewrite orb_true_r. now exists "Missing prompt or image_url".
  - unfold Standalone.getCulturalInsights.
    destruct Hparam as [<- | [<- | []]]; rewrite Hmissing; cbn [truthy negb orb].
    + now exists "Missing city or country".
    + rewrite orb_true_r. now exists "Missing city or country".
Qed.

End DispatcherClaims.

(* ===================================================================== *)
(** * The video poll loop *)
(* ===================================================================== *)

Module PollerFacts.
Import Js Rt RtFacts HandlerFacts Poller.

Section Loop.
Variable host : Index.Host.
Variable env : Env.
Variables prompt aspect_ratio operationName : value.

Let poll_event : Event := EvFetch (Index.poll_request host operationName).
Let wait_event : Event := EvSleep Index.pollDelay.

(** One pass through the loop body, by the verdicts on the replies. *)
Lemma run_poll_attempt (n : nat) :
  run env n (Index.poll_attempt host prompt aspect_ratio operationName) =
  match poll_verdict (on_fetch env n (Index.poll_request host operationName)) with
  | Pending => (Returned None, [wait_event; poll_event])
  | Aborts e => (Raised e, [wait_event; poll_event])
  | Ready fileUri =>
      let download_event := EvFetch (Index.download_request host fileUri) in
      match download_verdict
              (on_fetch env (S n) (Index.download_request host fileUri)) with
      | inl e => (Raised e, [wait_event; poll_event; download_event])
      | inr (Some url) =>
          (Returned (Some (Index.video_success prompt aspect_ratio url)),
           [wait_event; poll_event; download_event])
      | inr None => (Returned None, [wait_event; poll_event; download_event])
      end
  end.
Proof.
  unfold Index.poll_attempt, poll_verdict, download_verdict; simpl.
  destruct (on_fetch env n (Index.poll_request host operationName)) as [e | pollResponse];
    simpl; [ reflexivity | ].
  destruct (ok pollResponse); simpl; [ | reflexivity ].
  destruct (json pollResponse) as [e | pollData]; simpl; [ reflexivity | ].
  destruct (get pollData "done") as [e | done]; simpl; [ reflexivity | ].
  destruct (truthy done); simpl; [ | reflexivity ].
  destruct (truthy (Index.file_uri_of pollData)); simpl; [ | reflexivity ].
  destruct (on_fetch env (S n)
              (Index.download_request host (Index.file_uri_of pollData)))
    as [e | downloadResponse]; simpl; [ reflexivity | ].
  destruct (ok downloadResponse); simpl; [ | reflexivity ].
  destruct (json downloadResponse) as [e | downloadData]; simpl; [ reflexivity | ].
  destruct (get downloadData "url") as [e | url]; reflexivity.
Qed.

Local Abbreviation loop := (Index.poll_loop host prompt aspect_ratio operationName).

(** A pending poll: the loop goes on with the next attempt. *)
Lemma run_loop_pending (fuel : nat) (attempts : Z) (n : nat) :
  (attempts < Index.maxAttempts)%Z ->
  poll_verdict (on_fetch env n (Index.poll_request host operationName)) = Pending ->
  run env n (loop (S fuel) attempts) =
  let (o, t) := run env (S n) (loop fuel (attempts + 1)) in
  (o, wait_event :: poll_event :: t).
Proof.
  intros Hlt Hv. rewrite poll_loop_unroll.
  apply Z.ltb_lt in Hlt. rewrite Hlt.
  rewrite run_bind, run_poll_attempt, Hv.
  cbn [external_calls filter is_external List.length wait_event poll_event].
  replace (n + 1) with (S n) by lia.
  now destruct (run env (S n) (loop fuel (attempts + 1))).
Qed.

(** A poll with a file reference whose download is not successful: the
    loop goes on with the next attempt. *)
Lemma run_loop_download_miss (fuel : nat) (attempts : Z) (n : nat) (fileUri : value) :
  (attempts < Index.maxAttempts)%Z ->
  poll_verdict (on_fetch env n (Index.poll_request host operationName)) = Ready fileUri ->
  download_verdict (on_fetch env (S n) (Index.download_request host fileUri)) = inr None ->
  run env n (loop (S fuel) attempts) =
  let (o, t) := run env (S (S n)) (loop fuel (attempts + 1)) in
  (o, wait_event :: poll_event :: EvFetch (Index.download_request host fileUri) :: t).
Proof.
  intros Hlt Hv Hd. rewrite poll_loop_unroll.
  apply Z.ltb_lt in Hlt. rewrite Hlt.
  rewrite run_bind, run_poll_attempt, Hv. cbv zeta. rewrite Hd.
  cbn [external_calls filter is_external List.length wait_event poll_event].
  replace (n + 2) with (S (S n)) by lia.
  now destruct (run env (S (S n)) (loop fuel (attempts + 1))).
Qed.

(** A poll that throws ends the loop with what was thrown. *)
Lemma run_loop_abort (fuel : nat) (attempts : Z) (n : nat) (e : Thrown) :
  (attempts < Index.maxAttempts)%Z ->
  poll_verdict (on_fetch env n (Index.poll_request host operationName)) = Aborts e ->
  run env n (loop (S fuel) attempts) = (Raised e, [wait_event; poll_event]).
Proof.
  intros Hlt Hv. rewrite poll_loop_unroll.
  apply Z.ltb_lt in Hlt. rewrite Hlt.
  now rewrite run_bind, run_poll_attempt, Hv.
Qed.

(** Every run of the loop is a sequence of at most [maxAttempts -
    attempts] paced attempts and ends without exhausting the fuel. *)
Lemma run_loop_shape :
  forall (fuel : nat) (attempts : Z) (n : nat),
    (0 <= attempts)%Z ->
    (Index.maxAttempts - attempts <= Z.of_nat fuel)%Z ->
    (exists k, attempt_trace host operationName k (snd (run env n (loop fuel attempts)))
               /\ (Z.of_nat k <= Z.max 0 (Index.maxAttempts - attempts))%Z)
    /\ fst (run env n (loop fuel attempts)) <> OutOfFuel.
Proof.
  induction fuel as [ | fuel IH]; intros attempts n H0 Hfuel.
  - rewrite poll_loop_done by lia. cbn [fst snd]. split; [ | discriminate ].
    exists 0. split; [ constructor | lia ].
  - destruct (Z.lt_ge_cases attempts Index.maxAttempts) as [Hlt | Hge].
    2:{ rewrite poll_loop_done by lia. cbn [fst snd]. split; [ | discriminate ].
        exists 0. split; [ constructor | lia ]. }
    rewrite poll_loop_unroll.
    pose proof Hlt as Hb. apply Z.ltb_lt in Hb. rewrite Hb.
    rewrite run_bind, run_poll_attempt.
    destruct (poll_verdict (on_fetch env n (Index.poll_request host operationName)))
      as [ | fileUri | e].
    + cbn [external_calls filter is_external List.length wait_event poll_event].
      destruct (IH (attempts + 1)%Z (n + 1) ltac:(lia) ltac:(lia)) as [(k & Hk & Hle) Hne].
      destruct (run env (n + 1) (loop fuel (attempts + 1))) as [o t]; cbn [fst snd] in *.
      split; [ | exact Hne ].
      exists (S k). split; [ now apply attempts_poll | lia ].
    + cbv zeta.
      destruct (download_verdict
                  (on_fetch env (S n) (Index.download_request host fileUri)))
        as [e | [url | ]].
      * cbn [fst snd]. split; [ | discriminate ].
        exists 1. split; [ apply attempts_download; constructor | lia ].
      * cbn [fst snd]. split; [ | discriminate ].
        exists 1. split; [ apply attempts_download; constructor | lia ].
      * cbn [external_calls filter is_external List.length wait_event poll_event].
        destruct (IH (attempts + 1)%Z (n + 2) ltac:(lia) ltac:(lia))
          as [(k & Hk & Hle) Hne].
        destruct (run env (n + 2) (loop fuel (attempts + 1))) as [o t]; cbn [fst snd] in *.
        split; [ | exact Hne ].
        exists (S k). split; [ now apply attempts_download | lia ].
    + cbn [fst snd]. split; [ | discriminate ].
      exists 1. split; [ apply attempts_poll; constructor | lia ].
Qed.

(** Polls that stay pending use up the budget: the loop stops after
    exactly the attempts that remained and reports the time-out. *)
Lemma run_loop_never_ready :
  forall (fuel : nat) (attempts : Z) (n : nat),
    (0 <= attempts)%Z ->
    (Index.maxAttempts - attempts <= Z.of_nat fuel)%Z ->
    (forall i, (Z.of_nat i < Index.maxAttempts - attempts)%Z ->
               poll_verdict (on_fetch env (n + i) (Index.poll_request host operationName))
               = Pending) ->
    run env n (loop fuel attempts) =
    (Returned (Index.video_timeout operationName),
     miss_trace host operationName (Z.to_nat (Index.maxAttempts - attempts))).
Proof.
  induction fuel as [ | fuel IH]; intros attempts n H0 Hfuel Hpending.
  - rewrite poll_loop_done by lia.
    replace (Z.to_nat (Index.maxAttempts - attempts)) with 0 by lia. reflexivity.
  - destruct (Z.lt_ge_cases attempts Index.maxAttempts) as [Hlt | Hge].
    2:{ rewrite poll_loop_done by lia.
        replace (Z.to_nat (Index.maxAttempts - attempts)) with 0 by lia. reflexivity. }
    rewrite run_loop_pending; [ | exact Hlt | ].
    2:{ specialize (Hpending 0). rewrite Nat.add_0_r in Hpending. apply Hpending. lia. }
    rewrite (IH (attempts + 1)%Z (S n)); [ | lia | lia | ].
    2:{ intros i Hi. replace (S n + i) with (n + S i) by lia. apply Hpending. lia. }
    replace (Z.to_nat (Index.maxAttempts - attempts))
      with (S (Z.to_nat (Index.maxAttempts - (attempts + 1)))) by lia.
    reflexivity.
Qed.

(** [k] pending polls, then a poll with a file reference whose download
    succeeds: the loop returns the success reply after [k + 1] attempts. *)
Lemma run_loop_ready :
  forall (k fuel : nat) (attempts : Z) (n : nat) (fileUri url : value),
    (0 <= attempts)%Z ->
    (Z.of_nat k < Index.maxAttempts - attempts)%Z ->
    (Index.maxAttempts - attempts <= Z.of_nat fuel)%Z ->
    (forall i, i < k ->
               poll_verdict (on_fetch env (n + i) (Index.poll_request host operationName))
               = Pending) ->
    poll_verdict (on_fetch env (n + k) (Index.poll_request host operationName))
      = Ready fileUri ->
    download_verdict (on_fetch env (S (n + k)) (Index.download_request host fileUri))
      = inr (Some url) ->
    run env n (loop fuel attempts) =
    (Returned (Index.video_success prompt aspect_ratio url),
     (miss_trace host operationName k
      ++ [wait_event; poll_event; EvFetch (Index.download_request host fileUri)])%list).
Proof.
  induction k as [ | k IH]; intros fuel attempts n fileUri url H0 Hk Hfuel Hpending Hready Hdl.
  - destruct fuel as [ | fuel]; [ lia | ].
    rewrite poll_loop_unroll.
    assert (Hb : (attempts <? Index.maxAttempts)%Z = true) by (apply Z.ltb_lt; lia).
    rewrite Hb, run_bind, run_poll_attempt.
    rewrite Nat.add_0_r in Hready, Hdl. rewrite Hready. cbv zeta. rewrite Hdl.
    reflexivity.
  - destruct fuel as [ | fuel]; [ lia | ].
    rewrite run_loop_pending; [ | lia | ].
    2:{ specialize (Hpending 0). rewrite Nat.add_0_r in Hpending. apply Hpending. lia. }
    rewrite (IH fuel (attempts + 1)%Z (S n) fileUri url); try lia.
    + reflexivity.
    + intros i Hi. replace (S n + i) with (n + S i) by lia. apply Hpending. lia.
    + now replace (S n + k) with (n + S k) by lia.
    + now replace (S n + k) with (n + S k) by lia.
Qed.

End Loop.
End PollerFacts.

Section PollerClaims.
Import Js Rt Poller PollerFacts.
Variable host : Index.Host.
Variables prompt aspect_ratio operationName : value.

(** C4, as amended.  The poll loop of [generateVideo], started with
    [attempts = 0]: the budget is 30 attempts and the wait before each
    poll is the fixed delay of 10000 ms.  Whatever the environment
    answers, the run is made of at most 30 attempts, each one a wait
    followed by one poll (and at most one download), and it ends.  If the
    first [k] polls are pending and poll [k + 1 <= 30] yields a file
    reference whose download succeeds, the loop returns the success reply
    right after that attempt.  A poll with a file reference whose download
    is not successful is a miss: the loop goes on.  A poll that throws
    ends the loop with what was thrown.  If all 30 polls are pending, the
    loop makes exactly 30 attempts and returns the timed-out reply, which
    carries the operation name. *)
Theorem poll_loop_is_bounded_by_thirty_attempts :
  forall (env : Env),
    let result :=
      run env 0 (Index.poll_loop host prompt aspect_ratio operationName
                   (Z.to_nat Index.maxAttempts) 0) in
    let poll := Index.poll_request host operationName in
    Index.maxAttempts = 30%Z /\ Index.pollDelay = 10000%Z /\
    (exists k, attempt_trace host operationName k (snd result) /\ k <= 30) /\
    fst result <> OutOfFuel /\
    (forall (k : nat) (fileUri url : value),
        k < 30 ->
        (forall i, i < k -> poll_verdict (on_fetch env i poll) = Pending) ->
        poll_verdict (on_fetch env k poll) = Ready fileUri ->
        download_verdict (on_fetch env (S k) (Index.download_request host fileUri))
          = inr (Some url) ->
        result =
        (Returned (Index.video_success prompt aspect_ratio url),
         (miss_trace host operationName k
          ++ [EvSleep 10000; EvFetch poll;
              EvFetch (Index.download_request host fileUri)])%list)) /\
    (forall (fileUri : value),
        poll_verdict (on_fetch env 0 poll) = Ready fileUri ->
        download_verdict (on_fetch env 1 (Index.download_request host fileUri))
          = inr None ->
        result =
        (let (o, t) :=
           run env 2 (Index.poll_loop host prompt aspect_ratio operationName 29 1) in
         (o, EvSleep 10000 :: EvFetch poll
             :: EvFetch (Index.download_request host fileUri) :: t))) /\
    (forall (e : Thrown),
        poll_verdict (on_fetch env 0 poll) = Aborts e ->
        result = (Raised e, [EvSleep 10000; EvFetch poll])) /\
    ((forall i, i < 30 -> poll_verdict (on_fetch env i poll) = Pending) ->
     result = (Returned (Index.video_timeout operationName),
               miss_trace host operationName 30) /\
     Index.video_timeout operationName =
     text_result
       ("⏳ Video generation started but timed out waiting for completion."
        ++ Index.nl2 ++ "Operation: " ++ toString operationName ++ Index.nl2
        ++ "Check the gallery in a few minutes.")).
Proof.
  intros env result poll. subst result poll.
  split; [ reflexivity | split; [ reflexivity | ] ].
  destruct (run_loop_shape host env prompt aspect_ratio operationName
              (Z.to_nat Index.maxAttempts) 0 0) as [(k & Hk & Hle) Hne].
  { lia. }
  { unfold Index.maxAttempts. lia. }
  split; [ | split; [ exact Hne | split; [ | split; [ | split ] ] ] ].
  - exists k. split; [ exact Hk | ]. unfold Index.maxAttempts in Hle. lia.
  - intros j fileUri url Hj Hpending Hready Hdl.
    apply (run_loop_ready host env prompt aspect_ratio operationName j); auto.
    + lia.
    + unfold Index.maxAttempts. lia.
    + unfold Index.maxAttempts. lia.
  - intros fileUri Hready Hdl.
    apply (run_loop_download_miss host env prompt aspect_ratio operationName
             29 0 0 fileUri); auto.
    unfold Index.maxAttempts. lia.
  - intros e Habort.
    apply (run_loop_abort host env prompt aspect_ratio operationName 29 0 0 e); auto.
    unfold Index.maxAttempts. lia.
  - intros Hpending. split; [ | reflexivity ].
    rewrite (run_loop_never_ready host env prompt aspect_ratio operationName);
      [ reflexivity | lia | unfold Index.maxAttempts; lia | ].
    intros i Hi. apply Hpending. unfold Index.maxAttempts in Hi. lia.
Qed.

(** C8. In the poll loop, with an attempt left: a poll reply whose status
    is not a success, and a successful poll reply whose [done] flag is set
    but which carries no file reference, are both taken as pending: the
    attempt consists of the wait and the poll alone, nothing is thrown,
    and the run goes on with the next attempt. *)
Theorem done_without_file_or_failed_poll_continues :
  forall (env : Env) (n fuel : nat) (attempts : Z) (pollResponse : Response),
    (attempts < Index.maxAttempts)%Z ->
    on_fetch env n (Index.poll_request host operationName) = Resolved pollResponse ->
    (ok pollResponse = false \/
     (ok pollResponse = true /\
      exists pollData,
        json pollResponse = inr pollData /\
        truthy (getOpt pollData "done") = true /\
        truthy (Index.file_uri_of pollData) = false)) ->
    poll_verdict (Resolved pollResponse) = Pending /\
    run env n (Index.poll_loop host prompt aspect_ratio operationName (S fuel) attempts) =
    (let (o, t) :=
       run env (S n)
         (Index.poll_loop host prompt aspect_ratio operationName fuel (attempts + 1)) in
     (o, EvSleep 10000 :: EvFetch (Index.poll_request host operationName) :: t)).
Proof.
  intros env n fuel attempts pollResponse Hlt Hreply Hcase.
  assert (Hv : poll_verdict (Resolved pollResponse) = Pending).
  { unfold poll_verdict.
    destruct Hcase as [Hok | (Hok & pollData & Hjson & Hdone & Huri)]; rewrite Hok.
    - reflexivity.
    - rewrite Hjson.
      assert (Hget : get pollData "done" = inr (getOpt pollData "done")).
      { destruct pollData; try discriminate Hdone. reflexivity. }
      now rewrite Hget, Hdone, Huri. }
  split; [ exact Hv | ].
  apply run_loop_pending; [ exact Hlt | now rewrite Hreply ].
Qed.

End PollerClaims.

(* ===================================================================== *)
(** * Image generation and editing *)
(* ===================================================================== *)

Module ImageFacts.
Import Js Rt RtFacts.

Lemma is_string_true (lit : string) (v : value) :
  is_string lit v = true <-> v = VStr lit.
Proof.
  destruct v; simpl; split; intro H; try discriminate.
  - apply String.eqb_eq in H. now subst.
  - injection H as ->. apply String.eqb_refl.
Qed.

Lemma is_string_false (lit : string) (v : value) :
  is_string lit v = false <-> v <> VStr lit.
Proof.
  rewrite <- is_string_true. destruct (is_string lit v); split; congruence.
Qed.

(** A value with a truthy property is an object, hence truthy and not
    nullish. *)
Lemma truthy_property (v : value) (k : string) :
  truthy (getOpt v k) = true -> exists fields, v = VObj fields.
Proof.
  destruct v; simpl; try discriminate. intros _. now eexists.
Qed.

Section Index.
Variable host : Index.Host.

(** [generateImage] of [index.ts] starts with the request to the endpoint
    picked by the test [model === 'imagen']. *)
Lemma index_generate_starts_with_fetch (args : value) :
  nullish args = false ->
  exists k,
    Index.generateImage host args =
    Fetch (mkRequest
             (Index.BASE_URL host ++
              (if is_string "imagen" (with_default (VStr "gemini") (getOpt args "model"))
               then "/api/imagen/generate" else "/api/gemini/generate"))
             "POST" Index.json_headers
             (JsonBody (json_object [("prompt", getOpt args "prompt")])))
          k.
Proof.
  intros Hargs. unfold Index.generateImage, Index.destructure. rewrite Hargs.
  cbn [bind fetch]. eexists. reflexivity.
Qed.

(** The remote branch of [editImage]: the bytes fetched are uploaded as a
    file of type [image/png]. *)
Lemma index_edit_remote (env : Env) (args : value) (imageResponse : Response) :
  nullish args = false ->
  startsWith "data:" (toString (getOpt args "image_url")) = false ->
  on_fetch env 0 (mkRequest (toString (getOpt args "image_url")) "GET" [] NoBody)
    = Resolved imageResponse ->
  ok imageResponse = true ->
  exists o t,
    run env 0 (Index.editImage host args) =
    (o, EvFetch (mkRequest (toString (getOpt args "image_url")) "GET" [] NoBody)
        :: EvFetch (mkRequest (Index.BASE_URL host ++ "/api/gemini/edit") "POST" []
                      (FormBody
                         [("prompt", FormText (toString (getOpt args "prompt")));
                          ("imageFile",
                           FormFile (arrayBuffer imageResponse) "image.png" "image/png")]))
        :: t).
Proof.
  intros Hargs Hremote Hreply Hok.
  unfold Index.editImage, Index.destructure, Index.image_file.
  rewrite Hargs, Hremote. cbn [bind fetch run]. rewrite Hreply. cbn [bind].
  rewrite Hok. cbn [negb bind run].
  match goal with |- context [run env 2 ?p] => destruct (run env 2 p) as [o t] end.
  now exists o, t.
Qed.

(** The data-URL branch of [editImage]: the bytes decoded from the second
    piece are uploaded under the mime type read from the first. *)
Lemma index_edit_data_url (env : Env) (args : value) (base64 : string) :
  nullish args = false ->
  startsWith "data:" (toString (getOpt args "image_url")) = true ->
  nth_error (split_comma (toString (getOpt args "image_url"))) 1 = Some base64 ->
  exists o t,
    run env 0 (Index.editImage host args) =
    (o, EvFetch (mkRequest (Index.BASE_URL host ++ "/api/gemini/edit") "POST" []
                   (FormBody
                      [("prompt", FormText (toString (getOpt args "prompt")));
                       ("imageFile",
                        FormFile (Base64.decode base64) "image.png"
                          match match_data_mime
                                  (nth 0 (split_comma (toString (getOpt args "image_url")))
                                     EmptyString) with
                          | Some m => m
                          | None => "image/png"
                          end)]))
        :: t).
Proof.
  intros Hargs Hdata Hsplit.
  unfold Index.editImage, Index.destructure, Index.image_file, Index.decode_data_url.
  rewrite Hargs, Hdata, Hsplit. cbn [bind fetch run lift fst snd].
  match goal with |- context [run env 1 ?p] => destruct (run env 1 p) as [o t] end.
  now exists o, t.
Qed.

End Index.

Lemma standalone_generate_with_calls (headline : string) (prompt : value) :
  exists k,
    Standalone.generate_with headline prompt =
    GenerateContent Standalone.modelId
      (Standalone.user_contents [VObj [("text", prompt)]]) k.
Proof. unfold Standalone.generate_with, generateContent. cbn [bind]. eexists. reflexivity. Qed.

Lemma standalone_generate_route (args : value) :
  truthy (getOpt args "prompt") = true ->
  Standalone.generateImage args =
  Standalone.generate_with
    (if is_string "imagen" (with_default (VStr "gemini") (getOpt args "model"))
     then "✅ Image (Gemini fallback for Imagen)" else "✅ Gemini image")
    (getOpt args "prompt").
Proof.
  intros Hp. destruct (truthy_property _ _ Hp) as [fields ->].
  unfold Standalone.generateImage, Standalone.generate_body, or_else.
  cbn [truthy]. rewrite Hp. cbn [negb].
  now destruct (is_string "imagen" _).
Qed.

Lemma smithery_generate_route (args : value) :
  truthy (getOpt args "prompt") = true ->
  Smithery.generate_image args =
  try_catch
    (Standalone.generate_with
       (if is_string "imagen" (with_default (VStr "gemini") (getOpt args "model"))
        then "✅ Image (Gemini fallback for Imagen)" else "✅ Gemini image")
       (getOpt args "prompt"))
    (fun error => Ret (Standalone.error_result error)).
Proof.
  intros Hp. destruct (truthy_property _ _ Hp) as [fields ->].
  unfold Smithery.generate_image, Standalone.generate_body.
  cbn [nullish bind]. rewrite Hp. cbn [negb].
  now destruct (is_string "imagen" _).
Qed.

(** The remote branch of [editImage] in [standalone.ts]. *)
Lemma standalone_edit_remote (env : Env) (args : value) (res : Response) :
  truthy (getOpt args "prompt") = true ->
  truthy (getOpt args "image_url") = true ->
  startsWith "data:" (toString (getOpt args "image_url")) = false ->
  on_fetch env 0 (mkRequest (toString (getOpt args "image_url")) "GET" [] NoBody)
    = Resolved res ->
  ok res = true ->
  exists o t,
    run env 0 (Standalone.editImage args) =
    (o, EvFetch (mkRequest (toString (getOpt args "image_url")) "GET" [] NoBody)
        :: EvGenerate Standalone.modelId
             (Standalone.user_contents
                [VObj [("text", getOpt args "prompt")];
                 VObj [("inlineData",
                        VObj [("mimeType", VStr "image/png");
                              ("data", VStr (Base64.encode (arrayBuffer res)))])]])
        :: t).
Proof.
  intros Hp Hu Hremote Hreply Hok.
  destruct (truthy_property _ _ Hp) as [fields ->].
  unfold Standalone.editImage, Standalone.edit_body, Standalone.normalize_image, or_else.
  cbn [truthy]. rewrite Hp, Hu, Hremote. cbn [negb orb bind fetch run].
  rewrite Hreply. cbn [bind]. rewrite Hok. cbn [negb bind generateContent run fst snd].
  match goal with |- context [run env 2 ?p] => destruct (run env 2 p) as [o t] end.
  now exists o, t.
Qed.

(** The data-URL branch of [editImage] in [standalone.ts]: the second
    piece is handed on as it is, [undefined] when there is none. *)
Lemma standalone_edit_data_url (env : Env) (args : value) :
  truthy (getOpt args "prompt") = true ->
  truthy (getOpt args "image_url") = true ->
  startsWith "data:" (toString (getOpt args "image_url")) = true ->
  exists o t,
    run env 0 (Standalone.editImage args) =
    (o, EvGenerate Standalone.modelId
          (Standalone.user_contents
             [VObj [("text", getOpt args "prompt")];
              VObj [("inlineData",
                     VObj [("mimeType",
                            VStr match match_data_mime
                                         (nth 0 (split_comma
                                                   (toString (getOpt args "image_url")))
                                            EmptyString) with
                                 | Some m => m
                                 | None => "image/png"
                                 end);
                           ("data",
                            match nth_error
                                    (split_comma (toString (getOpt args "image_url"))) 1 with
                            | Some b => VStr b
                            | None => VUndef
                            end)])]])
        :: t).
Proof.
  intros Hp Hu Hdata.
  destruct (truthy_property _ _ Hp) as [fields ->].
  unfold Standalone.editImage, Standalone.edit_body, Standalone.normalize_image, or_else.
  cbn [truthy]. rewrite Hp, Hu, Hdata. cbn [negb orb bind generateContent run fst snd].
  match goal with |- context [run env 1 ?p] => destruct (run env 1 p) as [o t] end.
  now exists o, t.
Qed.

End ImageFacts.

Section ImageClaims.
Import Js Rt ImageFacts.
Variable ihost : Index.Host.
Variable shost : Standalone.Host.

(** C1 (the defect in [index.ts]).  [generate_image] invoked without its
    required [prompt]: the dispatcher of [index.ts] does not fail first;
    every run begins with the request to the generation endpoint, and
    against a backend that answers with an image the reply is the success
    text with [Prompt: undefined].  The dispatcher of [standalone.ts]
    rejects the same invocation without any call. *)
Theorem index_generate_image_without_prompt_calls_upstream :
  (forall (env : Env),
      exists o t,
        run env 0 (Index.dispatch ihost "generate_image" (VObj [])) =
        (o, EvFetch (mkRequest (Index.BASE_URL ihost ++ "/api/gemini/generate") "POST"
                       Index.json_headers (JsonBody (VObj [])))
            :: t)) /\
  run (Samples.always
         (Samples.json_reply 200
            (VObj [("image", VObj [("url", VStr "https://x/y.png")])])))
      0 (Index.dispatch ihost "generate_image" (VObj [])) =
  (Returned
     (text_result
        ("✅ Image generated successfully using gemini" ++ Index.nl2
         ++ "Prompt: undefined" ++ Index.nl2 ++ "Image URL: https://x/y.png")),
   [EvFetch (mkRequest (Index.BASE_URL ihost ++ "/api/gemini/generate") "POST"
               Index.json_headers (JsonBody (VObj [])))]) /\
  Standalone.dispatch shost "generate_image" (VObj [])
    = Ret (text_result "Error: Missing prompt").
Proof.
  split; [ | split ].
  - intro env.
    destruct (index_generate_starts_with_fetch ihost (VObj []) eq_refl) as [k Ek].
    unfold Index.dispatch, Index.handle. cbn [String.eqb Ascii.eqb Bool.eqb].
    rewrite Ek. cbn [try_catch run].
    match goal with |- context [run env 1 ?p] => destruct (run env 1 p) as [o t] end.
    now exists o, t.
  - reflexivity.
  - reflexivity.
Qed.

(** C7 (the defect in [index.ts]).  [generate_image] with a prompt,
    against a backend whose reply has neither an error field nor an image:
    the dispatcher of [index.ts] returns the success text, with a
    data-URL put together from two [undefined]s. *)
Theorem index_generate_image_without_payload_reports_success :
  forall (prompt : string),
    run (Samples.always (Samples.json_reply 200 (VObj [])))
        0 (Index.dispatch ihost "generate_image" (VObj [("prompt", VStr prompt)])) =
    (Returned
       (text_result
          ("✅ Image generated successfully using gemini" ++ Index.nl2
           ++ "Prompt: " ++ prompt ++ Index.nl2
           ++ "Image URL: data:undefined;base64,undefined")),
     [EvFetch (mkRequest (Index.BASE_URL ihost ++ "/api/gemini/generate") "POST"
                 Index.json_headers (JsonBody (VObj [("prompt", VStr prompt)])))]).
Proof.
  intro prompt. reflexivity.
Qed.

End ImageClaims.

(* ===================================================================== *)
(** * The payload normaliser *)
(* ===================================================================== *)

Module Base64Facts.
Import Base64.

(** Below 64 a number is one of 64 cases. *)
Ltac below_64 n H :=
  destruct n as [ | p]; [ | do 6 (try destruct p as [p | p | ]) ];
  try (exfalso; lia); clear H.

(** Every sextet has a character of its own, which is neither the padding
    sign nor a comma. *)
Lemma sextet_char_spec (n : N) :
  (n < 64)%N ->
  char_sextet (sextet_char n) = Some n /\
  (sextet_char n =? "=")%char = false /\
  (sextet_char n =? ",")%char = false.
Proof.
  intro H. below_64 n H; repeat split; reflexivity.
Qed.

Lemma sextets_cons (n : N) (rest : string) :
  (n < 64)%N -> sextets (String (sextet_char n) rest) = n :: sextets rest.
Proof.
  intro H. destruct (sextet_char_spec n H) as (Hc & Hp & _).
  simpl. now rewrite Hp, Hc.
Qed.

Lemma byte_of_to_N (b : Byte.byte) : byte_of_N (Byte.to_N b) = b.
Proof.
  unfold byte_of_N.
  rewrite N.mod_small by (pose proof (Byte.to_N_bounded b); lia).
  now rewrite Byte.of_to_N.
Qed.

Lemma to_N_below (b : Byte.byte) : (Byte.to_N b < 256)%N.
Proof. pose proof (Byte.to_N_bounded b). lia. Qed.

Section Arithmetic.
Local Open Scope N_scope.

Lemma sextet1_below (x : N) : x < 256 -> x / 4 < 64.
Proof. intros. apply N.Div0.div_lt_upper_bound. lia. Qed.

Lemma sextet2_below (x y : N) : x < 256 -> y < 256 -> (x mod 4) * 16 + y / 16 < 64.
Proof.
  intros.
  assert (x mod 4 < 4) by (apply N.mod_upper_bound; lia).
  assert (y / 16 < 16) by (apply N.Div0.div_lt_upper_bound; lia).
  lia.
Qed.

Lemma sextet2_alone_below (x : N) : x < 256 -> (x mod 4) * 16 < 64.
Proof.
  intros.
  assert (x mod 4 < 4) by (apply N.mod_upper_bound; lia). lia.
Qed.

Lemma sextet3_below (y z : N) : y < 256 -> z < 256 -> (y mod 16) * 4 + z / 64 < 64.
Proof.
  intros.
  assert (y mod 16 < 16) by (apply N.mod_upper_bound; lia).
  assert (z / 64 < 4) by (apply N.Div0.div_lt_upper_bound; lia).
  lia.
Qed.

Lemma sextet3_alone_below (y : N) : y < 256 -> (y mod 16) * 4 < 64.
Proof.
  intros.
  assert (y mod 16 < 16) by (apply N.mod_upper_bound; lia). lia.
Qed.

Lemma sextet4_below (z : N) : z < 256 -> z mod 64 < 64.
Proof. intros. apply N.mod_upper_bound. lia. Qed.

(** The first byte comes back from the first two sextets. *)
Lemma byte1_back (x y : N) :
  x < 256 -> y < 256 -> (x / 4) * 4 + ((x mod 4) * 16 + y / 16) / 16 = x.
Proof.
  intros.
  assert (y / 16 < 16) by (apply N.Div0.div_lt_upper_bound; lia).
  rewrite N.div_add_l by lia.
  rewrite (N.div_small (y / 16) 16) by lia.
  rewrite (N.div_mod x 4) at 3 by lia. lia.
Qed.

Lemma byte1_alone_back (x : N) : x < 256 -> (x / 4) * 4 + ((x mod 4) * 16) / 16 = x.
Proof.
  intros.
  rewrite N.div_mul by lia.
  rewrite (N.div_mod x 4) at 3 by lia. lia.
Qed.

(** The second byte comes back from the second and third sextets. *)
Lemma byte2_back (x y z : N) :
  x < 256 -> y < 256 -> z < 256 ->
  (((x mod 4) * 16 + y / 16) mod 16) * 16 + ((y mod 16) * 4 + z / 64) / 4 = y.
Proof.
  intros.
  assert (y / 16 < 16) by (apply N.Div0.div_lt_upper_bound; lia).
  assert (z / 64 < 4) by (apply N.Div0.div_lt_upper_bound; lia).
  rewrite (N.add_comm ((x mod 4) * 16) (y / 16)), N.Div0.mod_add.
  rewrite (N.mod_small (y / 16) 16) by lia.
  rewrite N.div_add_l by lia.
  rewrite (N.div_small (z / 64) 4) by lia.
  rewrite (N.div_mod y 16) at 3 by lia. lia.
Qed.

Lemma byte2_alone_back (x y : N) :
  x < 256 -> y < 256 ->
  (((x mod 4) * 16 + y / 16) mod 16) * 16 + ((y mod 16) * 4) / 4 = y.
Proof.
  intros.
  assert (y / 16 < 16) by (apply N.Div0.div_lt_upper_bound; lia).
  rewrite (N.add_comm ((x mod 4) * 16) (y / 16)), N.Div0.mod_add.
  rewrite (N.mod_small (y / 16) 16) by lia.
  rewrite N.div_mul by lia.
  rewrite (N.div_mod y 16) at 3 by lia. lia.
Qed.

(** The third byte comes back from the last two sextets. *)
Lemma byte3_back (y z : N) :
  y < 256 -> z < 256 -> (((y mod 16) * 4 + z / 64) mod 4) * 64 + z mod 64 = z.
Proof.
  intros.
  assert (z / 64 < 4) by (apply N.Div0.div_lt_upper_bound; lia).
  rewrite (N.add_comm ((y mod 16) * 4) (z / 64)), N.Div0.mod_add.
  rewrite (N.mod_small (z / 64) 4) by lia.
  rewrite (N.div_mod z 64) at 3 by lia. lia.
Qed.

End Arithmetic.

(** Lists, three items at a time. *)
Lemma list_ind3 {A : Type} (P : list A -> Prop) :
  P [] ->
  (forall a, P [a]) ->
  (forall a b, P [a; b]) ->
  (forall a b c rest, P rest -> P (a :: b :: c :: rest)) ->
  forall l, P l.
Proof.
  intros H0 H1 H2 H3.
  fix IH 1. intros [ | a [ | b [ | c rest]]].
  - exact H0.
  - apply H1.
  - apply H2.
  - apply H3, IH.
Qed.

(** Decoding the encoding of a byte sequence gives the sequence back. *)
Lemma decode_encode (bs : bytes) : decode (encode bs) = bs.
Proof.
  unfold decode. induction bs as [ | a | a b | a b c rest IH] using list_ind3.
  - reflexivity.
  - pose proof (to_N_below a) as Ha.
    cbn [encode].
    rewrite sextets_cons by now apply sextet1_below.
    rewrite sextets_cons by now apply sextet2_alone_below.
    cbn [sextets Ascii.eqb Bool.eqb bytes_of_sextets].
    rewrite byte1_alone_back by assumption. now rewrite byte_of_to_N.
  - pose proof (to_N_below a) as Ha. pose proof (to_N_below b) as Hb.
    cbn [encode].
    rewrite sextets_cons by now apply sextet1_below.
    rewrite sextets_cons by now apply sextet2_below.
    rewrite sextets_cons by now apply sextet3_alone_below.
    cbn [sextets Ascii.eqb Bool.eqb bytes_of_sextets].
    rewrite byte1_back, byte2_alone_back by assumption.
    now rewrite !byte_of_to_N.
  - pose proof (to_N_below a) as Ha. pose proof (to_N_below b) as Hb.
    pose proof (to_N_below c) as Hc.
    cbn [encode].
    rewrite sextets_cons by now apply sextet1_below.
    rewrite sextets_cons by now apply sextet2_below.
    rewrite sextets_cons by now apply sextet3_below.
    rewrite sextets_cons by now apply sextet4_below.
    cbn [bytes_of_sextets].
    rewrite byte1_back, byte2_back, byte3_back by assumption.
    rewrite !byte_of_to_N. now rewrite IH.
Qed.

(** The encoding contains no comma. *)
Lemma encode_no_comma (bs : bytes) : Normalizer.has_char "," (encode bs) = false.
Proof.
  induction bs as [ | a | a b | a b c rest IH] using list_ind3.
  - reflexivity.
  - pose proof (to_N_below a) as Ha. cbn [encode Normalizer.has_char].
    destruct (sextet_char_spec _ (sextet1_below _ Ha)) as (_ & _ & ->).
    destruct (sextet_char_spec _ (sextet2_alone_below _ Ha)) as (_ & _ & ->).
    reflexivity.
  - pose proof (to_N_below a) as Ha. pose proof (to_N_below b) as Hb.
    cbn [encode Normalizer.has_char].
    destruct (sextet_char_spec _ (sextet1_below _ Ha)) as (_ & _ & ->).
    destruct (sextet_char_spec _ (sextet2_below _ _ Ha Hb)) as (_ & _ & ->).
    destruct (sextet_char_spec _ (sextet3_alone_below _ Hb)) as (_ & _ & ->).
    reflexivity.
  - pose proof (to_N_below a) as Ha. pose proof (to_N_below b) as Hb.
    pose proof (to_N_below c) as Hc.
    cbn [encode Normalizer.has_char].
    destruct (sextet_char_spec _ (sextet1_below _ Ha)) as (_ & _ & ->).
    destruct (sextet_char_spec _ (sextet2_below _ _ Ha Hb)) as (_ & _ & ->).
    destruct (sextet_char_spec _ (sextet3_below _ _ Hb Hc)) as (_ & _ & ->).
    destruct (sextet_char_spec _ (sextet4_below _ Hc)) as (_ & _ & ->).
    now rewrite IH.
Qed.

End Base64Facts.

Module DataUrlFacts.
Import Js Rt Normalizer.

Lemma append_assoc (a b c : string) : (a ++ b) ++ c = a ++ (b ++ c).
Proof. induction a as [ | ch a IH]; simpl; [ reflexivity | now rewrite IH ]. Qed.

Lemma has_char_append (c : ascii) (a b : string) :
  has_char c (a ++ b) = has_char c a || has_char c b.
Proof.
  induction a as [ | ch a IH]; simpl; [ reflexivity | ].
  now rewrite IH, orb_assoc.
Qed.

(** Without a comma there is a single piece. *)
Lemma split_comma_none (s : string) :
  has_char "," s = false -> split_comma s = [s].
Proof.
  induction s as [ | c s IH]; simpl; [ reflexivity | ].
  intro H. apply orb_false_elim in H. destruct H as [Hc Hs].
  now rewrite Hc, (IH Hs).
Qed.

(** The first comma ends the first piece. *)
Lemma split_comma_first (h p : string) :
  has_char "," h = false ->
  split_comma (h ++ String "," p) = h :: split_comma p.
Proof.
  induction h as [ | c h IH]; simpl; [ reflexivity | ].
  intro H. apply orb_false_elim in H. destruct H as [Hc Hh].
  now rewrite Hc, (IH Hh).
Qed.

(** A string without a comma has no second piece. *)
Lemma no_second_piece (s : string) :
  has_char "," s = false -> nth_error (split_comma s) 1 = None.
Proof. intro H. now rewrite split_comma_none. Qed.

Lemma until_semicolon_stop (m rest : string) :
  has_char ";" m = false -> until_semicolon (m ++ String ";" rest) = m.
Proof.
  induction m as [ | c m IH]; simpl; [ reflexivity | ].
  intro H. apply orb_false_elim in H. destruct H as [Hc Hm].
  now rewrite Hc, (IH Hm).
Qed.

Lemma substring_whole (s : string) : substring 0 (String.length s) s = s.
Proof. induction s as [ | c s IH]; simpl; [ reflexivity | now rewrite IH ]. Qed.

(** The search for [data:<mime>], unrolled once. *)
Lemma match_data_mime_unroll (s : string) :
  match_data_mime s =
  match (if String.prefix "data:" s
         then match until_semicolon (substring 5 (String.length s - 5) s) with
              | EmptyString => None
              | m => Some m
              end
         else None) with
  | Some m => Some m
  | None => match s with
            | EmptyString => None
            | String _ rest => match_data_mime rest
            end
  end.
Proof. destruct s; reflexivity. Qed.

Lemma prefix_data (rest : string) : String.prefix "data:" ("data:" ++ rest) = true.
Proof. apply String.prefix_correct. simpl. now destruct rest. Qed.

Lemma substring_after_data (rest : string) :
  substring 5 (String.length ("data:" ++ rest) - 5) ("data:" ++ rest) = rest.
Proof.
  cbn [append String.length]. rewrite !Nat.sub_succ, Nat.sub_0_r.
  cbn [substring]. apply substring_whole.
Qed.

(** The header written by the template gives its mime type back when
    that is not empty and has no semicolon. *)
Lemma match_data_mime_header (m : string) :
  m <> EmptyString ->
  has_char ";" m = false ->
  match_data_mime ("data:" ++ m ++ ";base64") = Some m.
Proof.
  intros Hne Hsemi.
  rewrite match_data_mime_unroll, prefix_data, substring_after_data.
  change (m ++ ";base64") with (m ++ String ";" "base64").
  rewrite until_semicolon_stop by assumption.
  destruct m; [ congruence | reflexivity ].
Qed.

(** The template's output splits into the header and the payload. *)
Lemma split_data_url (m payload : string) :
  has_char "," m = false ->
  has_char "," payload = false ->
  split_comma (Index.data_url m payload) = ["data:" ++ m ++ ";base64"; payload].
Proof.
  intros Hm Hp. unfold Index.data_url.
  replace ("data:" ++ m ++ ";base64," ++ payload)
    with (("data:" ++ m ++ ";base64") ++ String "," payload).
  - rewrite split_comma_first, split_comma_none by
      (rewrite ?has_char_append; cbn; rewrite ?Hm; auto).
    reflexivity.
  - rewrite !append_assoc. reflexivity.
Qed.

(** Round trip through the data-URL branch of [editImage]. *)
Lemma decode_encode_data_url (content : Base64.bytes) (m : string) :
  m <> EmptyString ->
  has_char ";" m = false ->
  has_char "," m = false ->
  Index.decode_data_url (encodeAsDataUrl (content, m)) = inr (content, m).
Proof.
  intros Hne Hsemi Hcomma.
  unfold Index.decode_data_url, encodeAsDataUrl. cbn [fst snd].
  rewrite split_data_url by (auto using Base64Facts.encode_no_comma).
  cbn [nth nth_error].
  rewrite match_data_mime_header by assumption.
  now rewrite Base64Facts.decode_encode.
Qed.

Lemma encoded_starts_with_data (bin : NormalizedBinary) :
  startsWith "data:" (encodeAsDataUrl bin) = true.
Proof.
  unfold startsWith, encodeAsDataUrl, Index.data_url. apply prefix_data.
Qed.

(** What the search captures is cut out of the string searched, is not
    empty and has no semicolon. *)
Lemma has_char_until_semicolon (c : ascii) (s : string) :
  has_char c (until_semicolon s) = true -> has_char c s = true.
Proof.
  induction s as [ | ch s IH]; simpl; [ discriminate | ].
  destruct (ch =? ";")%char; simpl; [ discriminate | ].
  intro H. apply orb_true_iff in H. apply orb_true_iff.
  destruct H as [H | H]; [ now left | right; now apply IH ].
Qed.

Lemma until_semicolon_has_none (s : string) : has_char ";" (until_semicolon s) = false.
Proof.
  induction s as [ | ch s IH]; simpl; [ reflexivity | ].
  destruct (ch =? ";")%char eqn:E; simpl; [ reflexivity | now rewrite E ].
Qed.

Lemma has_char_substring (c : ascii) (s : string) :
  forall n m, has_char c (substring n m s) = true -> has_char c s = true.
Proof.
  induction s as [ | ch s IH]; intros n m; destruct n, m; simpl; try discriminate.
  - intro H. apply orb_true_iff in H. apply orb_true_iff.
    destruct H as [H | H]; [ now left | right; now apply (IH 0 m) ].
  - intro H. apply orb_true_iff. right. now apply (IH n 0).
  - intro H. apply orb_true_iff. right. now apply (IH n (S m)).
Qed.

Lemma match_data_mime_capture (s m : string) :
  match_data_mime s = Some m ->
  m <> EmptyString /\ has_char ";" m = false /\
  (forall c, has_char c m = true -> has_char c s = true).
Proof.
  induction s as [ | ch s IH]; rewrite match_data_mime_unroll.
  - simpl. discriminate.
  - destruct (String.prefix "data:" (String ch s)).
    + destruct (until_semicolon _) as [ | a u] eqn:E.
      * intro H. destruct (IH H) as (Hne & Hsemi & Hsub).
        repeat split; auto. intros c Hc. simpl. apply orb_true_iff. right. now apply Hsub.
      * intro H. injection H as <-. rewrite <- E. repeat split.
        -- rewrite E. discriminate.
        -- apply until_semicolon_has_none.
        -- intros c Hc. apply has_char_until_semicolon in Hc.
           now apply has_char_substring in Hc.
    + intro H. destruct (IH H) as (Hne & Hsemi & Hsub).
      repeat split; auto. intros c Hc. simpl. apply orb_true_iff. right. now apply Hsub.
Qed.

(** The first piece of a split has no comma. *)
Lemma first_piece_no_comma (s : string) :
  has_char "," (nth 0 (split_comma s) EmptyString) = false.
Proof.
  induction s as [ | ch s IH]; simpl; [ reflexivity | ].
  destruct (ch =? ",")%char eqn:E; simpl; [ reflexivity | ].
  destruct (split_comma s) as [ | h t]; simpl in *; now rewrite E.
Qed.

(** The mime type the data-URL branch settles on is never empty and has
    neither a semicolon nor a comma. *)
Lemma decoded_mime_is_plain (s : string) (content : Base64.bytes) (m : string) :
  Index.decode_data_url s = inr (content, m) ->
  m <> EmptyString /\ has_char ";" m = false /\ has_char "," m = false.
Proof.
  unfold Index.decode_data_url.
  destruct (nth_error (split_comma s) 1); [ | discriminate ].
  intro H. injection H as _ Hm.
  destruct (match_data_mime (nth 0 (split_comma s) EmptyString)) as [x | ] eqn:E.
  - subst x. destruct (match_data_mime_capture _ _ E) as (Hne & Hsemi & Hsub).
    repeat split; auto.
    destruct (has_char "," m) eqn:Hc; [ | reflexivity ].
    apply Hsub in Hc. now rewrite first_piece_no_comma in Hc.
  - subst m. split; [ discriminate | split; reflexivity ].
Qed.

End DataUrlFacts.

Section NormalizerClaims.
Import Js Rt Normalizer DataUrlFacts.
Variable ihost : Index.Host.

(** C5, as amended.  For every byte sequence and every mime type that is
    not empty and contains neither a semicolon nor a comma: the data-URL
    [data:<mimeType>;base64,<base64 of the bytes>] starts with [data:], and
    decoding it in the data-URL branch gives back the bytes and the mime
    type ([index.ts]: the decoded buffer and the file's type;
    [standalone.ts]: the base64 text and the mime type). *)
Theorem data_url_round_trip_for_plain_mime_types :
  forall (content : Base64.bytes) (mimeType : string),
    mimeType <> EmptyString ->
    has_char ";" mimeType = false ->
    has_char "," mimeType = false ->
    startsWith "data:" (encodeAsDataUrl (content, mimeType)) = true /\
    Index.decode_data_url (encodeAsDataUrl (content, mimeType)) = inr (content, mimeType) /\
    Index.image_file (VStr (encodeAsDataUrl (content, mimeType)))
      = Ret (FormFile content "image.png" mimeType) /\
    Standalone.normalize_image (VStr (encodeAsDataUrl (content, mimeType)))
      = Ret (VStr (Base64.encode content), mimeType).
Proof.
  intros content mimeType Hne Hsemi Hcomma.
  pose proof (encoded_starts_with_data (content, mimeType)) as Hstart.
  pose proof (decode_encode_data_url content mimeType Hne Hsemi Hcomma) as Hround.
  split; [ exact Hstart | split; [ exact Hround | split ] ].
  - unfold Index.image_file. cbn [toString]. rewrite Hstart, Hround. reflexivity.
  - unfold Standalone.normalize_image. cbn [toString]. rewrite Hstart.
    unfold encodeAsDataUrl. cbn [fst snd].
    rewrite split_data_url by (auto using Base64Facts.encode_no_comma).
    cbn [nth nth_error]. now rewrite match_data_mime_header.
Qed.

(** X2. The round trip holds for no other mime type: when decoding the
    data-URL of a payload gives the payload back, its mime type is not
    empty and has neither a semicolon nor a comma. *)
Theorem data_url_round_trip_needs_plain_mime_type :
  forall (content : Base64.bytes) (mimeType : string),
    Index.decode_data_url (encodeAsDataUrl (content, mimeType)) = inr (content, mimeType) ->
    mimeType <> EmptyString /\
    has_char ";" mimeType = false /\
    has_char "," mimeType = false.
Proof.
  intros content mimeType H. exact (decoded_mime_is_plain _ _ _ H).
Qed.

(** C6, as amended.  A data-URL without a comma has no second piece.  In
    [index.ts] the payload handed to [Buffer.from] is then [undefined]:
    the runtime's TypeError is thrown before any request and dispatch
    renders it as an [Error: ...] text.  In [standalone.ts] nothing is
    thrown: the provider is called with the header's mime type and an
    [undefined] payload. *)
Theorem data_url_without_comma_is_not_checked :
  forall (shost : Standalone.Host) (args : value),
    let image_url := toString (getOpt args "image_url") in
    startsWith "data:" image_url = true ->
    has_char "," image_url = false ->
    Index.decode_data_url image_url = inl Index.buffer_from_undefined /\
    ~ raised_by_handler Index.buffer_from_undefined /\
    (nullish args = false ->
     Index.editImage ihost args = Throw Index.buffer_from_undefined /\
     Index.dispatch ihost "edit_image" args
       = Ret (Index.error_result Index.buffer_from_undefined)) /\
    (truthy (getOpt args "prompt") = true ->
     truthy (getOpt args "image_url") = true ->
     exists k,
       Standalone.dispatch shost "edit_image" args =
       GenerateContent Standalone.modelId
         (Standalone.user_contents
            [VObj [("text", getOpt args "prompt")];
             VObj [("inlineData",
                    VObj [("mimeType",
                           VStr match match_data_mime image_url with
                                | Some m => m
                                | None => "image/png"
                                end);
                          ("data", VUndef)])]])
         k).
Proof.
  intros shost args image_url Hdata Hcomma. subst image_url.
  assert (Hdecode : Index.decode_data_url (toString (getOpt args "image_url"))
                    = inl Index.buffer_from_undefined).
  { unfold Index.decode_data_url. now rewrite no_second_piece. }
  split; [ exact Hdecode | split; [ | split ] ].
  - intros [message E]. discriminate E.
  - intro Hargs.
    assert (Hedit : Index.editImage ihost args = Throw Index.buffer_from_undefined).
    { unfold Index.editImage, Index.destructure, Index.image_file.
      rewrite Hargs, Hdata, Hdecode. reflexivity. }
    split; [ exact Hedit | ].
    unfold Index.dispatch, Index.handle. cbn [String.eqb Ascii.eqb Bool.eqb].
    now rewrite Hedit.
  - intros Hp Hu.
    destruct (ImageFacts.truthy_property _ _ Hp) as [fields ->].
    unfold Standalone.dispatch, Standalone.handle. cbn [String.eqb Ascii.eqb Bool.eqb].
    unfold Standalone.editImage, Standalone.edit_body, Standalone.normalize_image, or_else.
    cbn [truthy]. rewrite Hp, Hu, Hdata, split_comma_none by assumption.
    cbn [negb orb bind generateContent try_catch nth nth_error fst snd].
    eexists. reflexivity.
Qed.

End NormalizerClaims.

Module SchemaFacts.
Import Js Rt.

(** The model value the handlers test, from the value supplied. *)
Lemma supplied_imagen (supplied : value) :
  supplied = VStr "imagen" ->
  is_string "imagen" (with_default (VStr "gemini") supplied) = true.
Proof. intros ->. reflexivity. Qed.

Lemma supplied_other (supplied : value) :
  supplied <> VStr "imagen" ->
  is_string "imagen" (with_default (VStr "gemini") supplied) = false.
Proof.
  intro H. destruct supplied; try reflexivity.
  cbn [with_default is_string]. apply String.eqb_neq. congruence.
Qed.

(** The enum of the hosted schema admits its two values and
    [undefined], and nothing else. *)
Lemma model_not_admitted (supplied : value) :
  supplied <> VUndef ->
  supplied <> VStr "imagen" ->
  supplied <> VStr "gemini" ->
  Smithery.parse_property (Smithery.ZEnumDefault ["imagen"; "gemini"] "gemini") supplied
  = None.
Proof.
  intros Hu Hi Hg. destruct supplied; try reflexivity; [ congruence | ].
  cbn [Smithery.parse_property existsb].
  assert (E1 : (s =? "imagen") = false) by (apply String.eqb_neq; congruence).
  assert (E2 : (s =? "gemini") = false) by (apply String.eqb_neq; congruence).
  now rewrite E1, E2.
Qed.

(** Arguments whose model is not admitted do not reach the callback. *)
Lemma tool_rejects_model (args : value) :
  getOpt args "model" <> VUndef ->
  getOpt args "model" <> VStr "imagen" ->
  getOpt args "model" <> VStr "gemini" ->
  Smithery.generate_image_tool args = None.
Proof.
  intros Hu Hi Hg.
  unfold Smithery.generate_image_tool, Smithery.parse.
  destruct args; try reflexivity.
  unfold Smithery.generate_image_schema. cbn [Smithery.parse_shape].
  rewrite (model_not_admitted _ Hu Hi Hg).
  now destruct (Smithery.parse_property Smithery.ZString _).
Qed.

(** Admitted arguments reach the callback with the defaults filled in. *)
Lemma tool_admits (args : value) (p : string) (model aspect : value) :
  getOpt args "prompt" = VStr p ->
  Smithery.parse_property (Smithery.ZEnumDefault ["imagen"; "gemini"] "gemini")
    (getOpt args "model") = Some model ->
  Smithery.parse_property (Smithery.ZEnumDefault ["16:9"; "9:16"; "1:1"] "16:9")
    (getOpt args "aspect_ratio") = Some aspect ->
  Smithery.generate_image_tool args =
  Some (Smithery.generate_image
          (VObj [("prompt", VStr p); ("model", model); ("aspect_ratio", aspect)])).
Proof.
  intros Hp Hm Ha.
  unfold Smithery.generate_image_tool, Smithery.parse.
  destruct args; try discriminate Hp.
  unfold Smithery.generate_image_schema. cbn [Smithery.parse_shape].
  rewrite Hp, Hm, Ha. reflexivity.
Qed.

End SchemaFacts.

Section RoutingClaims.
Import Js Rt Normalizer ImageFacts DataUrlFacts SchemaFacts.
Variable ihost : Index.Host.

(** C9, as amended.  [generate_image] sends exactly the supplied model
    value ["imagen"] to the imagen path and every other model value it
    receives to the gemini path.  In [index.ts] and in [standalone.ts] any
    supplied value is received: a value other than ["imagen"] (none at all,
    a string outside the enum, a value that is no string) goes to the
    gemini endpoint, respectively the gemini branch, and nothing is raised
    for it; the first thing the run does is that request, respectively the
    provider call.  In the hosted variant the registered schema admits
    ["imagen"], ["gemini"] and no value (then ["gemini"]): the callback
    routes these the same way, and arguments with any other model value are
    not admitted and never reach the callback. *)
Theorem generate_image_routes_the_supplied_model :
  forall (args : value),
    let supplied := getOpt args "model" in
    let prompt := getOpt args "prompt" in
    let request := fun endpoint =>
      mkRequest (Index.BASE_URL ihost ++ endpoint) "POST" Index.json_headers
        (JsonBody (json_object [("prompt", prompt)])) in
    let caught := fun (p : Prog ToolResult) =>
      try_catch p (fun error => Ret (Standalone.error_result error)) in
    (nullish args = false ->
     (supplied = VStr "imagen" ->
      exists k, Index.generateImage ihost args = Fetch (request "/api/imagen/generate") k) /\
     (supplied <> VStr "imagen" ->
      exists k, Index.generateImage ihost args = Fetch (request "/api/gemini/generate") k)) /\
    (truthy prompt = true ->
     (supplied = VStr "imagen" ->
      Standalone.generateImage args
        = Standalone.generate_with "✅ Image (Gemini fallback for Imagen)" prompt) /\
     (supplied <> VStr "imagen" ->
      Standalone.generateImage args = Standalone.generate_with "✅ Gemini image" prompt) /\
     (forall headline,
         exists k,
           Standalone.generate_with headline prompt =
           GenerateContent Standalone.modelId
             (Standalone.user_contents [VObj [("text", prompt)]]) k)) /\
    (forall (p : string) (aspect : value),
        prompt = VStr p ->
        p <> EmptyString ->
        Smithery.parse_property (Smithery.ZEnumDefault ["16:9"; "9:16"; "1:1"] "16:9")
          (getOpt args "aspect_ratio") = Some aspect ->
        (supplied = VStr "imagen" ->
         Smithery.generate_image_tool args
           = Some (caught (Standalone.generate_with
                             "✅ Image (Gemini fallback for Imagen)" prompt))) /\
        (supplied = VStr "gemini" \/ supplied = VUndef ->
         Smithery.generate_image_tool args
           = Some (caught (Standalone.generate_with "✅ Gemini image" prompt)))) /\
    (supplied <> VUndef -> supplied <> VStr "imagen" -> supplied <> VStr "gemini" ->
     Smithery.generate_image_tool args = None).
Proof.
  intros args supplied prompt request caught. subst supplied prompt request caught.
  split; [ | split; [ | split ] ].
  - intro Hargs.
    destruct (index_generate_starts_with_fetch ihost args Hargs) as [k Ek].
    split; intro Hm.
    + rewrite (supplied_imagen _ Hm) in Ek. now exists k.
    + rewrite (supplied_other _ Hm) in Ek. now exists k.
  - intro Hp. split; [ | split ].
    + intro Hm. rewrite (standalone_generate_route _ Hp).
      now rewrite (supplied_imagen _ Hm).
    + intro Hm. rewrite (standalone_generate_route _ Hp).
      now rewrite (supplied_other _ Hm).
    + intro headline. apply standalone_generate_with_calls.
  - intros p aspect Hprompt Hne Haspect.
    assert (Htruthy : truthy (VStr p) = true).
    { cbn [truthy]. apply String.eqb_neq in Hne. now rewrite Hne. }
    split.
    + intro Hm.
      rewrite (tool_admits args p (VStr "imagen") aspect Hprompt); try assumption.
      * unfold Smithery.generate_image, Standalone.generate_body.
        cbn [nullish bind getOpt lookup String.eqb Ascii.eqb Bool.eqb with_default].
        rewrite Htruthy, Hprompt. reflexivity.
      * now rewrite Hm.
    + intro Hm.
      rewrite (tool_admits args p (VStr "gemini") aspect Hprompt); try assumption.
      * unfold Smithery.generate_image, Standalone.generate_body.
        cbn [nullish bind getOpt lookup String.eqb Ascii.eqb Bool.eqb with_default].
        rewrite Htruthy, Hprompt. reflexivity.
      * destruct Hm as [-> | ->]; reflexivity.
  - apply tool_rejects_model.
Qed.

(** C10. [edit_image] with a source that is not a data-URL: the bytes of
    the fetched resource go upstream tagged [image/png], whatever the
    content type of the reply ([index.ts]: the uploaded file;
    [standalone.ts]: the inline data).  With a data-URL source the tag is
    the mime type read from the header piece ([image/png] only when the
    header has none): for the data-URL [data:<mimeType>;base64,<payload>]
    of a plain mime type the tag is that very mime type, and for
    [data:;base64,<payload>] it is [image/png]. *)
Theorem remote_source_image_is_tagged_png :
  forall (env : Env) (args : value),
    let image_url := toString (getOpt args "image_url") in
    let header_mime :=
      match match_data_mime (nth 0 (split_comma image_url) EmptyString) with
      | Some m => m
      | None => "image/png"
      end in
    (forall (imageResponse : Response),
        startsWith "data:" image_url = false ->
        on_fetch env 0 (mkRequest image_url "GET" [] NoBody) = Resolved imageResponse ->
        ok imageResponse = true ->
        (nullish args = false ->
         exists o t,
           run env 0 (Index.editImage ihost args) =
           (o, EvFetch (mkRequest image_url "GET" [] NoBody)
               :: EvFetch (mkRequest (Index.BASE_URL ihost ++ "/api/gemini/edit") "POST" []
                             (FormBody
                                [("prompt", FormText (toString (getOpt args "prompt")));
                                 ("imageFile",
                                  FormFile (arrayBuffer imageResponse) "image.png"
                                    "image/png")]))
               :: t)) /\
        (truthy (getOpt args "prompt") = true ->
         truthy (getOpt args "image_url") = true ->
         exists o t,
           run env 0 (Standalone.editImage args) =
           (o, EvFetch (mkRequest image_url "GET" [] NoBody)
               :: EvGenerate Standalone.modelId
                    (Standalone.user_contents
                       [VObj [("text", getOpt args "prompt")];
                        VObj [("inlineData",
                               VObj [("mimeType", VStr "image/png");
                                     ("data",
                                      VStr (Base64.encode (arrayBuffer imageResponse)))])]])
               :: t))) /\
    (forall (base64 : string),
        startsWith "data:" image_url = true ->
        nth_error (split_comma image_url) 1 = Some base64 ->
        (nullish args = false ->
         exists o t,
           run env 0 (Index.editImage ihost args) =
           (o, EvFetch (mkRequest (Index.BASE_URL ihost ++ "/api/gemini/edit") "POST" []
                          (FormBody
                             [("prompt", FormText (toString (getOpt args "prompt")));
                              ("imageFile",
                               FormFile (Base64.decode base64) "image.png" header_mime)]))
               :: t)) /\
        (truthy (getOpt args "prompt") = true ->
         truthy (getOpt args "image_url") = true ->
         exists o t,
           run env 0 (Standalone.editImage args) =
           (o, EvGenerate Standalone.modelId
                 (Standalone.user_contents
                    [VObj [("text", getOpt args "prompt")];
                     VObj [("inlineData",
                            VObj [("mimeType", VStr header_mime);
                                  ("data", VStr base64)])]])
               :: t))) /\
    (forall (mimeType payload : string),
        mimeType <> EmptyString ->
        has_char ";" mimeType = false ->
        has_char "," mimeType = false ->
        has_char "," payload = false ->
        getOpt args "image_url" = VStr ("data:" ++ mimeType ++ ";base64," ++ payload) ->
        (nullish args = false ->
         exists o t,
           run env 0 (Index.editImage ihost args) =
           (o, EvFetch (mkRequest (Index.BASE_URL ihost ++ "/api/gemini/edit") "POST" []
                          (FormBody
                             [("prompt", FormText (toString (getOpt args "prompt")));
                              ("imageFile",
                               FormFile (Base64.decode payload) "image.png" mimeType)]))
               :: t)) /\
        (truthy (getOpt args "prompt") = true ->
         exists o t,
           run env 0 (Standalone.editImage args) =
           (o, EvGenerate Standalone.modelId
                 (Standalone.user_contents
                    [VObj [("text", getOpt args "prompt")];
                     VObj [("inlineData",
                            VObj [("mimeType", VStr mimeType);
                                  ("data", VStr payload)])]])
               :: t))) /\
    (forall (payload : string),
        has_char "," payload = false ->
        getOpt args "image_url" = VStr ("data:;base64," ++ payload) ->
        nullish args = false ->
        exists o t,
          run env 0 (Index.editImage ihost args) =
          (o, EvFetch (mkRequest (Index.BASE_URL ihost ++ "/api/gemini/edit") "POST" []
                         (FormBody
                            [("prompt", FormText (toString (getOpt args "prompt")));
                             ("imageFile",
                              FormFile (Base64.decode payload) "image.png" "image/png")]))
              :: t)).
Proof.
  intros env args image_url header_mime. subst image_url header_mime.
  split; [ | split; [ | split ] ].
  - intros imageResponse Hremote Hreply Hok. split.
    + intro Hargs. now apply index_edit_remote.
    + intros Hp Hu. now apply standalone_edit_remote.
  - intros base64 Hdata Hsplit. split.
    + intro Hargs. now apply index_edit_data_url.
    + intros Hp Hu.
      destruct (standalone_edit_data_url env args Hp Hu Hdata) as (o & t & E).
      rewrite Hsplit in E. now exists o, t.
  - intros mimeType payload Hne Hsemi Hcomma Hpayload Himage.
    assert (Hsplit : split_comma (toString (getOpt args "image_url"))
                     = ["data:" ++ mimeType ++ ";base64"; payload]).
    { rewrite Himage. cbn [toString].
      apply (split_data_url mimeType payload Hcomma Hpayload). }
    assert (Hdata : startsWith "data:" (toString (getOpt args "image_url")) = true).
    { rewrite Himage. cbn [toString]. apply prefix_data. }
    assert (Hu : truthy (getOpt args "image_url") = true) by now rewrite Himage.
    split.
    + intro Hargs.
      destruct (index_edit_data_url ihost env args payload Hargs Hdata) as (o & t & E).
      { now rewrite Hsplit. }
      rewrite Hsplit in E. cbn [nth] in E.
      rewrite (match_data_mime_header mimeType Hne Hsemi) in E. now exists o, t.
    + intro Hp.
      destruct (standalone_edit_data_url env args Hp Hu Hdata) as (o & t & E).
      rewrite Hsplit in E. cbn [nth nth_error] in E.
      rewrite (match_data_mime_header mimeType Hne Hsemi) in E. now exists o, t.
  - intros payload Hpayload Himage Hargs.
    assert (Hsplit : split_comma (toString (getOpt args "image_url"))
                     = ["data:;base64"; payload]).
    { rewrite Himage. cbn [toString].
      apply (split_data_url EmptyString payload eq_refl Hpayload). }
    assert (Hdata : startsWith "data:" (toString (getOpt args "image_url")) = true).
    { rewrite Himage. cbn [toString]. apply prefix_data. }
    destruct (index_edit_data_url ihost env args payload Hargs Hdata) as (o & t & E).
    { now rewrite Hsplit. }
    rewrite Hsplit in E. cbn [nth] in E.
    assert (Hnone : match_data_mime "data:;base64" = None) by (vm_compute; reflexivity).
    rewrite Hnone in E. now exists o, t.
Qed.

End RoutingClaims.

(* ===================================================================== *)
(** * The claims at concrete inputs *)
(* ===================================================================== *)

Section Instances.
Import Js Rt Normalizer Poller Samples.

(** C5 as stated fails: a mime type with a parameter comes back without
    it. *)
Lemma round_trip_drops_mime_parameters :
  Index.decode_data_url (encodeAsDataUrl (hi, "text/plain;charset=utf-8"))
    = inr (hi, "text/plain") /\
  Index.decode_data_url (encodeAsDataUrl (hi, "text/plain;charset=utf-8"))
    <> inr (hi, "text/plain;charset=utf-8").
Proof.
  split; [ vm_compute; reflexivity | ].
  intro E. vm_compute in E. discriminate E.
Qed.

(** C6 as stated fails: on [data:image/png] the decoding in [index.ts]
    ends in the runtime's TypeError, which is none of the handlers' own
    errors, and the normalisation in [standalone.ts] ends in no error at
    all. *)
Lemma data_url_without_comma_raises_no_handler_error :
  Index.decode_data_url "data:image/png" = inl Index.buffer_from_undefined /\
  ~ (exists e, raised_by_handler e /\ Index.decode_data_url "data:image/png" = inl e) /\
  Standalone.normalize_image (VStr "data:image/png") = Ret (VUndef, "image/png").
Proof.
  split; [ vm_compute; reflexivity | split; [ | vm_compute; reflexivity ] ].
  intros (e & [message ->] & E). vm_compute in E. discriminate E.
Qed.

(** C2 at the name [frobnicate]. *)
Lemma unknown_tool_frobnicate :
  run (always (json_reply 200 VNull)) 0 (Index.dispatch index_host "frobnicate" VUndef)
    = (Returned (text_result "Error: Unknown tool: frobnicate"), []) /\
  run (always (json_reply 200 VNull)) 0
      (Standalone.dispatch standalone_host "list_media" (VObj []))
    = (Returned (text_result "Error: Unknown tool: list_media"), []).
Proof.
  split.
  - apply (unknown_tool_is_rejected_without_calls index_host standalone_host
             (always (json_reply 200 VNull)) "frobnicate" VUndef).
    reflexivity.
  - apply (unknown_tool_is_rejected_without_calls index_host standalone_host
             (always (json_reply 200 VNull)) "list_media" (VObj [])).
    reflexivity.
Defined.

(** The check of [standalone.ts] at [generate_image] without a prompt. *)
Lemma standalone_generate_image_needs_prompt :
  exists message,
    Standalone.dispatch standalone_host "generate_image" (VObj [("model", VStr "imagen")])
      = Ret (text_result ("Error: " ++ message)).
Proof.
  apply (standalone_rejects_missing_required standalone_host
           (mkTool "generate_image" ["prompt"]) "prompt"
           (VObj [("model", VStr "imagen")])).
  - left. reflexivity.
  - left. reflexivity.
  - reflexivity.
Defined.

(** C3 at [edit_image] invoked without an argument object: the
    destructuring throws, dispatch answers with the error text. *)
Lemma edit_image_without_arguments_is_caught :
  run (always (json_reply 200 VNull)) 0 (Index.dispatch index_host "edit_image" VUndef)
    = (Returned
         (text_result
            "Error: Cannot destructure property 'prompt' of 'args' as it is undefined."),
       []) /\
  run (provider no_sdk_reply) 0
      (Standalone.dispatch standalone_host "generate_image"
         (VObj [("prompt", VStr "a red fox")]))
    = (Returned (text_result "Error: provider unavailable"),
       [EvGenerate Standalone.modelId
          (Standalone.user_contents [VObj [("text", VStr "a red fox")]])]).
Proof.
  split.
  - apply (proj1 (proj2 (proj1
             (dispatch_catches_every_error index_host standalone_host
                (always (json_reply 200 VNull)) "edit_image" VUndef)))
             (ThrownError TypeErrorK
                "Cannot destructure property 'prompt' of 'args' as it is undefined.")
             []).
    reflexivity.
  - apply (proj1 (proj2 (proj2
             (dispatch_catches_every_error index_host standalone_host
                (provider no_sdk_reply) "generate_image"
                (VObj [("prompt", VStr "a red fox")]))))
             (ThrownError ErrorK "provider unavailable")
             [EvGenerate Standalone.modelId
                (Standalone.user_contents [VObj [("text", VStr "a red fox")]])]).
    reflexivity.
Defined.

(** C4 as stated fails.  Against a backend whose polls all find the job
    done with a file reference but whose downloads fail, the loop does not
    exit with the completed poll: it makes all 30 attempts and reports the
    time-out.  Against a backend that cannot be reached no attempt
    completes, yet the loop ends after one attempt, with the rejection
    thrown and no time-out reply. *)
Lemma completed_poll_with_failed_download_goes_on :
  poll_verdict
    (on_fetch download_fails 0 (Index.poll_request index_host (VStr "operations/7")))
    = Ready (VStr "files/clip-1") /\
  run download_fails 0
      (Index.poll_loop index_host (VStr "a fox") (VStr "16:9") (VStr "operations/7") 30 0)
    = (Returned (Index.video_timeout (VStr "operations/7")),
       download_trace index_host (VStr "operations/7") (VStr "files/clip-1") 30) /\
  run (always (Rejected fetch_failed)) 0
      (Index.poll_loop index_host (VStr "a fox") (VStr "16:9") (VStr "operations/7") 30 0)
    = (Raised fetch_failed,
       [EvSleep 10000; EvFetch (Index.poll_request index_host (VStr "operations/7"))]).
Proof.
  repeat split; vm_compute; reflexivity.
Qed.

(** C4, as amended, against a backend that never reports the job done,
    and against one that reports it done with a file at the thirtieth
    poll. *)
Lemma poll_loop_thirty_polls :
  run (always (json_reply 200 (VObj [("done", VBool false)]))) 0
      (Index.poll_loop index_host (VStr "a fox") (VStr "16:9") (VStr "operations/7") 30 0)
    = (Returned (Index.video_timeout (VStr "operations/7")),
       miss_trace index_host (VStr "operations/7") 30) /\
  run (done_after 29) 0
      (Index.poll_loop index_host (VStr "a fox") (VStr "16:9") (VStr "operations/7") 30 0)
    = (Returned (Index.video_success (VStr "a fox") (VStr "16:9")
                   (VStr "https://x/clip-1.mp4")),
       (miss_trace index_host (VStr "operations/7") 29
        ++ [EvSleep 10000;
            EvFetch (Index.poll_request index_host (VStr "operations/7"));
            EvFetch (Index.download_request index_host (VStr "files/clip-1"))])%list).
Proof.
  split.
  - apply (poll_loop_is_bounded_by_thirty_attempts index_host
             (VStr "a fox") (VStr "16:9") (VStr "operations/7")
             (always (json_reply 200 (VObj [("done", VBool false)])))).
    intros i Hi. reflexivity.
  - apply (proj1 (proj2 (proj2 (proj2 (proj2
             (poll_loop_is_bounded_by_thirty_attempts index_host
                (VStr "a fox") (VStr "16:9") (VStr "operations/7") (done_after 29))))))
             29 (VStr "files/clip-1") (VStr "https://x/clip-1.mp4")).
    + lia.
    + intros i Hi. unfold done_after. cbn [on_fetch].
      destruct (Nat.ltb_spec i 29) as [_ | Hge]; [ reflexivity | lia ].
    + reflexivity.
    + reflexivity.
Defined.

(** C8 at a reply that is done but names no file, and at a reply with
    status 503. *)
Lemma done_without_file_goes_on :
  poll_verdict (json_reply 200 (VObj [("done", VBool true)])) = Pending /\
  poll_verdict (json_reply 503 VNull) = Pending.
Proof.
  split.
  - apply (done_without_file_or_failed_poll_continues index_host
             (VStr "a fox") (VStr "16:9") (VStr "operations/7")
             (always (json_reply 200 (VObj [("done", VBool true)]))) 0 29 0
             (mkResponse 200 "" "application/json" (inr (VObj [("done", VBool true)])) [])).
    + reflexivity.
    + reflexivity.
    + right. split; [ reflexivity | ].
      exists (VObj [("done", VBool true)]). repeat split; reflexivity.
  - apply (done_without_file_or_failed_poll_continues index_host
             (VStr "a fox") (VStr "16:9") (VStr "operations/7")
             (always (json_reply 503 VNull)) 0 29 0
             (mkResponse 503 "" "application/json" (inr VNull) [])).
    + reflexivity.
    + reflexivity.
    + left. reflexivity.
Defined.

(** C9, as amended, at a model outside the enum and at ["imagen"]. *)
Lemma model_outside_enum_goes_to_gemini :
  (exists k,
      Index.generateImage index_host
        (VObj [("prompt", VStr "a red fox"); ("model", VStr "dall-e")]) =
      Fetch (mkRequest "http://localhost:3000/api/gemini/generate" "POST" Index.json_headers
               (JsonBody (VObj [("prompt", VStr "a red fox")])))
            k) /\
  (exists k,
      Index.generateImage index_host
        (VObj [("prompt", VStr "a red fox"); ("model", VStr "imagen")]) =
      Fetch (mkRequest "http://localhost:3000/api/imagen/generate" "POST" Index.json_headers
               (JsonBody (VObj [("prompt", VStr "a red fox")])))
            k) /\
  Standalone.generateImage
    (VObj [("prompt", VStr "a red fox"); ("model", VStr "dall-e")])
  = Standalone.generate_with "✅ Gemini image" (VStr "a red fox") /\
  Standalone.generateImage
    (VObj [("prompt", VStr "a red fox"); ("model", VStr "imagen")])
  = Standalone.generate_with "✅ Image (Gemini fallback for Imagen)" (VStr "a red fox") /\
  Smithery.generate_image_tool
    (VObj [("prompt", VStr "a red fox"); ("model", VStr "imagen")])
  = Some (try_catch
            (Standalone.generate_with "✅ Image (Gemini fallback for Imagen)"
               (VStr "a red fox"))
            (fun error => Ret (Standalone.error_result error))) /\
  Smithery.generate_image_tool (VObj [("prompt", VStr "a red fox"); ("model", VNum 4)])
  = None.
Proof.
  split; [ | split; [ | split; [ | split; [ | split ] ] ] ].
  - apply (proj2 (proj1 (generate_image_routes_the_supplied_model index_host
                           (VObj [("prompt", VStr "a red fox"); ("model", VStr "dall-e")]))
                    eq_refl)).
    vm_compute. discriminate.
  - apply (proj1 (proj1 (generate_image_routes_the_supplied_model index_host
                           (VObj [("prompt", VStr "a red fox"); ("model", VStr "imagen")]))
                    eq_refl)).
    reflexivity.
  - apply (proj1 (proj2 (proj1 (proj2 (generate_image_routes_the_supplied_model index_host
                           (VObj [("prompt", VStr "a red fox"); ("model", VStr "dall-e")])))
                    eq_refl))).
    vm_compute. discriminate.
  - apply (proj1 (proj1 (proj2 (generate_image_routes_the_supplied_model index_host
                           (VObj [("prompt", VStr "a red fox"); ("model", VStr "imagen")])))
                    eq_refl)).
    reflexivity.
  - apply (proj1 (proj1 (proj2 (proj2 (generate_image_routes_the_supplied_model index_host
                           (VObj [("prompt", VStr "a red fox"); ("model", VStr "imagen")]))))
                    "a red fox" (VStr "16:9") eq_refl ltac:(discriminate) eq_refl)).
    reflexivity.
  - apply (proj2 (proj2 (proj2 (generate_image_routes_the_supplied_model index_host
                           (VObj [("prompt", VStr "a red fox"); ("model", VNum 4)]))))).
    + vm_compute. discriminate.
    + vm_compute. discriminate.
    + vm_compute. discriminate.
Defined.

(** The hosted variant does not admit a model outside the enum: the
    arguments are turned away before the callback, where the same
    arguments with an admitted model go through. *)
Lemma hosted_schema_rejects_model_outside_enum :
  Smithery.generate_image_tool
    (VObj [("prompt", VStr "a red fox"); ("model", VStr "dall-e")]) = None /\
  Smithery.generate_image_tool
    (VObj [("prompt", VStr "a red fox"); ("model", VStr "gemini")])
  = Some (try_catch
            (Standalone.generate_with "✅ Gemini image" (VStr "a red fox"))
            (fun error => Ret (Standalone.error_result error))).
Proof. split; reflexivity. Qed.

(** C10 at a remote JPEG and at a WebP data-URL. *)
Lemma remote_jpeg_is_uploaded_as_png :
  (exists o t,
      run (always (binary_reply "image/jpeg" hi)) 0
          (Index.editImage index_host
             (VObj [("prompt", VStr "make it blue"); ("image_url", VStr "https://x/cat.jpg")]))
      = (o, EvFetch (mkRequest "https://x/cat.jpg" "GET" [] NoBody)
            :: EvFetch (mkRequest "http://localhost:3000/api/gemini/edit" "POST" []
                          (FormBody
                             [("prompt", FormText "make it blue");
                              ("imageFile", FormFile hi "image.png" "image/png")]))
            :: t)) /\
  (exists o t,
      run (always (binary_reply "image/jpeg" hi)) 0
          (Index.editImage index_host
             (VObj [("prompt", VStr "make it blue");
                    ("image_url", VStr "data:image/webp;base64,aGk=")]))
      = (o, EvFetch (mkRequest "http://localhost:3000/api/gemini/edit" "POST" []
                       (FormBody
                          [("prompt", FormText "make it blue");
                           ("imageFile", FormFile hi "image.png" "image/webp")]))
            :: t)) /\
  (exists o t,
      run (always (binary_reply "image/jpeg" hi)) 0
          (Standalone.editImage
             (VObj [("prompt", VStr "make it blue");
                    ("image_url", VStr "data:image/webp;base64,aGk=")]))
      = (o, EvGenerate Standalone.modelId
              (Standalone.user_contents
                 [VObj [("text", VStr "make it blue")];
                  VObj [("inlineData",
                         VObj [("mimeType", VStr "image/webp");
                               ("data", VStr "aGk=")])]])
            :: t)).
Proof.
  split; [ | split ].
  - apply (proj1 (proj1 (remote_source_image_is_tagged_png index_host
                    (always (binary_reply "image/jpeg" hi))
                    (VObj [("prompt", VStr "make it blue");
                           ("image_url", VStr "https://x/cat.jpg")]))
                    (mkResponse 200 "OK" "image/jpeg"
                       (inl (ThrownError SyntaxErrorK "Unexpected token in JSON")) hi)
                    ltac:(vm_compute; reflexivity) eq_refl eq_refl)).
    reflexivity.
  - apply (proj1 (proj1 (proj2 (proj2 (remote_source_image_is_tagged_png index_host
                    (always (binary_reply "image/jpeg" hi))
                    (VObj [("prompt", VStr "make it blue");
                           ("image_url", VStr "data:image/webp;base64,aGk=")]))))
                    "image/webp" "aGk=" ltac:(discriminate) eq_refl eq_refl eq_refl eq_refl)).
    reflexivity.
  - apply (proj2 (proj1 (proj2 (proj2 (remote_source_image_is_tagged_png index_host
                    (always (binary_reply "image/jpeg" hi))
                    (VObj [("prompt", VStr "make it blue");
                           ("image_url", VStr "data:image/webp;base64,aGk=")]))))
                    "image/webp" "aGk=" ltac:(discriminate) eq_refl eq_refl eq_refl eq_refl)).
    reflexivity.
Defined.

(** C5, as amended, at a PNG. *)
Lemma png_data_url_round_trip :
  Index.decode_data_url (encodeAsDataUrl (hi, "image/png")) = inr (hi, "image/png").
Proof.
  apply (data_url_round_trip_for_plain_mime_types hi "image/png").
  - discriminate.
  - reflexivity.
  - reflexivity.
Defined.

(** The converse at a PNG. *)
Lemma png_mime_type_is_plain :
  has_char ";" "image/png" = false /\ has_char "," "image/png" = false.
Proof.
  apply (data_url_round_trip_needs_plain_mime_type hi "image/png").
  vm_compute. reflexivity.
Defined.

(** C6, as amended, at [data:image/png]. *)
Lemma data_url_without_comma_in_index :
  Index.dispatch index_host "edit_image"
    (VObj [("prompt", VStr "make it blue"); ("image_url", VStr "data:image/png")])
  = Ret (text_result
           ("Error: The first argument must be of type string or an instance of Buffer, "
            ++ "ArrayBuffer, or Array or an Array-like Object. Received undefined")).
Proof.
  apply (proj2 (proj2 (data_url_without_comma_is_not_checked index_host standalone_host
                  (VObj [("prompt", VStr "make it blue");
                         ("image_url", VStr "data:image/png")])
                  ltac:(vm_compute; reflexivity) ltac:(vm_compute; reflexivity)))).
  reflexivity.
Defined.

End Instances.

(* ===================================================================== *)
(** * Further properties of src/index.ts *)
(* ===================================================================== *)

Module IndexFacts.
Import Js Rt RtFacts Measure.

(** A value with a property that is not [undefined] is an object. *)
Lemma defined_property (v : value) (k : string) :
  getOpt v k <> VUndef -> exists fields, v = VObj fields.
Proof.
  destruct v; simpl; try congruence. intros _. now eexists.
Qed.

Lemma get_present (v : value) (k : string) :
  nullish v = false -> get v k = inr (getOpt v k).
Proof. intro H. unfold get. now rewrite H. Qed.

(** A registered name of [index.ts] is one of its five tools. *)
Lemma index_registered (name : string) :
  registered Index.tools name = true ->
  name = "generate_image" \/ name = "edit_image" \/ name = "generate_video" \/
  name = "get_cultural_insights" \/ name = "list_media".
Proof.
  cbv beta iota delta [registered Index.tools existsb Rt.name].
  intro H.
  repeat match goal with
         | H0 : (_ || _)%bool = true |- _ =>
             apply orb_true_iff in H0; destruct H0 as [H0 | H0]
         | H0 : (_ =? _) = true |- _ => apply String.eqb_eq in H0; subst
         end; try discriminate; auto 6.
Qed.

End IndexFacts.

Section IndexBackend.
Import Js Rt RtFacts Measure IndexFacts.
Variable host : Index.Host.
Variable env : Env.

(** X3. In [index.ts], when the backend answers the first request of
    [generate_image], [generate_video], [get_cultural_insights] or
    [list_media] with a status outside 200-299, dispatch reports the status
    in an [Error: ...] text and the run makes no further call. *)
Theorem index_backend_failure_is_reported :
  forall (args : value) (response : Response),
    nullish args = false ->
    (forall req, on_fetch env 0 req = Resolved response) ->
    ok response = false ->
    (exists req,
        run env 0 (Index.dispatch host "generate_image" args) =
        (Returned (text_result ("Error: API error: " ++ string_of_Z (status response)
                                ++ " " ++ statusText response)),
         [EvFetch req])) /\
    (exists req,
        run env 0 (Index.dispatch host "generate_video" args) =
        (Returned (text_result ("Error: Generate API error: "
                                ++ string_of_Z (status response))),
         [EvFetch req]) /\
        url req = Index.BASE_URL host ++ "/api/veo/generate") /\
    (exists req,
        run env 0 (Index.dispatch host "get_cultural_insights" args) =
        (Returned (text_result ("Error: Cultural API error: "
                                ++ string_of_Z (status response))),
         [EvFetch req]) /\
        url req = Index.BASE_URL host ++ "/api/cultural/intelligence") /\
    (exists req,
        run env 0 (Index.dispatch host "list_media" args) =
        (Returned (text_result ("Error: Media API error: "
                                ++ string_of_Z (status response))),
         [EvFetch req])).
Proof.
  intros args response Hargs Hreply Hok.
  unfold Index.dispatch, Index.handle. cbn [String.eqb Ascii.eqb Bool.eqb].
  rewrite !run_try_catch.
  unfold Index.generateImage, Index.generateVideo, Index.getCulturalInsights,
    Index.listMedia, Index.destructure.
  rewrite Hargs. cbn [bind fetch run]. rewrite !Hreply. cbn [bind].
  rewrite Hok. cbn [negb throw_Error run]. unfold Index.error_result.
  cbn [Index.error_message].
  repeat split; eexists; try split; reflexivity.
Qed.

(** X4. [generate_image] in [index.ts], on a successful reply without an
    error field: a hosted URL in the reply takes precedence and is handed
    back as it is; only when there is none is a data-URL put together from
    the reply's mime type and image bytes.  The text names the model and
    echoes the prompt. *)
Theorem index_generate_image_prefers_hosted_url :
  forall (args : value) (response : Response) (data : value),
    nullish args = false ->
    (forall req, on_fetch env 0 req = Resolved response) ->
    ok response = true ->
    json response = inr data ->
    nullish data = false ->
    truthy (getOpt data "error") = false ->
    let image := getOpt data "image" in
    exists req,
      run env 0 (Index.dispatch host "generate_image" args) =
      (Returned
         (text_result
            ("✅ Image generated successfully using "
             ++ toString (with_default (VStr "gemini") (getOpt args "model")) ++ Index.nl2
             ++ "Prompt: " ++ toString (getOpt args "prompt") ++ Index.nl2
             ++ "Image URL: "
             ++ (if truthy (getOpt image "url")
                 then toString (getOpt image "url")
                 else "data:" ++ toString (getOpt image "mimeType") ++ ";base64,"
                      ++ toString (getOpt image "imageBytes")))),
       [EvFetch req]).
Proof.
  intros args response data Hargs Hreply Hok Hjson Hdata Herr image.
  subst image.
  unfold Index.dispatch, Index.handle. cbn [String.eqb Ascii.eqb Bool.eqb].
  rewrite run_try_catch.
  unfold Index.generateImage, Index.destructure.
  rewrite Hargs. cbn [bind fetch run]. rewrite Hreply. cbn [bind].
  rewrite Hok, Hjson. cbn [negb lift bind].
  rewrite (get_present _ _ Hdata). cbn [lift bind]. rewrite Herr.
  unfold Index.image_url_of, or_else, Index.data_url.
  destruct (truthy (getOpt (getOpt data "image") "url")); cbn [run toString];
    eexists; reflexivity.
Qed.

(** X5. In [index.ts], a successful reply that carries an error field is
    not a success: [generate_image] (and [edit_image] with a remote source
    image) answers [Error: <the error>], after the one request
    ([edit_image]: after the image fetch and the upload). *)
Theorem index_upstream_error_field_is_reported :
  forall (args : value) (response : Response) (data : value),
    nullish args = false ->
    (forall n req, on_fetch env n req = Resolved response) ->
    ok response = true ->
    json response = inr data ->
    truthy (getOpt data "error") = true ->
    (exists req,
        run env 0 (Index.dispatch host "generate_image" args) =
        (Returned (text_result ("Error: " ++ toString (getOpt data "error"))),
         [EvFetch req])) /\
    (startsWith "data:" (toString (getOpt args "image_url")) = false ->
     exists upload,
       run env 0 (Index.dispatch host "edit_image" args) =
       (Returned (text_result ("Error: " ++ toString (getOpt data "error"))),
        [EvFetch (mkRequest (toString (getOpt args "image_url")) "GET" [] NoBody);
         EvFetch upload])).
Proof.
  intros args response data Hargs Hreply Hok Hjson Herr.
  destruct (ImageFacts.truthy_property _ _ Herr) as [fields ->].
  unfold Index.dispatch, Index.handle. cbn [String.eqb Ascii.eqb Bool.eqb].
  rewrite !run_try_catch. split.
  - unfold Index.generateImage, Index.destructure.
    rewrite Hargs. cbn [bind fetch run]. rewrite Hreply. cbn [bind].
    rewrite Hok, Hjson. cbn [negb lift bind get nullish]. rewrite Herr.
    cbn [run new_Error]. eexists. reflexivity.
  - intro Hremote.
    unfold Index.editImage, Index.destructure, Index.image_file.
    rewrite Hargs, Hremote. cbn [bind fetch run]. rewrite !Hreply. cbn [bind].
    rewrite Hok. cbn [negb bind run]. rewrite Hreply. cbn [bind].
    rewrite Hok, Hjson. cbn [negb lift bind get nullish]. rewrite Herr.
    cbn [run new_Error]. eexists. reflexivity.
Qed.

(** X6. In [index.ts], an invocation of a registered tool that carries no
    arguments object ([undefined] or [null]) never reaches the backend: the
    destructuring throws and dispatch answers with an [Error: ...] text
    without any call. *)
Theorem index_invocation_without_arguments_makes_no_call :
  forall (name : string) (args : value),
    registered Index.tools name = true ->
    nullish args = true ->
    exists message,
      Index.dispatch host name args = Ret (text_result ("Error: " ++ message)).
Proof.
  intros name args Hname Hargs.
  unfold Index.dispatch, Index.handle.
  destruct (index_registered name Hname) as [-> | [-> | [-> | [-> | ->]]]];
    cbn [String.eqb Ascii.eqb Bool.eqb];
    unfold Index.generateImage, Index.editImage, Index.generateVideo,
      Index.getCulturalInsights, Index.listMedia, Index.destructure;
    rewrite Hargs; cbn [bind try_catch]; eexists; reflexivity.
Qed.

(** X8. [generate_video] in [index.ts]: when the start reply is a success
    but names no operation, the invocation ends with the error [No
    operation name returned from video generation]; the run is the start
    request alone, without any wait or poll. *)
Theorem video_without_operation_name_is_not_polled :
  forall (args : value) (response : Response) (data : value),
    nullish args = false ->
    (forall req, on_fetch env 0 req = Resolved response) ->
    ok response = true ->
    json response = inr data ->
    nullish data = false ->
    truthy (getOpt data "name") = false ->
    exists req,
      run env 0 (Index.dispatch host "generate_video" args) =
      (Returned (text_result "Error: No operation name returned from video generation"),
       [EvFetch req]) /\
      url req = Index.BASE_URL host ++ "/api/veo/generate".
Proof.
  intros args response data Hargs Hreply Hok Hjson Hdata Hname.
  unfold Index.dispatch, Index.handle. cbn [String.eqb Ascii.eqb Bool.eqb].
  rewrite run_try_catch.
  unfold Index.generateVideo, Index.destructure.
  rewrite Hargs. cbn [bind fetch run]. rewrite Hreply. cbn [bind].
  rewrite Hok, Hjson. cbn [negb lift bind].
  rewrite (get_present _ _ Hdata). cbn [lift bind]. rewrite Hname.
  cbn [negb throw_Error run]. eexists. split; reflexivity.
Qed.

End IndexBackend.

(* ===================================================================== *)
(** * Further properties of generateVideo *)
(* ===================================================================== *)

Module VideoFacts.
Import Js Rt RtFacts Measure Poller PollerFacts.

(** Catching leaves the trace as it was. *)
Lemma run_try_catch_trace {A : Type} (env : Env) (p : Prog A) (h : Thrown -> A) (n : nat) :
  snd (run env n (try_catch p (fun e => Ret (h e)))) = snd (run env n p).
Proof.
  rewrite run_try_catch. now destruct (run env n p) as [[a | e | ] t].
Qed.

(** What [k] attempts cost: [k] waits of the fixed delay and at most two
    requests each. *)
Lemma attempt_trace_cost (host : Index.Host) (operationName : value) :
  forall k t,
    attempt_trace host operationName k t ->
    total_wait t = (Z.of_nat k * Index.pollDelay)%Z /\
    waits t = repeat Index.pollDelay k /\
    external_calls t <= 2 * k.
Proof.
  induction 1 as [ | k t _ (Hw & Hs & Hc) | k u t _ (Hw & Hs & Hc)].
  - split; [ reflexivity | split; [ reflexivity | unfold external_calls; simpl; lia ] ].
  - cbn [total_wait waits repeat]. rewrite Hw, Hs.
    unfold external_calls in *. cbn [filter is_external List.length].
    unfold Index.pollDelay.
    split; [ lia | split; [ reflexivity | lia ] ].
  - cbn [total_wait waits repeat]. rewrite Hw, Hs.
    unfold external_calls in *. cbn [filter is_external List.length].
    unfold Index.pollDelay.
    split; [ lia | split; [ reflexivity | lia ] ].
Qed.

(** A run of [generateVideo] is nothing, or the start request followed by
    at most 30 paced attempts. *)
Lemma video_trace_shape (host : Index.Host) (env : Env) (args : value) :
  snd (run env 0 (Index.generateVideo host args)) = [] \/
  exists req operationName k t,
    snd (run env 0 (Index.generateVideo host args)) = EvFetch req :: t /\
    attempt_trace host operationName k t /\ k <= 30.
Proof.
  unfold Index.generateVideo, Index.destructure.
  destruct (nullish args); cbn [bind fetch run snd]; [ now left | right ].
  match goal with
  | |- context [on_fetch env 0 ?r] => set (req := r)
  end.
  destruct (on_fetch env 0 req) as [e | response]; cbn [bind run snd].
  { exists req, VUndef, 0, []. repeat split; [ constructor | lia ]. }
  destruct (ok response); cbn [negb bind throw_Error run snd].
  2:{ exists req, VUndef, 0, []. repeat split; [ constructor | lia ]. }
  destruct (json response) as [e | data]; cbn [lift bind run snd].
  { exists req, VUndef, 0, []. repeat split; [ constructor | lia ]. }
  destruct (get data "name") as [e | operationName]; cbn [lift bind run snd].
  { exists req, VUndef, 0, []. repeat split; [ constructor | lia ]. }
  destruct (truthy operationName); cbn [negb throw_Error run snd].
  2:{ exists req, VUndef, 0, []. repeat split; [ constructor | lia ]. }
  destruct (run_loop_shape host env (getOpt args "prompt")
              (with_default (VStr "16:9") (getOpt args "aspect_ratio")) operationName
              (Z.to_nat Index.maxAttempts) 0 1) as [(k & Hk & Hle) _].
  { lia. }
  { unfold Index.maxAttempts. lia. }
  match goal with
  | |- context [run env 1 ?p] => destruct (run env 1 p) as [o t]
  end.
  cbn [snd] in *. exists req, operationName, k, t.
  repeat split; [ exact Hk | unfold Index.maxAttempts in Hle; lia ].
Qed.

End VideoFacts.

Section VideoProperties.
Import Js Rt RtFacts Measure Normalizer VideoFacts.
Variable host : Index.Host.

(** X7. Whatever the arguments and whatever the backend answers, an
    invocation of [generate_video] in [index.ts] waits at most 30 times,
    10000 ms each time (300000 ms in all), and makes at most 61 requests:
    the start request, 30 polls and 30 downloads. *)
Theorem generate_video_waits_at_most_five_minutes :
  forall (env : Env) (args : value),
    let trace := snd (run env 0 (Index.dispatch host "generate_video" args)) in
    (0 <= total_wait trace <= 300000)%Z /\
    (exists k, waits trace = repeat 10000%Z k /\ k <= 30) /\
    external_calls trace <= 61.
Proof.
  intros env args trace. subst trace.
  unfold Index.dispatch, Index.handle. cbn [String.eqb Ascii.eqb Bool.eqb].
  rewrite run_try_catch_trace.
  destruct (video_trace_shape host env args) as [-> | (req & op & k & t & -> & Hk & Hle)].
  - cbn. repeat split; try lia. exists 0. split; [ reflexivity | lia ].
  - destruct (attempt_trace_cost host op k t Hk) as (Hw & Hs & Hc).
    cbn [total_wait waits]. rewrite Hw, Hs.
    unfold external_calls in *. cbn [filter is_external List.length].
    unfold Index.pollDelay. repeat split; try lia.
    exists k. split; [ reflexivity | lia ].
Qed.

(** X9. The start request of [generate_video] in [index.ts].  With an
    arguments object the first thing a run does is the request to
    [/api/veo/generate], carrying the prompt, the fixed model, the aspect
    ratio ([16:9] when none is given) and the start image.  The image is
    never fetched: a remote URL is passed on as [imageUrl]; the data-URL of
    a payload with a plain mime type is taken apart into its base64 text
    and its mime type; a data-URL without a comma sends the text
    [undefined] as [imageBase64]. *)
Theorem video_start_image_is_passed_on_not_fetched :
  (forall (args : value),
      nullish args = false ->
      exists k,
        Index.generateVideo host args =
        Fetch (mkRequest (Index.BASE_URL host ++ "/api/veo/generate") "POST" []
                 (FormBody
                    ([("prompt", FormText (toString (getOpt args "prompt")));
                      ("model", FormText "veo-3.0-generate-001");
                      ("aspectRatio",
                       FormText (toString (with_default (VStr "16:9")
                                             (getOpt args "aspect_ratio"))))]
                     ++ Index.start_image_entries (getOpt args "image_url"))%list))
              k) /\
  (forall (s : string),
      s <> EmptyString ->
      startsWith "data:" s = false ->
      Index.start_image_entries (VStr s) = [("imageUrl", FormText s)]) /\
  (forall (content : Base64.bytes) (mimeType : string),
      mimeType <> EmptyString ->
      has_char ";" mimeType = false ->
      has_char "," mimeType = false ->
      Index.start_image_entries (VStr (encodeAsDataUrl (content, mimeType)))
      = [("imageBase64", FormText (Base64.encode content));
         ("imageMimeType", FormText mimeType)]) /\
  (forall (s : string),
      startsWith "data:" s = true ->
      has_char "," s = false ->
      Index.start_image_entries (VStr s)
      = [("imageBase64", FormText "undefined");
         ("imageMimeType",
          FormText match match_data_mime s with
                   | Some m => m
                   | None => "image/png"
                   end)]).
Proof.
  split; [ | split; [ | split ] ].
  - intros args Hargs. unfold Index.generateVideo, Index.destructure.
    rewrite Hargs. cbn [bind fetch]. eexists. reflexivity.
  - intros s Hne Hremote. unfold Index.start_image_entries.
    cbn [truthy toString]. apply String.eqb_neq in Hne. rewrite Hne, Hremote.
    reflexivity.
  - intros content mimeType Hne Hsemi Hcomma.
    unfold Index.start_image_entries. cbn [toString].
    rewrite (DataUrlFacts.encoded_starts_with_data (content, mimeType)).
    assert (Ht : truthy (VStr (encodeAsDataUrl (content, mimeType))) = true)
      by reflexivity.
    rewrite Ht. unfold encodeAsDataUrl. cbn [fst snd].
    rewrite DataUrlFacts.split_data_url
      by (auto using Base64Facts.encode_no_comma).
    cbn [nth nth_error toString].
    now rewrite DataUrlFacts.match_data_mime_header.
  - intros s Hdata Hcomma. unfold Index.start_image_entries. cbn [toString].
    assert (Ht : truthy (VStr s) = true).
    { destruct s; [ discriminate Hdata | reflexivity ]. }
    rewrite Ht, Hdata, DataUrlFacts.split_comma_none by assumption.
    reflexivity.
Qed.

End VideoProperties.

(* ===================================================================== *)
(** * Further properties of listMedia and getCulturalInsights *)
(* ===================================================================== *)

Module GalleryFacts.
Import Js Rt RtFacts Measure IndexFacts.

Section Lines.
Variable host : Index.Host.

(** Items that are all present each give a line, numbered from
    [index + 1] on. *)
Lemma media_lines_present :
  forall (items : list value) (index : Z),
    all_present items = true ->
    exists lines,
      Index.media_lines host index items = inr lines /\
      List.length lines = List.length items /\
      forall j, j < List.length items ->
        exists rest,
          nth j lines EmptyString
          = string_of_Z (index + Z.of_nat j + 1) ++ ". " ++ rest.
Proof.
  induction items as [ | item items IH]; intros index Hall.
  - exists []. repeat split. intros j Hj. simpl in Hj. lia.
  - cbn [all_present forallb] in Hall. apply andb_true_iff in Hall.
    destruct Hall as [Hitem Hrest]. apply negb_true_iff in Hitem.
    destruct (IH (index + 1)%Z Hrest) as (lines & E & Hlen & Hnum).
    cbn [Index.media_lines]. rewrite (get_present _ _ Hitem), E.
    eexists. split; [ reflexivity | split ].
    + simpl. now rewrite Hlen.
    + intros [ | j] Hj.
      * cbn [nth]. rewrite Z.add_0_r. eexists. reflexivity.
      * cbn [nth]. destruct (Hnum j) as [rest Hrest']; [ simpl in Hj; lia | ].
        exists rest.
        replace (index + Z.of_nat (S j) + 1)%Z with (index + 1 + Z.of_nat j + 1)%Z by lia.
        exact Hrest'.
Qed.

(** An item that is [null] or [undefined] makes the listing throw. *)
Lemma media_lines_absent :
  forall (items : list value) (index : Z),
    all_present items = false ->
    exists e, Index.media_lines host index items = inl e.
Proof.
  induction items as [ | item items IH]; intros index Hall; [ discriminate | ].
  cbn [all_present forallb] in Hall. cbn [Index.media_lines].
  unfold get. destruct (nullish item); [ now eexists | ].
  cbn [negb andb] in Hall. destruct (IH (index + 1)%Z Hall) as [e ->].
  now eexists.
Qed.

End Lines.

(** [names.map(x => x.name)] keeps the length. *)
Lemma names_of_present (items : list value) :
  all_present items = true ->
  Index.names_of items = inr (map (fun x => getOpt x "name") items).
Proof.
  induction items as [ | x items IH]; intro Hall; [ reflexivity | ].
  cbn [all_present forallb] in Hall. apply andb_true_iff in Hall.
  destruct Hall as [Hx Hrest]. apply negb_true_iff in Hx.
  cbn [Index.names_of map]. now rewrite (get_present _ _ Hx), (IH Hrest).
Qed.

Lemma all_present_firstn (n : nat) (items : list value) :
  all_present items = true -> all_present (firstn n items) = true.
Proof.
  revert n. induction items as [ | x items IH]; intros [ | n] Hall; try reflexivity.
  cbn [all_present forallb firstn] in *. apply andb_true_iff in Hall.
  destruct Hall as [Hx Hrest]. rewrite Hx. now apply IH.
Qed.

End GalleryFacts.

Section GalleryProperties.
Import Js Rt RtFacts Measure IndexFacts GalleryFacts.
Variable host : Index.Host.
Variable env : Env.

(** The request of [listMedia]: the type goes into the query only when it
    is not ['all'], the limit always does, as given (10 when none is). *)
Let media_request (args : value) : Request :=
  mkRequest
    (Index.BASE_URL host ++ "/api/media?"
     ++ Index.search_params host
          ((if is_string "all" (with_default (VStr "all") (getOpt args "type"))
            then []
            else [("type", toString (with_default (VStr "all") (getOpt args "type")))])
           ++ [("limit", toString (with_default (VNum 10) (getOpt args "limit")))])%list)
    "GET" [] NoBody.

(** X10. [list_media] in [index.ts]: an empty gallery is no error.  When
    the reply is a success whose [media] is missing, falsy or an empty
    array, the result is the text [No media found in gallery], after the
    one request; the query carries the limit as given (10 by default,
    never clamped) and the type only when it is not ['all']. *)
Theorem list_media_empty_gallery_is_no_error :
  forall (args : value) (response : Response) (data : value),
    nullish args = false ->
    (forall req, on_fetch env 0 req = Resolved response) ->
    ok response = true ->
    json response = inr data ->
    nullish data = false ->
    truthy (getOpt data "media") = false \/ getOpt data "media" = VArr [] ->
    run env 0 (Index.dispatch host "list_media" args) =
    (Returned (text_result "📂 No media found in gallery"),
     [EvFetch
        (mkRequest
           (Index.BASE_URL host ++ "/api/media?"
            ++ Index.search_params host
                 ((if is_string "all" (with_default (VStr "all") (getOpt args "type"))
                   then []
                   else [("type",
                          toString (with_default (VStr "all") (getOpt args "type")))])
                  ++ [("limit",
                       toString (with_default (VNum 10) (getOpt args "limit")))])%list)
           "GET" [] NoBody)]).
Proof.
  intros args response data Hargs Hreply Hok Hjson Hdata Hmedia.
  unfold Index.dispatch, Index.handle. cbn [String.eqb Ascii.eqb Bool.eqb].
  rewrite run_try_catch.
  unfold Index.listMedia, Index.destructure.
  rewrite Hargs. cbn [bind fetch run]. rewrite Hreply. cbn [bind].
  rewrite Hok, Hjson. cbn [negb lift bind].
  rewrite (get_present _ _ Hdata). cbn [lift bind].
  assert (Hempty : or_else (getOpt data "media") (VArr []) = VArr []).
  { unfold or_else. destruct Hmedia as [-> | ->]; reflexivity. }
  rewrite Hempty. reflexivity.
Qed.

(** X11. [list_media] in [index.ts] with a gallery of items that are all
    present: the result is the headline with the number of items followed
    by one entry per item, in order, entry [j] (from 0) beginning with the
    number [j + 1].  An item that is [null] turns the whole listing into an
    [Error: ...] text. *)
Theorem list_media_lists_every_item :
  forall (args : value) (response : Response) (data : value) (items : list value),
    nullish args = false ->
    (forall req, on_fetch env 0 req = Resolved response) ->
    ok response = true ->
    json response = inr data ->
    getOpt data "media" = VArr items ->
    items <> [] ->
    (all_present items = true ->
     exists lines,
       run env 0 (Index.dispatch host "list_media" args) =
       (Returned
          (text_result
             ("📂 Gallery (" ++ string_of_Z (Z.of_nat (List.length items)) ++ " items)"
              ++ Index.nl2 ++ Index.join Index.nl2 lines)),
        [EvFetch (media_request args)]) /\
       List.length lines = List.length items /\
       forall j, j < List.length items ->
         exists rest,
           nth j lines EmptyString = string_of_Z (Z.of_nat j + 1) ++ ". " ++ rest) /\
    (all_present items = false ->
     exists message,
       run env 0 (Index.dispatch host "list_media" args) =
       (Returned (text_result ("Error: " ++ message)), [EvFetch (media_request args)])).
Proof.
  intros args response data items Hargs Hreply Hok Hjson Hmedia Hne.
  assert (Hdata : nullish data = false).
  { destruct data; try reflexivity; discriminate Hmedia. }
  assert (Hrun : run env 0 (Index.dispatch host "list_media" args) =
                 match Index.media_lines host 0 items with
                 | inl e => (Returned (Index.error_result e), [EvFetch (media_request args)])
                 | inr lines =>
                     (Returned
                        (text_result
                           ("📂 Gallery (" ++ string_of_Z (Z.of_nat (List.length items))
                            ++ " items)" ++ Index.nl2 ++ Index.join Index.nl2 lines)),
                      [EvFetch (media_request args)])
                 end).
  { unfold Index.dispatch, Index.handle. cbn [String.eqb Ascii.eqb Bool.eqb].
    rewrite run_try_catch.
    unfold Index.listMedia, Index.destructure.
    rewrite Hargs. cbn [bind fetch run]. rewrite Hreply. cbn [bind].
    rewrite Hok, Hjson. cbn [negb lift bind].
    rewrite (get_present _ _ Hdata). cbn [lift bind]. rewrite Hmedia.
    unfold or_else. cbn [truthy Index.length_of Index.is_zero].
    destruct items as [ | item items']; [ congruence | ].
    assert (Hz : (Z.of_nat (List.length (item :: items')) =? 0)%Z = false).
    { apply Z.eqb_neq. simpl List.length. lia. }
    rewrite Hz.
    destruct (Index.media_lines host 0 (item :: items')) as [e | lines];
      cbn [lift bind run toString]; reflexivity. }
  split; intro Hall.
  - destruct (media_lines_present host items 0 Hall) as (lines & E & Hlen & Hnum).
    exists lines. rewrite Hrun, E. repeat split; auto.
  - destruct (media_lines_absent host items 0 Hall) as [e E].
    rewrite Hrun, E. unfold Index.error_result. eexists. reflexivity.
Qed.

(** X12. [get_cultural_insights] in [index.ts]: a successful reply
    without an analysis ends in an error, whose message is the reply's
    error field when it has one and [Cultural analysis failed] otherwise;
    the run is the one request to the cultural-intelligence endpoint. *)
Theorem insights_without_analysis_is_an_error :
  forall (args : value) (response : Response) (data : value),
    nullish args = false ->
    (forall req, on_fetch env 0 req = Resolved response) ->
    ok response = true ->
    json response = inr data ->
    nullish data = false ->
    truthy (getOpt data "analysis") = false ->
    exists req,
      run env 0 (Index.dispatch host "get_cultural_insights" args) =
      (Returned
         (text_result
            ("Error: " ++
             (if truthy (getOpt data "error")
              then toString (getOpt data "error")
              else "Cultural analysis failed"))),
       [EvFetch req]) /\
      url req = Index.BASE_URL host ++ "/api/cultural/intelligence".
Proof.
  intros args response data Hargs Hreply Hok Hjson Hdata Hanalysis.
  unfold Index.dispatch, Index.handle. cbn [String.eqb Ascii.eqb Bool.eqb].
  rewrite run_try_catch.
  unfold Index.getCulturalInsights, Index.destructure.
  rewrite Hargs. cbn [bind fetch run]. rewrite Hreply. cbn [bind].
  rewrite Hok, Hjson. cbn [negb lift bind].
  rewrite (get_present _ _ Hdata). cbn [lift bind]. rewrite Hanalysis.
  cbn [negb run]. unfold new_Error, or_else, Index.error_result.
  destruct (truthy (getOpt data "error")); cbn [Index.error_message toString];
    eexists; split; reflexivity.
Qed.

(** X13. [get_cultural_insights] in [index.ts] lists the first five
    brands and the first five places only: with an analysis in the reply
    and arrays of present brands and places, the text ends with the names
    of the first five of each, joined by commas. *)
Theorem insights_list_the_first_five :
  forall (args : value) (response : Response) (data : value)
         (brands places : list value),
    nullish args = false ->
    (forall req, on_fetch env 0 req = Resolved response) ->
    ok response = true ->
    json response = inr data ->
    truthy (getOpt data "analysis") = true ->
    getOpt (getOpt (getOpt data "raw") "qloo") "brands" = VArr brands ->
    getOpt (getOpt (getOpt data "raw") "qloo") "places" = VArr places ->
    all_present brands = true ->
    all_present places = true ->
    let names := fun items =>
      map Index.join_text (map (fun x => getOpt x "name") (firstn 5 items)) in
    exists req,
      run env 0 (Index.dispatch host "get_cultural_insights" args) =
      (Returned
         (text_result
            ("🌍 Cultural Insights for " ++ toString (getOpt args "city") ++ ", "
             ++ toString (getOpt args "country") ++ Index.nl2
             ++ "Profile: "
             ++ Index.stringify_pretty host (getOpt (getOpt data "analysis") "profile")
             ++ Index.nl2
             ++ "Communication: "
             ++ Index.stringify_pretty host
                  (getOpt (getOpt data "analysis") "communication")
             ++ Index.nl2
             ++ "Aesthetics: "
             ++ Index.stringify_pretty host (getOpt (getOpt data "analysis") "aesthetics")
             ++ Index.nl2
             ++ "Popular Brands: " ++ Index.join ", " (names brands) ++ Index.nl2
             ++ "Notable Places: " ++ Index.join ", " (names places))),
       [EvFetch req]) /\
      List.length (names brands) <= 5 /\ List.length (names places) <= 5.
Proof.
  intros args response data brands places Hargs Hreply Hok Hjson Hanalysis
    Hbrands Hplaces Hb Hp names. subst names.
  destruct (ImageFacts.truthy_property _ _ Hanalysis) as [fields ->].
  unfold Index.dispatch, Index.handle. cbn [String.eqb Ascii.eqb Bool.eqb].
  rewrite run_try_catch.
  unfold Index.getCulturalInsights, Index.destructure.
  rewrite Hargs. cbn [bind fetch run]. rewrite Hreply. cbn [bind].
  rewrite Hok, Hjson. cbn [negb lift bind get nullish]. rewrite Hanalysis.
  cbn [negb]. rewrite Hbrands, Hplaces.
  cbn [Index.first_five lift bind Index.map_names].
  rewrite (names_of_present _ (all_present_firstn 5 _ Hb)).
  rewrite (names_of_present _ (all_present_firstn 5 _ Hp)).
  cbn [lift bind run].
  eexists. split; [ reflexivity | ].
  rewrite !length_map. split; apply firstn_le_length.
Qed.

End GalleryProperties.

(* ===================================================================== *)
(** * Further properties of image editing and of the provider variants *)
(* ===================================================================== *)

Module ProviderFacts.
Import Js Rt RtFacts Measure.

(** The scan passes over parts without inline data and stops at the
    first part that has some. *)
Lemma first_inline_skips (pre post : list value) (p : value) :
  no_inline_data pre = true ->
  truthy (getOpt (getOpt p "inlineData") "data") = true ->
  Standalone.first_inline (pre ++ p :: post) = getOpt p "inlineData".
Proof.
  intros Hpre Hp. induction pre as [ | q pre IH]; cbn [app Standalone.first_inline].
  - now rewrite Hp.
  - cbn [no_inline_data forallb] in Hpre. apply andb_true_iff in Hpre.
    destruct Hpre as [Hq Hrest]. apply negb_true_iff in Hq. rewrite Hq.
    now apply IH.
Qed.

Lemma first_inline_none (parts : list value) :
  no_inline_data parts = true -> Standalone.first_inline parts = VNull.
Proof.
  induction parts as [ | q parts IH]; intro H; [ reflexivity | ].
  cbn [no_inline_data forallb] in H. apply andb_true_iff in H.
  destruct H as [Hq Hrest]. apply negb_true_iff in Hq.
  cbn [Standalone.first_inline]. rewrite Hq. now apply IH.
Qed.


(** The data-URL handed back for a list of parts. *)
Lemma inline_data_url_of_parts (missing : string) (result : value) (parts : list value) :
  parts_of result = VArr parts ->
  Standalone.inline_data_url missing result =
  let inlineData := Standalone.first_inline parts in
  if negb (truthy (getOpt inlineData "data")) then throw_Error missing
  else Ret ("data:" ++ toString (or_else (getOpt inlineData "mimeType") (VStr "image/png"))
            ++ ";base64," ++ toString (getOpt inlineData "data")).
Proof.
  unfold parts_of. intro H. unfold Standalone.inline_data_url.
  rewrite H. reflexivity.
Qed.

End ProviderFacts.

Section EditProperties.
Import Js Rt RtFacts Measure Normalizer ProviderFacts DataUrlFacts.
Variable ihost : Index.Host.
Variable shost : Standalone.Host.
Variable env : Env.

(** X14. [edit_image] with a remote source image that cannot be fetched:
    when the fetch of the image answers with a status outside 200-299, the
    invocation ends with [Error: Failed to fetch image: ...] ([index.ts]
    gives the status text, [standalone.ts] the status code) and the run is
    that fetch alone: nothing is sent to the edit endpoint or to the
    provider. *)
Theorem edit_image_stops_when_source_fetch_fails :
  forall (args : value) (imageResponse : Response),
    let image_url := toString (getOpt args "image_url") in
    startsWith "data:" image_url = false ->
    on_fetch env 0 (mkRequest image_url "GET" [] NoBody) = Resolved imageResponse ->
    ok imageResponse = false ->
    (nullish args = false ->
     run env 0 (Index.dispatch ihost "edit_image" args) =
     (Returned (text_result ("Error: Failed to fetch image: "
                             ++ statusText imageResponse)),
      [EvFetch (mkRequest image_url "GET" [] NoBody)])) /\
    (truthy (getOpt args "prompt") = true ->
     truthy (getOpt args "image_url") = true ->
     run env 0 (Standalone.dispatch shost "edit_image" args) =
     (Returned (text_result ("Error: Failed to fetch image: "
                             ++ string_of_Z (status imageResponse))),
      [EvFetch (mkRequest image_url "GET" [] NoBody)])).
Proof.
  intros args imageResponse image_url Hremote Hreply Hok. subst image_url. split.
  - intro Hargs.
    unfold Index.dispatch, Index.handle. cbn [String.eqb Ascii.eqb Bool.eqb].
    rewrite run_try_catch.
    unfold Index.editImage, Index.destructure, Index.image_file.
    rewrite Hargs, Hremote. cbn [bind fetch run]. rewrite Hreply. cbn [bind].
    rewrite Hok. reflexivity.
  - intros Hp Hu. destruct (ImageFacts.truthy_property _ _ Hp) as [fields ->].
    unfold Standalone.dispatch, Standalone.handle. cbn [String.eqb Ascii.eqb Bool.eqb].
    rewrite run_try_catch.
    unfold Standalone.editImage, Standalone.edit_body, Standalone.normalize_image, or_else.
    cbn [truthy]. rewrite Hp, Hu, Hremote. cbn [negb orb bind fetch run].
    rewrite Hreply. cbn [bind]. rewrite Hok. reflexivity.
Qed.

(** X15. A data-URL is cut at every comma and only the second piece is
    the payload: with a header and a payload free of commas, whatever
    follows a further comma is ignored, in [index.ts] (the bytes decoded)
    and in [standalone.ts] (the base64 text handed on). *)
Theorem data_url_payload_ends_at_the_second_comma :
  forall (header payload rest : string),
    has_char "," header = false ->
    has_char "," payload = false ->
    let mimeType := match match_data_mime header with
                    | Some m => m
                    | None => "image/png"
                    end in
    Index.decode_data_url (header ++ "," ++ payload ++ "," ++ rest)
      = inr (Base64.decode payload, mimeType) /\
    Index.decode_data_url (header ++ "," ++ payload)
      = inr (Base64.decode payload, mimeType) /\
    (startsWith "data:" header = true ->
     Standalone.normalize_image (VStr (header ++ "," ++ payload ++ "," ++ rest))
       = Ret (VStr payload, mimeType)).
Proof.
  intros header payload rest Hh Hp mimeType. subst mimeType.
  assert (H2 : split_comma (header ++ "," ++ payload ++ "," ++ rest)
               = header :: payload :: split_comma rest).
  { change ("," ++ payload ++ "," ++ rest) with (String "," (payload ++ String "," rest)).
    rewrite split_comma_first by assumption.
    now rewrite split_comma_first by assumption. }
  assert (H1 : split_comma (header ++ "," ++ payload) = [header; payload]).
  { change ("," ++ payload) with (String "," payload).
    rewrite split_comma_first by assumption.
    now rewrite split_comma_none by assumption. }
  split; [ | split ].
  - unfold Index.decode_data_url. rewrite H2. reflexivity.
  - unfold Index.decode_data_url. rewrite H1. reflexivity.
  - intro Hdata. unfold Standalone.normalize_image. cbn [toString].
    assert (Hs : startsWith "data:" (header ++ "," ++ payload ++ "," ++ rest) = true).
    { unfold startsWith in *. apply String.prefix_correct in Hdata.
      apply String.prefix_correct.
      destruct header as [ | a [ | b [ | c [ | d [ | e h]]]]]; try discriminate Hdata.
      cbn in Hdata. cbn.
      destruct h; injection Hdata as -> -> -> -> ->; cbn;
        now destruct (payload ++ "," ++ rest). }
    rewrite Hs, H2. reflexivity.
Qed.

End EditProperties.

Section ProviderProperties.
Import Js Rt RtFacts Measure ProviderFacts HandlerFacts.
Variable env : Env.

(** X16. [get_cultural_insights] without the chat-completion credential:
    with a city and a country given, [standalone.ts] answers [Error:
    OPENAI_API_KEY not set on server] and the hosted variant [Error: OpenAI
    API key not configured], in both cases without any call; a missing
    city or country is reported first, credential or not. *)
Theorem insights_without_credential_make_no_call :
  forall (shost : Standalone.Host) (config : Smithery.Config) (args : value),
    (truthy (getOpt args "city") = true ->
     truthy (getOpt args "country") = true ->
     (Standalone.openai_configured shost = false ->
      Standalone.dispatch shost "get_cultural_insights" args
        = Ret (text_result "Error: OPENAI_API_KEY not set on server")) /\
     (Smithery.openai config = false ->
      Smithery.get_cultural_insights config args
        = Ret (text_result "Error: OpenAI API key not configured"))) /\
    (nullish args = false ->
     truthy (getOpt args "city") = false \/ truthy (getOpt args "country") = false ->
     Standalone.dispatch shost "get_cultural_insights" args
       = Ret (text_result "Error: Missing city or country") /\
     Smithery.get_cultural_insights config args
       = Ret (text_result "Error: Missing city or country")).
Proof.
  intros shost config args. split.
  - intros Hcity Hcountry.
    destruct (ImageFacts.truthy_property _ _ Hcity) as [fields ->].
    split; intro Hkey.
    + unfold Standalone.dispatch, Standalone.handle. cbn [String.eqb Ascii.eqb Bool.eqb].
      unfold Standalone.getCulturalInsights, or_else. cbn [truthy].
      now rewrite Hcity, Hcountry, Hkey.
    + unfold Smithery.get_cultural_insights, Smithery.destructure_parameter.
      cbn [nullish bind]. now rewrite Hcity, Hcountry, Hkey.
  - intros Hargs Hmissing.
    assert (Htest : negb (truthy (getOpt args "city"))
                    || negb (truthy (getOpt args "country")) = true).
    { destruct Hmissing as [-> | ->]; [ reflexivity | apply orb_true_r ]. }
    split.
    + unfold Standalone.dispatch, Standalone.handle. cbn [String.eqb Ascii.eqb Bool.eqb].
      unfold Standalone.getCulturalInsights, or_else.
      destruct (truthy args) eqn:Ht.
      * now rewrite Htest.
      * reflexivity.
    + unfold Smithery.get_cultural_insights, Smithery.destructure_parameter.
      rewrite Hargs. cbn [bind]. now rewrite Htest.
Qed.

(** X17. [get_cultural_insights] in [standalone.ts] with the credential
    set: the run is exactly one chat-completion call, to the model named by
    [OPENAI_MODEL] or to [gpt-4o-mini], and the result is the content of
    the first choice, or [No insights generated] when that is missing or
    empty. *)
Theorem insights_are_one_chat_call :
  forall (shost : Standalone.Host) (args resp : value),
    truthy (getOpt args "city") = true ->
    truthy (getOpt args "country") = true ->
    Standalone.openai_configured shost = true ->
    let request :=
      mkChat (match Standalone.OPENAI_MODEL shost with
              | Some m => if m =? "" then "gpt-4o-mini" else m
              | None => "gpt-4o-mini"
              end)
        Standalone.system_prompt
        (Standalone.user_prompt (getOpt args "city") (getOpt args "country")
           (getOpt args "business_type") (getOpt args "target_audience")) in
    on_chat env 0 request = inr resp ->
    nullish resp = false ->
    run env 0 (Standalone.dispatch shost "get_cultural_insights" args) =
    (Returned
       (text_result
          (if truthy (content_of resp) then toString (content_of resp)
           else "No insights generated")),
     [EvChat request]).
Proof.
  intros shost args resp Hcity Hcountry Hkey request Hreply Hresp. subst request.
  destruct (ImageFacts.truthy_property _ _ Hcity) as [fields ->].
  unfold Standalone.dispatch, Standalone.handle. cbn [String.eqb Ascii.eqb Bool.eqb].
  rewrite run_try_catch.
  unfold Standalone.getCulturalInsights.
  change (or_else (VObj fields) (VObj [])) with (VObj fields).
  rewrite Hcity, Hcountry, Hkey. cbn [negb orb bind chatCreate run].
  rewrite Hreply. cbn [lift bind].
  rewrite (IndexFacts.get_present _ _ Hresp). cbn [lift bind run].
  unfold or_else, content_of.
  now destruct (truthy (getOpt (getOpt (index0 (getOpt resp "choices")) "message")
                          "content")).
Qed.

(** X18. [generate_image] in [standalone.ts] hands back the first part of
    the provider's reply that carries inline data, whatever comes before
    or after it; its mime type defaults to [image/png].  When no part
    carries inline data the invocation ends with [Error: No image
    generated]. *)
Theorem first_inline_part_is_handed_back :
  forall (shost : Standalone.Host) (args result : value) (pre post : list value)
         (part : value),
    truthy (getOpt args "prompt") = true ->
    (forall n m c, on_generate env n m c = inr result) ->
    no_inline_data pre = true ->
    let contents := Standalone.user_contents [VObj [("text", getOpt args "prompt")]] in
    let headline :=
      if is_string "imagen" (with_default (VStr "gemini") (getOpt args "model"))
      then "✅ Image (Gemini fallback for Imagen)" else "✅ Gemini image" in
    (parts_of result = VArr (pre ++ part :: post)%list ->
     truthy (getOpt (getOpt part "inlineData") "data") = true ->
     run env 0 (Standalone.dispatch shost "generate_image" args) =
     (Returned
        (text_result
           (headline ++ Standalone.nl2 ++ "Prompt: " ++ toString (getOpt args "prompt")
            ++ Standalone.nl2 ++ "data:"
            ++ toString (or_else (getOpt (getOpt part "inlineData") "mimeType")
                           (VStr "image/png"))
            ++ ";base64," ++ toString (getOpt (getOpt part "inlineData") "data"))),
      [EvGenerate Standalone.modelId contents])) /\
    (parts_of result = VArr pre ->
     run env 0 (Standalone.dispatch shost "generate_image" args) =
     (Returned (text_result "Error: No image generated"),
      [EvGenerate Standalone.modelId contents])).
Proof.
  intros shost args result pre post part Hp Hreply Hpre contents headline.
  subst contents headline.
  destruct (ImageFacts.truthy_property _ _ Hp) as [fields ->].
  unfold Standalone.dispatch, Standalone.handle. cbn [String.eqb Ascii.eqb Bool.eqb].
  rewrite !run_try_catch.
  rewrite (ImageFacts.standalone_generate_route _ Hp).
  unfold Standalone.generate_with. cbn [bind generateContent run].
  rewrite Hreply. cbn [lift bind]. split.
  - intros Hparts Hdata.
    rewrite (inline_data_url_of_parts _ _ _ Hparts). cbv zeta.
    rewrite (first_inline_skips pre post part Hpre Hdata), Hdata.
    cbn [negb bind run]. reflexivity.
  - intro Hparts.
    rewrite (inline_data_url_of_parts _ _ _ Hparts). cbv zeta.
    rewrite (first_inline_none pre Hpre). reflexivity.
Qed.


(** X20. The hosted variant and [standalone.ts] are the same program on
    an arguments object: for [generate_image] and [edit_image] the hosted
    callback and the dispatcher of [standalone.ts] make the same calls and
    give the same results, and so do the two [get_cultural_insights] when
    the credential is set on both sides and no model override is. *)
Theorem hosted_callbacks_agree_with_standalone :
  forall (shost : Standalone.Host) (config : Smithery.Config)
         (fields : list (string * value)),
    Smithery.generate_image (VObj fields)
      = Standalone.dispatch shost "generate_image" (VObj fields) /\
    Smithery.edit_image (VObj fields)
      = Standalone.dispatch shost "edit_image" (VObj fields) /\
    (Standalone.openai_configured shost = true ->
     Standalone.OPENAI_MODEL shost = None ->
     Smithery.openai config = true ->
     Smithery.get_cultural_insights config (VObj fields)
       = Standalone.dispatch shost "get_cultural_insights" (VObj fields)).
Proof.
  intros shost config fields. split; [ | split ].
  - reflexivity.
  - reflexivity.
  - intros Hkey Hmodel Hopenai.
    unfold Standalone.dispatch, Standalone.handle. cbn [String.eqb Ascii.eqb Bool.eqb].
    unfold Smithery.get_cultural_insights, Smithery.destructure_parameter,
      Standalone.getCulturalInsights, or_else.
    cbn [nullish truthy bind]. now rewrite Hkey, Hmodel, Hopenai.
Qed.

(** X21. Given an arguments object, the callbacks of the hosted variant
    never throw: whatever the provider and the network answer, each run
    returns a result of exactly one text block. *)
Theorem hosted_callbacks_always_return_a_text_block :
  forall (config : Smithery.Config) (args : value),
    nullish args = false ->
    (exists s t, run env 0 (Smithery.generate_image args) = (Returned (text_result s), t)) /\
    (exists s t, run env 0 (Smithery.edit_image args) = (Returned (text_result s), t)) /\
    (exists s t,
        run env 0 (Smithery.get_cultural_insights config args)
        = (Returned (text_result s), t)).
Proof.
  intros config args Hargs.
  assert (Hcatch : forall p,
             settles one_text_block p ->
             exists s t,
               run env 0 (try_catch p (fun error => Ret (Standalone.error_result error)))
               = (Returned (text_result s), t)).
  { intros p Hp.
    destruct (delivers_run _ _
                (settles_try_catch one_text_block p Standalone.error_result Hp
                   (fun e => one_text_block_text _)) env 0)
      as (r & t & E & s & ->).
    now exists s, t. }
  unfold Smithery.generate_image, Smithery.edit_image, Smithery.get_cultural_insights,
    Smithery.destructure_parameter.
  rewrite Hargs. cbn [bind]. split; [ | split ]; apply Hcatch.
  - apply settles_generate_body.
  - apply settles_edit_body.
  - settle.
Qed.

End ProviderProperties.

Section Unreachable.
Import Js Rt RtFacts Measure IndexFacts.
Variable host : Index.Host.
Variable env : Env.

(** X22. [index.ts] against a backend that cannot be reached: when every
    request is rejected, an invocation of any of the five tools with an
    arguments object is answered with an [Error: ...] text after at most
    one request and without any wait; [generate_video] does not start
    polling. *)
Theorem unreachable_backend_is_reported_after_one_request :
  forall (name : string) (args : value) (rejection : Thrown),
    registered Index.tools name = true ->
    nullish args = false ->
    (forall n req, on_fetch env n req = Rejected rejection) ->
    exists message t,
      run env 0 (Index.dispatch host name args)
      = (Returned (text_result ("Error: " ++ message)), t) /\
      external_calls t <= 1 /\
      total_wait t = 0%Z.
Proof.
  intros name args rejection Hname Hargs Hreject.
  unfold Index.dispatch, Index.handle.
  destruct (index_registered name Hname) as [-> | [-> | [-> | [-> | ->]]]];
    cbn [String.eqb Ascii.eqb Bool.eqb]; rewrite run_try_catch;
    unfold Index.generateImage, Index.editImage, Index.generateVideo,
      Index.getCulturalInsights, Index.listMedia, Index.destructure, Index.image_file;
    rewrite Hargs; cbn [bind fetch run].
  - rewrite Hreject. cbn [bind run]. unfold Index.error_result.
    eexists. eexists. split; [ reflexivity | split; [ cbn; lia | reflexivity ] ].
  - destruct (startsWith "data:" (toString (getOpt args "image_url"))).
    + destruct (Index.decode_data_url (toString (getOpt args "image_url")))
        as [e | bm]; cbn [lift bind fetch run].
      * unfold Index.error_result.
        eexists. eexists. split; [ reflexivity | split; [ cbn; lia | reflexivity ] ].
      * rewrite Hreject. cbn [bind run]. unfold Index.error_result.
        eexists. eexists. split; [ reflexivity | split; [ cbn; lia | reflexivity ] ].
    + cbn [bind fetch run]. rewrite Hreject. cbn [bind run]. unfold Index.error_result.
      eexists. eexists. split; [ reflexivity | split; [ cbn; lia | reflexivity ] ].
  - rewrite Hreject. cbn [bind run]. unfold Index.error_result.
    eexists. eexists. split; [ reflexivity | split; [ cbn; lia | reflexivity ] ].
  - rewrite Hreject. cbn [bind run]. unfold Index.error_result.
    eexists. eexists. split; [ reflexivity | split; [ cbn; lia | reflexivity ] ].
  - rewrite Hreject. cbn [bind run]. unfold Index.error_result.
    eexists. eexists. split; [ reflexivity | split; [ cbn; lia | reflexivity ] ].
Qed.

End Unreachable.

(* ===================================================================== *)
(** * The further properties at concrete inputs *)
(* ===================================================================== *)

Section FurtherInstances.
Import Js Rt Normalizer Measure Samples.

(** X3 against a backend that answers 503. *)
Lemma generate_image_reports_status_503 :
  exists req,
    run (always (json_reply 503 VNull)) 0
        (Index.dispatch index_host "generate_image" (VObj [("prompt", VStr "a red fox")]))
    = (Returned (text_result ("Error: API error: " ++ string_of_Z 503 ++ " " ++ "")),
       [EvFetch req]).
Proof.
  apply (index_backend_failure_is_reported index_host (always (json_reply 503 VNull))
           (VObj [("prompt", VStr "a red fox")])
           (mkResponse 503 "" "application/json" (inr VNull) [])).
  - reflexivity.
  - intro req. reflexivity.
  - reflexivity.
Defined.

(** X4 at a reply with a hosted URL beside inline bytes. *)
Lemma red_fox_gets_the_hosted_url :
  exists req,
    run (always (json_reply 200
                   (VObj [("image", VObj [("url", VStr "https://x/y.png");
                                          ("imageBytes", VStr "aGk=")])])))
        0 (Index.dispatch index_host "generate_image"
             (VObj [("prompt", VStr "a red fox"); ("model", VStr "gemini")]))
    = (Returned
         (text_result
            ("✅ Image generated successfully using gemini" ++ Index.nl2
             ++ "Prompt: a red fox" ++ Index.nl2 ++ "Image URL: https://x/y.png")),
       [EvFetch req]).
Proof.
  apply (index_generate_image_prefers_hosted_url index_host
           (always (json_reply 200
                      (VObj [("image", VObj [("url", VStr "https://x/y.png");
                                             ("imageBytes", VStr "aGk=")])])))
           (VObj [("prompt", VStr "a red fox"); ("model", VStr "gemini")])
           (mkResponse 200 "" "application/json"
              (inr (VObj [("image", VObj [("url", VStr "https://x/y.png");
                                          ("imageBytes", VStr "aGk=")])])) [])
           (VObj [("image", VObj [("url", VStr "https://x/y.png");
                                  ("imageBytes", VStr "aGk=")])])).
  - reflexivity.
  - intro req. reflexivity.
  - reflexivity.
  - reflexivity.
  - reflexivity.
  - reflexivity.
Defined.

(** X5 at a reply with an error field. *)
Lemma quota_error_is_reported :
  exists req,
    run (always (json_reply 200 (VObj [("error", VStr "quota exceeded")]))) 0
        (Index.dispatch index_host "generate_image" (VObj [("prompt", VStr "a red fox")]))
    = (Returned (text_result "Error: quota exceeded"), [EvFetch req]).
Proof.
  apply (index_upstream_error_field_is_reported index_host
           (always (json_reply 200 (VObj [("error", VStr "quota exceeded")])))
           (VObj [("prompt", VStr "a red fox")])
           (mkResponse 200 "" "application/json"
              (inr (VObj [("error", VStr "quota exceeded")])) [])
           (VObj [("error", VStr "quota exceeded")])).
  - reflexivity.
  - intros n req. reflexivity.
  - reflexivity.
  - reflexivity.
  - reflexivity.
Defined.

(** X6 at [list_media] invoked with [null]. *)
Lemma list_media_with_null_makes_no_call :
  exists message,
    Index.dispatch index_host "list_media" VNull = Ret (text_result ("Error: " ++ message)).
Proof.
  apply (index_invocation_without_arguments_makes_no_call index_host "list_media" VNull).
  - reflexivity.
  - reflexivity.
Defined.

(** X8 at a start reply that is an empty object. *)
Lemma empty_start_reply_is_not_polled :
  exists req,
    run (always (json_reply 200 (VObj []))) 0
        (Index.dispatch index_host "generate_video" (VObj [("prompt", VStr "a fox")]))
    = (Returned (text_result "Error: No operation name returned from video generation"),
       [EvFetch req]) /\
    url req = "http://localhost:3000/api/veo/generate".
Proof.
  apply (video_without_operation_name_is_not_polled index_host
           (always (json_reply 200 (VObj [])))
           (VObj [("prompt", VStr "a fox")])
           (mkResponse 200 "" "application/json" (inr (VObj [])) [])
           (VObj [])).
  - reflexivity.
  - intro req. reflexivity.
  - reflexivity.
  - reflexivity.
  - reflexivity.
  - reflexivity.
Defined.

(** X9 at the data-URL of a PNG. *)
Lemma png_start_image_is_taken_apart :
  Index.start_image_entries (VStr (encodeAsDataUrl (hi, "image/png")))
  = [("imageBase64", FormText "aGk="); ("imageMimeType", FormText "image/png")].
Proof.
  apply (proj1 (proj2 (proj2 (video_start_image_is_passed_on_not_fetched index_host)))
           hi "image/png").
  - discriminate.
  - reflexivity.
  - reflexivity.
Defined.

(** X10 at an empty gallery, asked for 1000 items. *)
Lemma empty_gallery_with_limit_1000 :
  run (always (json_reply 200 (VObj [("media", VArr [])]))) 0
      (Index.dispatch index_host "list_media" (VObj [("limit", VNum 1000)]))
  = (Returned (text_result "📂 No media found in gallery"),
     [EvFetch (mkRequest "http://localhost:3000/api/media?limit=1000" "GET" [] NoBody)]).
Proof.
  apply (list_media_empty_gallery_is_no_error index_host
           (always (json_reply 200 (VObj [("media", VArr [])])))
           (VObj [("limit", VNum 1000)])
           (mkResponse 200 "" "application/json" (inr (VObj [("media", VArr [])])) [])
           (VObj [("media", VArr [])])).
  - reflexivity.
  - intro req. reflexivity.
  - reflexivity.
  - reflexivity.
  - reflexivity.
  - right. reflexivity.
Defined.

(** X11 at a gallery of two items. *)
Lemma gallery_of_two_has_two_entries :
  exists lines,
    List.length lines = 2 /\
    exists t,
      run (always (json_reply 200
                     (VObj [("media",
                             VArr [media_item "Fox" "image" "https://x/fox.png";
                                   media_item "Clip" "video" "https://x/clip.mp4"])])))
          0 (Index.dispatch index_host "list_media" (VObj []))
      = (Returned
           (text_result
              ("📂 Gallery (" ++ string_of_Z 2 ++ " items)" ++ Index.nl2
               ++ Index.join Index.nl2 lines)),
         t).
Proof.
  destruct (proj1 (list_media_lists_every_item index_host
              (always (json_reply 200
                         (VObj [("media",
                                 VArr [media_item "Fox" "image" "https://x/fox.png";
                                       media_item "Clip" "video" "https://x/clip.mp4"])])))
              (VObj [])
              (mkResponse 200 "" "application/json"
                 (inr (VObj [("media",
                              VArr [media_item "Fox" "image" "https://x/fox.png";
                                    media_item "Clip" "video" "https://x/clip.mp4"])])) [])
              (VObj [("media",
                      VArr [media_item "Fox" "image" "https://x/fox.png";
                            media_item "Clip" "video" "https://x/clip.mp4"])])
              [media_item "Fox" "image" "https://x/fox.png";
               media_item "Clip" "video" "https://x/clip.mp4"]
              eq_refl (fun req => eq_refl) eq_refl eq_refl eq_refl
              ltac:(discriminate)) eq_refl)
    as (lines & Hrun & Hlen & _).
  exists lines. split; [ exact Hlen | ]. eexists. exact Hrun.
Defined.

(** X12 at a reply with neither analysis nor error. *)
Lemma empty_insights_reply_fails :
  exists req,
    run (always (json_reply 200 (VObj []))) 0
        (Index.dispatch index_host "get_cultural_insights"
           (VObj [("city", VStr "Lisbon"); ("country", VStr "Portugal")]))
    = (Returned (text_result "Error: Cultural analysis failed"), [EvFetch req]) /\
    url req = "http://localhost:3000/api/cultural/intelligence".
Proof.
  apply (insights_without_analysis_is_an_error index_host
           (always (json_reply 200 (VObj [])))
           (VObj [("city", VStr "Lisbon"); ("country", VStr "Portugal")])
           (mkResponse 200 "" "application/json" (inr (VObj [])) [])
           (VObj [])).
  - reflexivity.
  - intro req. reflexivity.
  - reflexivity.
  - reflexivity.
  - reflexivity.
  - reflexivity.
Defined.

(** X13 at a reply with six brands and no places. *)
Lemma six_brands_are_cut_to_five :
  exists req text,
    run (always (json_reply 200 (insights_reply six_brands []))) 0
        (Index.dispatch index_host "get_cultural_insights"
           (VObj [("city", VStr "Lisbon"); ("country", VStr "Portugal")]))
    = (Returned (text_result text), [EvFetch req]) /\
    Index.join ", "
      (map Index.join_text (map (fun x => getOpt x "name") (firstn 5 six_brands)))
    = "A, B, C, D, E".
Proof.
  destruct (insights_list_the_first_five index_host
              (always (json_reply 200 (insights_reply six_brands [])))
              (VObj [("city", VStr "Lisbon"); ("country", VStr "Portugal")])
              (mkResponse 200 "" "application/json"
                 (inr (insights_reply six_brands [])) [])
              (insights_reply six_brands []) six_brands []
              eq_refl (fun req => eq_refl) eq_refl eq_refl eq_refl eq_refl eq_refl
              eq_refl eq_refl)
    as (req & Hrun & _).
  exists req. eexists. split; [ exact Hrun | reflexivity ].
Defined.

(** X14 at an image URL that answers 404. *)
Lemma missing_source_image_stops_the_edit :
  run (always (Resolved (mkResponse 404 "Not Found" "text/html" (inr VNull) []))) 0
      (Index.dispatch index_host "edit_image"
         (VObj [("prompt", VStr "make it blue"); ("image_url", VStr "https://x/cat.jpg")]))
  = (Returned (text_result "Error: Failed to fetch image: Not Found"),
     [EvFetch (mkRequest "https://x/cat.jpg" "GET" [] NoBody)]).
Proof.
  apply (proj1 (edit_image_stops_when_source_fetch_fails index_host standalone_host
                  (always (Resolved (mkResponse 404 "Not Found" "text/html"
                                       (inr VNull) [])))
                  (VObj [("prompt", VStr "make it blue");
                         ("image_url", VStr "https://x/cat.jpg")])
                  (mkResponse 404 "Not Found" "text/html" (inr VNull) [])
                  ltac:(vm_compute; reflexivity) eq_refl eq_refl)).
  reflexivity.
Defined.

(** X15 at a data-URL with a second comma. *)
Lemma text_after_second_comma_is_dropped :
  Index.decode_data_url ("data:image/png;base64" ++ "," ++ "aGk=" ++ "," ++ "junk")
  = inr (hi, "image/png").
Proof.
  apply (data_url_payload_ends_at_the_second_comma "data:image/png;base64" "aGk=" "junk").
  - reflexivity.
  - reflexivity.
Defined.

(** X16 at Lisbon, without a credential. *)
Lemma lisbon_without_credential :
  Standalone.dispatch standalone_host "get_cultural_insights"
    (VObj [("city", VStr "Lisbon"); ("country", VStr "Portugal")])
  = Ret (text_result "Error: OPENAI_API_KEY not set on server").
Proof.
  apply (proj1 (proj1 (insights_without_credential_make_no_call
                         standalone_host hosted_config
                         (VObj [("city", VStr "Lisbon"); ("country", VStr "Portugal")]))
                  eq_refl eq_refl)).
  reflexivity.
Defined.

(** X17 at Lisbon, with a credential and a completion. *)
Lemma lisbon_with_credential :
  exists request,
    run (provider (inr (completion (VStr "Fado, tiles, late dinners.")))) 0
        (Standalone.dispatch standalone_host_with_openai "get_cultural_insights"
           (VObj [("city", VStr "Lisbon"); ("country", VStr "Portugal")]))
    = (Returned (text_result "Fado, tiles, late dinners."), [EvChat request]) /\
    chat_model request = "gpt-4o-mini".
Proof.
  eexists. split.
  - apply (insights_are_one_chat_call
             (provider (inr (completion (VStr "Fado, tiles, late dinners."))))
             standalone_host_with_openai
             (VObj [("city", VStr "Lisbon"); ("country", VStr "Portugal")])
             (completion (VStr "Fado, tiles, late dinners."))).
    + reflexivity.
    + reflexivity.
    + reflexivity.
    + reflexivity.
    + reflexivity.
  - reflexivity.
Defined.

(** X18 at a reply with a text part followed by two image parts. *)
Lemma first_of_two_images_is_handed_back :
  run (provider (inr two_images)) 0
      (Standalone.dispatch standalone_host "generate_image"
         (VObj [("prompt", VStr "a red fox")]))
  = (Returned
       (text_result
          ("✅ Gemini image" ++ Standalone.nl2 ++ "Prompt: a red fox" ++ Standalone.nl2
           ++ "data:image/webp;base64,aGk=")),
     [EvGenerate Standalone.modelId
        (Standalone.user_contents [VObj [("text", VStr "a red fox")]])]).
Proof.
  apply (proj1 (first_inline_part_is_handed_back (provider (inr two_images))
                  standalone_host (VObj [("prompt", VStr "a red fox")]) two_images
                  [VObj [("text", VStr "here you are")]]
                  [inline_part "image/png" "eA=="]
                  (inline_part "image/webp" "aGk=")
                  eq_refl (fun n m c => eq_refl) eq_refl)).
  - reflexivity.
  - reflexivity.
Defined.

(** X20 at Lisbon, with the credential on both sides. *)
Lemma hosted_and_standalone_insights_agree :
  Smithery.get_cultural_insights hosted_config_with_key
    (VObj [("city", VStr "Lisbon"); ("country", VStr "Portugal")])
  = Standalone.dispatch standalone_host_with_openai "get_cultural_insights"
      (VObj [("city", VStr "Lisbon"); ("country", VStr "Portugal")]).
Proof.
  apply (hosted_callbacks_agree_with_standalone standalone_host_with_openai
           hosted_config_with_key
           [("city", VStr "Lisbon"); ("country", VStr "Portugal")]).
  - reflexivity.
  - reflexivity.
  - reflexivity.
Defined.

(** X21 at an empty arguments object. *)
Lemma hosted_edit_image_with_empty_arguments :
  exists s t,
    run (provider no_sdk_reply) 0 (Smithery.edit_image (VObj []))
    = (Returned (text_result s), t).
Proof.
  apply (hosted_callbacks_always_return_a_text_block (provider no_sdk_reply)
           hosted_config (VObj [])).
  reflexivity.
Defined.

(** X22 at [generate_video] with the network down. *)
Lemma generate_video_with_the_network_down :
  exists message t,
    run (always (Rejected fetch_failed)) 0
        (Index.dispatch index_host "generate_video" (VObj [("prompt", VStr "a fox")]))
    = (Returned (text_result ("Error: " ++ message)), t) /\
    external_calls t <= 1 /\
    total_wait t = 0%Z.
Proof.
  apply (unreachable_backend_is_reported_after_one_request index_host
           (always (Rejected fetch_failed)) "generate_video"
           (VObj [("prompt", VStr "a fox")]) fetch_failed).
  - reflexivity.
  - reflexivity.
  - intros n req. reflexivity.
Defined.

End FurtherInstances.
